(** * donately: the request/response pipeline of the Donately REST client

    A shallow embedding of [client.go] (package [donately]): client
    construction with functional options, the request executor
    [makeRequestWithContentType] with its error classification, the retry
    wrapper used by [SaveDonation], and the nineteen resource operations of
    the [Client] interface.

    Go strings are byte strings and are modelled by [string] (a list of
    8-bit [ascii]); Go [int]/[int64] values by [Z]; [url.Values] and
    [http.Header] (both [map[string][]string]) by [gmap string (list string)];
    a Go result pair [(T, error)] by a pair whose second component is an
    [option error] ([None] is the nil error); a pointer result
    [*APIResponse] by an [option]. *)

From Stdlib Require Import ZArith Ascii.
From stdpp Require Import base option list strings gmap sorting pretty.

(** ** Errors *)

(** The dynamic types an [error] value can have in this package. *)
Inductive error : Type :=
  | errorString (s : string)
      (* errors.New(s), and fmt.Errorf with no %w verb *)
  | wrapError (msg : string) (err : error)
      (* fmt.Errorf with a %w verb: the formatted text and the wrapped error *)
  | retryableError (Err : error) (canRetry : bool)
      (* the package's own retryableError struct *)
  | externalError (msg : string).
      (* an error made by a package outside the repository
         (encoding/json, net/http, io, context) *)

(** func (e retryableError) Error() string, and the Error methods of the
    library types. *)
Fixpoint Error (e : error) : string :=
  match e with
  | errorString s => s
  | wrapError msg _ => msg
  | retryableError Err _ => Error Err
  | externalError msg => msg
  end.

(** func (e retryableError) Unwrap() error, and fmt's wrapError.Unwrap. *)
Definition Unwrap (e : error) : option error :=
  match e with
  | wrapError _ err => Some err
  | retryableError Err _ => Some Err
  | _ => None
  end.

Definition errors_New (text : string) : error := errorString text.

(** fmt.Errorf(prefix + "%w", err). *)
Definition fmt_Errorf_w (prefix : string) (err : error) : error :=
  wrapError (prefix +:+ Error err) err.

(** The type assertion [re, ok := err.(retryable)]: it succeeds exactly when
    the dynamic type of [err] has a [CanRetry] method, which only
    [retryableError] has; on a nil error [ok] is false. The result is the
    value of [re.CanRetry()] when [ok] holds. It looks at the dynamic type of
    [err] itself and never unwraps. *)
Definition assert_retryable (err : option error) : option bool :=
  match err with
  | Some (retryableError _ canRetry) => Some canRetry
  | _ => None
  end.

(** ** strconv, net/url *)

Definition strconv_Itoa (i : Z) : string := pretty i.

(** The two escaping modes of net/url that the client reaches:
    url.PathEscape uses encodePathSegment, url.QueryEscape (called by
    Values.Encode) uses encodeQueryComponent. *)
Inductive encoding := encodePathSegment | encodeQueryComponent.

Definition byte_between (lo c hi : ascii) : bool :=
  (N_of_ascii lo <=? N_of_ascii c)%N && (N_of_ascii c <=? N_of_ascii hi)%N.

Definition byte_in (c : ascii) (s : string) : bool :=
  existsb (Ascii.eqb c) (String.list_ascii_of_string s).

(** net/url shouldEscape, restricted to the two modes above. *)
Definition shouldEscape (c : ascii) (mode : encoding) : bool :=
  if byte_between "a"%char c "z"%char || byte_between "A"%char c "Z"%char
     || byte_between "0"%char c "9"%char
  then false
  else if byte_in c "-_.~" then false
  else if byte_in c "$&+,/:;=?@" then
    match mode with
    | encodePathSegment => byte_in c "/;,?"
    | encodeQueryComponent => true
    end
  else true.

Definition upperhex (n : N) : ascii :=
  default "0"%char (String.list_ascii_of_string "0123456789ABCDEF" !! N.to_nat n).

(** net/url escape. *)
Fixpoint escape (s : string) (mode : encoding) : string :=
  match s with
  | EmptyString => EmptyString
  | String c rest =>
      if shouldEscape c mode then
        match mode with
        | encodeQueryComponent =>
            if Ascii.eqb c " "%char then String "+"%char (escape rest mode)
            else String "%"%char (String (upperhex (N.shiftr (N_of_ascii c) 4))
                   (String (upperhex (N.land (N_of_ascii c) 15)) (escape rest mode)))
        | encodePathSegment =>
            String "%"%char (String (upperhex (N.shiftr (N_of_ascii c) 4))
              (String (upperhex (N.land (N_of_ascii c) 15)) (escape rest mode)))
        end
      else String c (escape rest mode)
  end.

Definition url_PathEscape (s : string) : string := escape s encodePathSegment.
Definition url_QueryEscape (s : string) : string := escape s encodeQueryComponent.

(** url.Values: map[string][]string. *)
Abbreviation Values := (gmap string (list string)).

(** func (v Values) Set(key, value string) *)
Definition Values_Set (key value : string) (v : Values) : Values :=
  <[key := [value]]> v.

(** A guarded assignment, [if cond { v.Set(key, value) }]. *)
Definition Values_Set_if (cond : bool) (key value : string) (v : Values) : Values :=
  if cond then Values_Set key value v else v.

(** func (v Values) Add(key, value string): the value is appended to the
    values the key already has. *)
Definition Values_Add (key value : string) (v : Values) : Values :=
  <[key := default [] (v !! key) ++ [value]]> v.

(** func (v Values) Encode() string: the keys are sorted, every value of a
    key is written as [key=value] with both sides query-escaped, and the
    pairs are joined with [&]. *)
Definition Values_Encode (v : Values) : string :=
  let keys := merge_sort String.le (map fst (map_to_list v)) in
  String.concat "&"
    (flat_map (fun k =>
       map (fun value => url_QueryEscape k +:+ "=" +:+ url_QueryEscape value)
           (default [] (v !! k))) keys).

(** ** fmt *)

(** The %v rendering of a byte slice ([json.RawMessage] has no String
    method): the bytes in decimal, separated by spaces, in brackets. *)
Definition fmt_v_bytes (b : string) : string :=
  "[" +:+ String.concat " "
            (map (fun c => pretty (N_of_ascii c)) (String.list_ascii_of_string b))
      +:+ "]".

(** ** Programs: state and panics

    A call runs against a [World]: the HTTP server behind the client's
    transport, the requests handed to the transport so far (oldest first)
    and the lines written to standard output. A program either returns a value or
    panics; a panic stops the rest of the program. *)

Record Request := {
  Method : string;
  URL : string;
  Header : Values;
  Body : option string;
}.

(** What one round trip through [http.Client.Do] and [io.ReadAll] gives. *)
Inductive RoundTrip :=
  | TransportError (err : error)   (* Do returned an error *)
  | BodyReadError (err : error)    (* Do succeeded, reading the body failed *)
  | Response (StatusCode : Z) (respBody : string).

Record World := {
  handler : list Request -> RoundTrip;
    (* the reply to the last request of the list, given all requests so far *)
  sent : list Request;
  stdout : list string;
}.

Inductive outcome (A : Type) :=
  | Returns (a : A)
  | Panics (msg : string).
Arguments Returns {A} a.
Arguments Panics {A} msg.

Definition M (A : Type) : Type := World -> outcome A * World.

Global Instance M_ret : MRet M := fun A a w => (Returns a, w).

Global Instance M_bind : MBind M := fun A B k m w =>
  match m w with
  | (Returns a, w') => k a w'
  | (Panics msg, w') => (Panics msg, w')
  end.

Definition panic {A} (msg : string) : M A := fun w => (Panics msg, w).

(** The runtime's message for a nil pointer dereference. *)
Definition nil_dereference : string :=
  "runtime error: invalid memory address or nil pointer dereference".

(** fmt.Println(a, b): the operands separated by a space, then a newline. *)
Definition fmt_Println2 (a b : string) : M unit :=
  fun w => (Returns tt,
            {| handler := handler w; sent := sent w;
               stdout := stdout w ++ [a +:+ " " +:+ b +:+ String "010"%char ""] |}).

(** The world after [req] has been handed to the transport. *)
Definition deliver (req : Request) (w : World) : World :=
  {| handler := handler w; sent := sent w ++ [req]; stdout := stdout w |}.

(** The requests a call has issued, given the world before and after it. *)
Definition issued (w w' : World) : list Request :=
  drop (length (sent w)) (sent w').

(** ** Data model *)

Section Client.

(** Go types whose values the client only carries around:
    [float64], [time.Time] and the dynamic values of [any]. *)
Context {float64 time_Time any_value : Type}.

(** type APIResponse struct (client.go). [Data] is a [json.RawMessage], the
    raw bytes of the [data] member. *)
Record APIResponse := {
  APIResponse_Data : string;
  APIResponse_Type : string;
  APIResponse_Message : string;
  APIResponse_Code : string;
  APIResponse_RequestID : string;
}.

(** fmt's %v of an [APIResponse]: the fields in order, separated by spaces,
    in braces. *)
Definition fmt_v_APIResponse (r : APIResponse) : string :=
  "{" +:+ fmt_v_bytes (APIResponse_Data r) +:+ " " +:+ APIResponse_Type r
      +:+ " " +:+ APIResponse_Message r +:+ " " +:+ APIResponse_Code r
      +:+ " " +:+ APIResponse_RequestID r +:+ "}".

(** Modelled from the spec: the declarations of [Account], [Person],
    [Donation] and [Subscription] are not among the sources; the records
    below have the fields that client.go and its tests read or set, with
    the types those uses show. *)
Record Account := {
  Account_ID : string;
  Account_Title : string;
}.

Record Person := {
  Person_ID : string;
  Person_FirstName : string;
  Person_LastName : string;
  Person_Email : string;
  Person_PhoneNumber : string;
  Person_StreetAddress : string;
  Person_StreetAddress2 : string;
  Person_City : string;
  Person_State : string;
  Person_ZipCode : string;
  Person_Country : string;
  Person_Accounts : list Account;
}.

Record Subscription := {
  Subscription_ID : string;
  Subscription_AmountInCents : Z;
  Subscription_RecurringFrequency : string;
}.

(** campaigns.go *)
Record CampaignPhotoSizes := {
  Photo_Original : option string;
  Photo_Medium : option string;
  Photo_MediumV2 : option string;
  Photo_Average : option string;
  Photo_Small : option string;
  Photo_Thumb : option string;
  Photo_SquareV2 : option string;
  Photo_Icon : option string;
}.

Record CampaignCoverPhotoSizes := {
  CoverPhoto_Original : option string;
  CoverPhoto_Large : option string;
}.

Record CampaignImages := {
  Images_Photo : CampaignPhotoSizes;
  Images_CoverPhoto : CampaignCoverPhotoSizes;
}.

Record Campaign := {
  Campaign_ID : string;
  Campaign_Title : string;
  Campaign_Slug : string;
  Campaign_Type : string;
  Campaign_URL : string;
  Campaign_Status : string;
  Campaign_Permalink : string;
  Campaign_Description : option string;
  Campaign_Content : option string;
  Campaign_Created : Z;
  Campaign_Updated : Z;
  Campaign_StartDate : option string;
  Campaign_EndDate : option string;
  Campaign_GoalInCents : Z;
  Campaign_AmountRaisedInCents : Z;
  Campaign_PercentFunded : float64;
  Campaign_DonorsCount : Z;
  Campaign_Images : CampaignImages;
  Campaign_Account : Account;
  Campaign_FormID : string;
  Campaign_MetaData : option any_value;
  Campaign_InternalID : Z;
  Campaign_CreatedAt : time_Time;
  Campaign_UpdatedAt : time_Time;
  Campaign_Recurring : option bool;
  Campaign_FundraiserGoal : option Z;
  Campaign_DonationAmount : option Z;
}.

Record Donation := {
  Donation_ID : string;
  Donation_AmountInCents : Z;
  Donation_DonationType : string;
  Donation_Campaign : Campaign;
  Donation_Person : Person;
  Donation_Comment : string;
  Donation_Anonymous : bool;
  Donation_OnBehalfOf : string;
  Donation_Status : string;
  Donation_Account : Account;
}.

(** The [body any] argument of the request executor, by dynamic type: the
    three types the client passes. A nil [body] is [None]. *)
Inductive any :=
  | any_Values (v : Values)
  | any_Subscription (s : Subscription)
  | any_Campaign (c : Campaign).

(** ** The standard library behind the client

    Functions of Go's standard library that the client calls and whose
    bodies are not part of the repository. Every definition and theorem
    below holds for whatever these functions compute. *)
Record Library := {
  (* the zero values of the opaque types *)
  float64_zero : float64;
  time_Time_zero : time_Time;
  (* json.Unmarshal(data, &v) for each type of v the client decodes into:
     the error, or the value left in v *)
  json_Unmarshal_APIResponse : string -> error + APIResponse;
  json_Unmarshal_Person : string -> error + Person;
  json_Unmarshal_People : string -> error + list Person;
  json_Unmarshal_Donation : string -> error + Donation;
  json_Unmarshal_Donations : string -> error + list Donation;
  json_Unmarshal_Subscription : string -> error + Subscription;
  json_Unmarshal_Campaign : string -> error + Campaign;
  (* json.Marshal(body) *)
  json_Marshal : any -> error + string;
  strings_TrimSpace : string -> string;
  strings_ToLower : string -> string;
  (* http.NewRequestWithContext(ctx, method, url, body): the error for a
     method or URL it refuses, else the new request's URL.RequestURI() *)
  http_NewRequestWithContext : string -> string -> error + string;
}.

Variable lib : Library.

(** Zero values, as the composite literals [Person{}], [Donation{}], ... *)
Definition Account_zero : Account := {| Account_ID := ""; Account_Title := "" |}.

Definition Person_zero : Person :=
  {| Person_ID := ""; Person_FirstName := ""; Person_LastName := "";
     Person_Email := ""; Person_PhoneNumber := ""; Person_StreetAddress := "";
     Person_StreetAddress2 := ""; Person_City := ""; Person_State := "";
     Person_ZipCode := ""; Person_Country := ""; Person_Accounts := [] |}.

Definition Subscription_zero : Subscription :=
  {| Subscription_ID := ""; Subscription_AmountInCents := 0;
     Subscription_RecurringFrequency := "" |}.

Definition CampaignImages_zero : CampaignImages :=
  {| Images_Photo :=
       {| Photo_Original := None; Photo_Medium := None; Photo_MediumV2 := None;
          Photo_Average := None; Photo_Small := None; Photo_Thumb := None;
          Photo_SquareV2 := None; Photo_Icon := None |};
     Images_CoverPhoto :=
       {| CoverPhoto_Original := None; CoverPhoto_Large := None |} |}.

Definition Campaign_zero : Campaign :=
  {| Campaign_ID := ""; Campaign_Title := ""; Campaign_Slug := "";
     Campaign_Type := ""; Campaign_URL := ""; Campaign_Status := "";
     Campaign_Permalink := ""; Campaign_Description := None;
     Campaign_Content := None; Campaign_Created := 0; Campaign_Updated := 0;
     Campaign_StartDate := None; Campaign_EndDate := None;
     Campaign_GoalInCents := 0; Campaign_AmountRaisedInCents := 0;
     Campaign_PercentFunded := float64_zero lib; Campaign_DonorsCount := 0;
     Campaign_Images := CampaignImages_zero; Campaign_Account := Account_zero;
     Campaign_FormID := ""; Campaign_MetaData := None; Campaign_InternalID := 0;
     Campaign_CreatedAt := time_Time_zero lib;
     Campaign_UpdatedAt := time_Time_zero lib; Campaign_Recurring := None;
     Campaign_FundraiserGoal := None; Campaign_DonationAmount := None |}.

Definition Donation_zero : Donation :=
  {| Donation_ID := ""; Donation_AmountInCents := 0; Donation_DonationType := "";
     Donation_Campaign := Campaign_zero; Donation_Person := Person_zero;
     Donation_Comment := ""; Donation_Anonymous := false;
     Donation_OnBehalfOf := ""; Donation_Status := "";
     Donation_Account := Account_zero |}.

(** ** Client configuration and construction *)

Record clientOption := {
  apiKey : string;
  baseURL : string;
  donatelyAPIVersion : string;
  doRetry : bool;
  debug : bool;
}.

(** The zero value of [http.Client]; [client] below is a pointer to one, or
    nil. *)
Inductive http_Client := http_Client_zero.

Record donatelyClient := {
  opts : clientOption;
  client : option http_Client;
}.

(** type ClientOption: a function that updates the [clientOption] it is
    given a pointer to. *)
Definition ClientOption : Type := clientOption -> clientOption.

Definition WithAPIKey (key : string) : ClientOption := fun opt =>
  {| apiKey := key; baseURL := baseURL opt;
     donatelyAPIVersion := donatelyAPIVersion opt;
     doRetry := doRetry opt; debug := debug opt |}.

Definition WithBaseURL (url : string) : ClientOption := fun opt =>
  {| apiKey := apiKey opt; baseURL := url;
     donatelyAPIVersion := donatelyAPIVersion opt;
     doRetry := doRetry opt; debug := debug opt |}.

Definition WithRetry : ClientOption := fun opt =>
  {| apiKey := apiKey opt; baseURL := baseURL opt;
     donatelyAPIVersion := donatelyAPIVersion opt;
     doRetry := true; debug := debug opt |}.

Definition clientOption_zero : clientOption :=
  {| apiKey := ""; baseURL := ""; donatelyAPIVersion := "";
     doRetry := false; debug := false |}.

Definition donatelyClient_zero : donatelyClient :=
  {| opts := clientOption_zero; client := None |}.

Definition NewDonatelyClient (options : list ClientOption)
  : donatelyClient * option error :=
  let clientOptions :=
    foldl (fun acc (option : ClientOption) => option acc)
      {| apiKey := ""; baseURL := "https://api.donately.com/v2";
         donatelyAPIVersion := "2018-04-01"; doRetry := false; debug := false |}
      options in
  if String.eqb (apiKey clientOptions) "" then
    (donatelyClient_zero, Some (errors_New "missing API key!"))
  else if String.eqb (baseURL clientOptions) "" then
    (donatelyClient_zero, Some (errors_New "missing base URL!"))
  else
    ({| opts := clientOptions; client := Some http_Client_zero |}, None).

(** ** The request executor *)

(** Modelled: a [context.Context] and the clock, as a retry loop sees them:
    how each of its successive back-off waits ends. *)
Inductive Wait :=
  | TimerFired                 (* the back-off interval passed *)
  | BudgetSpent                (* the loop's elapsed-time budget is used up *)
  | ContextDone (err : error). (* the context was cancelled or timed out *)

Definition Context : Type := list Wait.

(** [c.client.Do(req)] followed by [io.ReadAll(resp.Body)]: a nil
    [*http.Client] is dereferenced by [Do]; otherwise the server receives
    the request and answers. *)
Definition http_Client_Do (c : donatelyClient) (req : Request) : M RoundTrip :=
  match client c with
  | None => panic nil_dereference
  | Some _ => fun w =>
      let w' := deliver req w in (Returns (handler w (sent w')), w')
  end.

(** The three stages of [makeRequestWithContentType], in source order. *)

(** Lines 186-202: the request body for [body] under [contentType]. *)
Definition encodeBody (body : option any) (contentType : string)
  : error + option string :=
  match body with
  | None => inr None
  | Some b =>
      if String.eqb contentType "application/x-www-form-urlencoded" then
        match b with
        | any_Values formData => inr (Some (Values_Encode formData))
        | _ => inl (errorString "body must be url.Values for form-encoded requests")
        end
      else
        match json_Marshal lib b with
        | inl err => inl (fmt_Errorf_w "failed to marshal request body: " err)
        | inr jsonBody => inr (Some jsonBody)
        end
  end.

(** Lines 204-212: the request with its four headers. [http.NewRequest]
    reads an empty method as GET. (The header names are already in canonical
    form, so [Header.Set] stores them as written.) *)
Definition newRequest (c : donatelyClient) (method endpoint : string)
    (reqBody : option string) (contentType : string) : Request :=
  {| Method := if String.eqb method "" then "GET" else method;
     URL := baseURL (opts c) +:+ endpoint;
     Header :=
       Values_Set "Accept" "application/json"
         (Values_Set "Content-Type" contentType
           (Values_Set "Authorization" ("Bearer " +:+ apiKey (opts c))
             (Values_Set "Donately-Version" (donatelyAPIVersion (opts c)) ∅)));
     Body := reqBody |}.

(** Lines 231-252: what the executor returns for a response that was read
    in full. *)
Definition classifyResponse (StatusCode : Z) (respBody : string)
  : option APIResponse * option error :=
  match json_Unmarshal_APIResponse lib respBody with
  | inl err =>
      let rawBody := respBody in
      let errorReturned := fmt_Errorf_w "failed to unmarshal response: " err in
      if String.eqb "retry later"
           (strings_ToLower lib (strings_TrimSpace lib rawBody))
      then (None, Some (retryableError errorReturned true))
      else (None, Some errorReturned)
  | inr apiResp =>
      if negb (String.eqb (APIResponse_Type apiResp) "")
         && negb (String.eqb (APIResponse_Message apiResp) "")
         && negb (String.eqb (APIResponse_Code apiResp) "")
      then
        (None, Some (errorString
           ("API error: " +:+ APIResponse_Code apiResp +:+ " - ("
              +:+ APIResponse_Type apiResp +:+ ") "
              +:+ APIResponse_Message apiResp)))
      else if (StatusCode >=? 400)%Z then
        (None, Some (errorString
           ("HTTP error: " +:+ strconv_Itoa StatusCode
              +:+ " (Raw Response: " +:+ fmt_v_APIResponse apiResp +:+ ")")))
      else (Some apiResp, None)
  end.

Definition makeRequestWithContentType (ctx : Context) (c : donatelyClient)
    (method endpoint : string) (body : option any) (contentType : string)
  : M (option APIResponse * option error) :=
  match encodeBody body contentType with
  | inl err => mret (None, Some err)
  | inr reqBody =>
    match http_NewRequestWithContext lib method (baseURL (opts c) +:+ endpoint) with
    | inl err => mret (None, Some (fmt_Errorf_w "failed to create request: " err))
    | inr requestURI =>
      let req := newRequest c method endpoint reqBody contentType in
      let requestLine := Method req +:+ " " +:+ requestURI +:+ " " +:+ "HTTP/1.1" in
      _ ← (if debug (opts c) then fmt_Println2 "Issuing request" requestLine
           else mret tt);
      rt ← http_Client_Do c req;
      match rt with
      | TransportError err =>
          mret (None, Some (fmt_Errorf_w "failed to make request: " err))
      | BodyReadError err =>
          mret (None, Some (fmt_Errorf_w "failed to read response body: " err))
      | Response StatusCode respBody => mret (classifyResponse StatusCode respBody)
      end
    end
  end.

Definition makeRequest (ctx : Context) (c : donatelyClient)
    (method endpoint : string) (body : option any)
  : M (option APIResponse * option error) :=
  makeRequestWithContentType ctx c method endpoint body "application/json".

(** Reading a field through [resp]: a nil pointer panics. *)
Definition deref (resp : option APIResponse) : M APIResponse :=
  match resp with
  | Some r => mret r
  | None => panic nil_dereference
  end.

(** ** Retry

    backoff.Retry of github.com/cenkalti/backoff/v5, a dependency outside
    the repository, as the client uses it (exponential back-off, no
    permanent errors, default elapsed-time budget): the operation runs at
    once; a nil error ends the loop with the operation's result; after a
    failure the loop waits for the next interval and runs the operation
    again, unless the budget is spent (it returns the last error) or the
    context is done (it returns the context's error). The budget is finite,
    so a loop has finitely many waits; a context that lists no further wait
    stands for a spent budget. *)
Fixpoint backoff_Retry {T : Type} (ctx : Context) (operation : M (T * option error))
  : M (T * option error) :=
  '(res, err) ← operation;
  match err with
  | None => mret (res, None)
  | Some e =>
      match ctx with
      | TimerFired :: ctx' => backoff_Retry ctx' operation
      | ContextDone cause :: _ => mret (res, Some cause)
      | BudgetSpent :: _ | [] => mret (res, Some e)
      end
  end.

(** ** Resource operations *)

Definition ListPeople (ctx : Context) (c : donatelyClient) (account : Account)
    (offset limit : Z) : M (list Person * option error) :=
  let params : Values := Values_Set "account_id" (Account_ID account) ∅ in
  let params :=
    Values_Set_if (offset >? 0)%Z "offset" (strconv_Itoa offset) params in
  let params :=
    Values_Set_if (limit >? 0)%Z "limit" (strconv_Itoa limit) params in
  '(resp, err) ← makeRequest ctx c "GET" ("/people?" +:+ Values_Encode params) None;
  match err with
  | Some e => mret ([], Some e)
  | None =>
      r ← deref resp;
      match json_Unmarshal_People lib (APIResponse_Data r) with
      | inl e => mret ([], Some (fmt_Errorf_w "failed to unmarshal people: " e))
      | inr people => mret (people, None)
      end
  end.

Definition SavePerson (ctx : Context) (c : donatelyClient) (person : Person)
  : M (Person * option error) :=
  let endpoint :=
    if String.eqb (Person_ID person) "" then "/people"
    else "/people/" +:+ url_PathEscape (Person_ID person) in
  match Person_Accounts person with
  | [] => mret (Person_zero, Some (errors_New "missing account information"))
  | first :: _ =>
    if String.eqb (Account_ID first) "" then
      mret (Person_zero, Some (errors_New "missing account information"))
    else
      let accountId := Account_ID first in
      let formData : Values := Values_Set "account_id" accountId ∅ in
      let formData :=
        Values_Set_if (negb (String.eqb (Person_FirstName person) ""))
          "first_name" (Person_FirstName person) formData in
      let formData :=
        Values_Set_if (negb (String.eqb (Person_LastName person) ""))
          "last_name" (Person_LastName person) formData in
      let formData :=
        Values_Set_if (negb (String.eqb (Person_Email person) ""))
          "email" (Person_Email person) formData in
      let formData :=
        Values_Set_if (negb (String.eqb (Person_PhoneNumber person) ""))
          "phone_number" (Person_PhoneNumber person) formData in
      let formData :=
        Values_Set_if (negb (String.eqb (Person_StreetAddress person) ""))
          "street_address" (Person_StreetAddress person) formData in
      let formData :=
        Values_Set_if (negb (String.eqb (Person_StreetAddress2 person) ""))
          "street_address_2" (Person_StreetAddress2 person) formData in
      let formData :=
        Values_Set_if (negb (String.eqb (Person_City person) ""))
          "city" (Person_City person) formData in
      let formData :=
        Values_Set_if (negb (String.eqb (Person_State person) ""))
          "state" (Person_State person) formData in
      let formData :=
        Values_Set_if (negb (String.eqb (Person_ZipCode person) ""))
          "zip_code" (Person_ZipCode person) formData in
      let formData :=
        Values_Set_if (negb (String.eqb (Person_Country person) ""))
          "country" (Person_Country person) formData in
      '(resp, err) ← makeRequestWithContentType ctx c "POST" endpoint
                        (Some (any_Values formData))
                        "application/x-www-form-urlencoded";
      match err with
      | Some e => mret (Person_zero, Some e)
      | None =>
          r ← deref resp;
          match json_Unmarshal_Person lib (APIResponse_Data r) with
          | inl e =>
              mret (Person_zero, Some (fmt_Errorf_w "failed to unmarshal saved person: " e))
          | inr savedPerson => mret (savedPerson, None)
          end
      end
  end.

Definition ListDonations (ctx : Context) (c : donatelyClient) (account : Account)
    (offset limit : Z) : M (list Donation * option error) :=
  let params : Values := Values_Set "account_id" (Account_ID account) ∅ in
  let params :=
    Values_Set_if (offset >? 0)%Z "offset" (strconv_Itoa offset) params in
  let params :=
    Values_Set_if (limit >? 0)%Z "limit" (strconv_Itoa limit) params in
  '(resp, err) ← makeRequest ctx c "GET" ("/donations?" +:+ Values_Encode params) None;
  match err with
  | Some e => mret ([], Some e)
  | None =>
      r ← deref resp;
      match json_Unmarshal_Donations lib (APIResponse_Data r) with
      | inl e => mret ([], Some (fmt_Errorf_w "failed to unmarshal donations: " e))
      | inr donations => mret (donations, None)
      end
  end.

(** Lines 462-488 of [SaveDonation]: the parameters of a donation. *)
Definition SaveDonation_params (donation : Donation) : Values :=
  let params : Values :=
    Values_Set "account_id" (Account_ID (Donation_Account donation)) ∅ in
  let params :=
    Values_Set_if (Donation_AmountInCents donation >? 0)%Z "amount_in_cents"
      (strconv_Itoa (Donation_AmountInCents donation)) params in
  let params :=
    Values_Set_if (negb (String.eqb (Donation_DonationType donation) ""))
      "donation_type" (Donation_DonationType donation) params in
  let params :=
    Values_Set_if
      (negb (String.eqb (Campaign_ID (Donation_Campaign donation)) ""))
      "campaign_id" (Campaign_ID (Donation_Campaign donation)) params in
  let params :=
    Values_Set_if (negb (String.eqb (Person_Email (Donation_Person donation)) ""))
      "email" (Person_Email (Donation_Person donation)) params in
  let params :=
    Values_Set_if (negb (String.eqb (Donation_Comment donation) ""))
      "comment" (Donation_Comment donation) params in
  let params :=
    Values_Set_if (Donation_Anonymous donation) "anonymous" "true" params in
  let params :=
    Values_Set_if (negb (String.eqb (Donation_OnBehalfOf donation) ""))
      "on_behalf_of" (Donation_OnBehalfOf donation) params in
  let params :=
    Values_Set_if (negb (String.eqb (Donation_Status donation) ""))
      "status" (Donation_Status donation) params in
  params.

(** Lines 450-456 and 490-492 of [SaveDonation]: the endpoint, with the
    parameters as its query string. *)
Definition SaveDonation_endpoint (donation : Donation) : string :=
  let endpoint :=
    if String.eqb (Donation_ID donation) "" then "/donations"
    else "/donations/" +:+ url_PathEscape (Donation_ID donation) in
  let params := SaveDonation_params donation in
  if (0 <? size params)%nat then endpoint +:+ "?" +:+ Values_Encode params
  else endpoint.

Definition SaveDonation (ctx : Context) (c : donatelyClient) (donation : Donation)
  : M (Donation * option error) :=
  if String.eqb (Account_ID (Donation_Account donation)) "" then
    mret (Donation_zero, Some (errors_New "missing account information"))
  else
    let endpoint := SaveDonation_endpoint donation in
    '(resp, err) ← makeRequest ctx c "POST" endpoint None;
    (* the retry block: [Some result] when it returns from the function,
       [None] when control falls through with the current resp *)
    '(resp, returned) ←
      (if doRetry (opts c) then
         match assert_retryable err with
         | Some true =>
             let operation := makeRequest ctx c "POST" endpoint None in
             '(resp, err) ← backoff_Retry ctx operation;
             match err with
             | Some e => mret (resp, Some (Donation_zero, Some e))
             | None => mret (resp, None)
             end
         | _ => mret (resp, Some (Donation_zero, err))
         end
       else mret (resp, None));
    match returned with
    | Some result => mret result
    | None =>
        r ← deref resp;
        match json_Unmarshal_Donation lib (APIResponse_Data r) with
        | inl e =>
            mret (Donation_zero,
                  Some (fmt_Errorf_w "failed to unmarshal saved donation: " e))
        | inr savedDonation => mret (savedDonation, None)
        end
    end.

Definition RefundDonation (ctx : Context) (c : donatelyClient) (donation : Donation)
    (reason : string) : M (option error) :=
  let endpoint :=
    "/donations/" +:+ url_PathEscape (Donation_ID donation) +:+ "/refund" in
  if String.eqb (Account_ID (Donation_Account donation)) "" then
    mret (Some (errors_New "missing account information"))
  else
    let formData : Values :=
      Values_Set "refund_reason" reason
        (Values_Set "account_id" (Account_ID (Donation_Account donation)) ∅) in
    '(_, err) ← makeRequest ctx c "POST" endpoint (Some (any_Values formData));
    mret err.

Definition SaveSubscription (ctx : Context) (c : donatelyClient)
    (subscription : Subscription) : M (Subscription * option error) :=
  let endpoint :=
    if String.eqb (Subscription_ID subscription) "" then "/subscriptions"
    else "/subscriptions/" +:+ url_PathEscape (Subscription_ID subscription) in
  '(resp, err) ← makeRequest ctx c "POST" endpoint
                    (Some (any_Subscription subscription));
  match err with
  | Some e => mret (Subscription_zero, Some e)
  | None =>
      r ← deref resp;
      match json_Unmarshal_Subscription lib (APIResponse_Data r) with
      | inl e =>
          mret (Subscription_zero,
                Some (fmt_Errorf_w "failed to unmarshal saved subscription: " e))
      | inr savedSubscription => mret (savedSubscription, None)
      end
  end.

Definition SaveCampaign (ctx : Context) (c : donatelyClient) (campaign : Campaign)
  : M (Campaign * option error) :=
  let endpoint :=
    if String.eqb (Campaign_ID campaign) "" then "/campaigns"
    else "/campaigns/" +:+ url_PathEscape (Campaign_ID campaign) in
  '(resp, err) ← makeRequest ctx c "POST" endpoint (Some (any_Campaign campaign));
  match err with
  | Some e => mret (Campaign_zero, Some e)
  | None =>
      r ← deref resp;
      match json_Unmarshal_Campaign lib (APIResponse_Data r) with
      | inl e =>
          mret (Campaign_zero,
                Some (fmt_Errorf_w "failed to unmarshal saved campaign: " e))
      | inr savedCampaign => mret (savedCampaign, None)
      end
  end.

(** ** The remaining operations of the [Client] interface *)

(** json.Unmarshal for the three further types these operations decode
    into. *)
Record Decoders := {
  json_Unmarshal_Account : string -> error + Account;
  json_Unmarshal_Subscriptions : string -> error + list Subscription;
  json_Unmarshal_Campaigns : string -> error + list Campaign;
}.

Variable dec : Decoders.

Definition FindAccount (ctx : Context) (c : donatelyClient) (id : string)
  : M (Account * option error) :=
  let endpoint := "/accounts/" +:+ url_PathEscape id in
  '(resp, err) ← makeRequest ctx c "GET" endpoint None;
  match err with
  | Some e => mret (Account_zero, Some e)
  | None =>
      r ← deref resp;
      match json_Unmarshal_Account dec (APIResponse_Data r) with
      | inl e =>
          mret (Account_zero, Some (fmt_Errorf_w "failed to unmarshal account: " e))
      | inr account => mret (account, None)
      end
  end.

Definition FindPerson (ctx : Context) (c : donatelyClient) (id : string)
    (account : Account) : M (Person * option error) :=
  let endpoint := "/people/" +:+ url_PathEscape id in
  let params : Values := Values_Set "account_id" (Account_ID account) ∅ in
  '(resp, err) ← makeRequest ctx c "GET"
                    (endpoint +:+ "?" +:+ Values_Encode params) None;
  match err with
  | Some e => mret (Person_zero, Some e)
  | None =>
      r ← deref resp;
      match json_Unmarshal_Person lib (APIResponse_Data r) with
      | inl e =>
          mret (Person_zero, Some (fmt_Errorf_w "failed to unmarshal person: " e))
      | inr person => mret (person, None)
      end
  end.

Definition Me (ctx : Context) (c : donatelyClient) : M (Person * option error) :=
  '(resp, err) ← makeRequest ctx c "GET" "/me" None;
  match err with
  | Some e => mret (Person_zero, Some e)
  | None =>
      r ← deref resp;
      match json_Unmarshal_Person lib (APIResponse_Data r) with
      | inl e =>
          mret (Person_zero, Some (fmt_Errorf_w "failed to unmarshal person: " e))
      | inr person => mret (person, None)
      end
  end.

Definition ListMyDonations (ctx : Context) (c : donatelyClient)
  : M (list Donation * option error) :=
  '(resp, err) ← makeRequest ctx c "GET" "/me/donations" None;
  match err with
  | Some e => mret ([], Some e)
  | None =>
      r ← deref resp;
      match json_Unmarshal_Donations lib (APIResponse_Data r) with
      | inl e =>
          mret ([], Some (fmt_Errorf_w "failed to unmarshal my donations: " e))
      | inr donations => mret (donations, None)
      end
  end.

Definition FindDonation (ctx : Context) (c : donatelyClient) (id : string)
    (account : Account) : M (Donation * option error) :=
  let params : Values := Values_Set "account_id" (Account_ID account) ∅ in
  let endpoint := "/donations/" +:+ url_PathEscape id in
  '(resp, err) ← makeRequest ctx c "GET"
                    (endpoint +:+ "?" +:+ Values_Encode params) None;
  match err with
  | Some e => mret (Donation_zero, Some e)
  | None =>
      r ← deref resp;
      match json_Unmarshal_Donation lib (APIResponse_Data r) with
      | inl e =>
          mret (Donation_zero,
                Some (fmt_Errorf_w "failed to unmarshal donation: " e))
      | inr donation => mret (donation, None)
      end
  end.

Definition SendDonationReceipt (ctx : Context) (c : donatelyClient)
    (donation : Donation) : M (option error) :=
  let endpoint :=
    "/donations/" +:+ url_PathEscape (Donation_ID donation) +:+ "/receipt" in
  '(_, err) ← makeRequest ctx c "POST" endpoint None;
  mret err.

Definition ListSubscriptions (ctx : Context) (c : donatelyClient)
    (account : Account) : M (list Subscription * option error) :=
  let params : Values := Values_Set "account_id" (Account_ID account) ∅ in
  '(resp, err) ← makeRequest ctx c "GET"
                    ("/subscriptions?" +:+ Values_Encode params) None;
  match err with
  | Some e => mret ([], Some e)
  | None =>
      r ← deref resp;
      match json_Unmarshal_Subscriptions dec (APIResponse_Data r) with
      | inl e =>
          mret ([], Some (fmt_Errorf_w "failed to unmarshal subscriptions: " e))
      | inr subscriptions => mret (subscriptions, None)
      end
  end.

Definition ListMySubscriptions (ctx : Context) (c : donatelyClient)
  : M (list Subscription * option error) :=
  '(resp, err) ← makeRequest ctx c "GET" "/me/subscriptions" None;
  match err with
  | Some e => mret ([], Some e)
  | None =>
      r ← deref resp;
      match json_Unmarshal_Subscriptions dec (APIResponse_Data r) with
      | inl e =>
          mret ([], Some (fmt_Errorf_w "failed to unmarshal my subscriptions: " e))
      | inr subscriptions => mret (subscriptions, None)
      end
  end.

Definition FindSubscription (ctx : Context) (c : donatelyClient) (id : string)
    (account : Account) : M (Subscription * option error) :=
  let endpoint := "/subscriptions/" +:+ url_PathEscape id in
  let params : Values := Values_Set "account_id" (Account_ID account) ∅ in
  '(resp, err) ← makeRequest ctx c "GET"
                    (endpoint +:+ "?" +:+ Values_Encode params) None;
  match err with
  | Some e => mret (Subscription_zero, Some e)
  | None =>
      r ← deref resp;
      match json_Unmarshal_Subscription lib (APIResponse_Data r) with
      | inl e =>
          mret (Subscription_zero,
                Some (fmt_Errorf_w "failed to unmarshal subscription: " e))
      | inr subscription => mret (subscription, None)
      end
  end.

Definition ListCampaigns (ctx : Context) (c : donatelyClient)
    (account : Account) : M (list Campaign * option error) :=
  let params : Values := Values_Set "account_id" (Account_ID account) ∅ in
  '(resp, err) ← makeRequest ctx c "GET"
                    ("/campaigns?" +:+ Values_Encode params) None;
  match err with
  | Some e => mret ([], Some e)
  | None =>
      r ← deref resp;
      match json_Unmarshal_Campaigns dec (APIResponse_Data r) with
      | inl e =>
          mret ([], Some (fmt_Errorf_w "failed to unmarshal campaigns: " e))
      | inr campaigns => mret (campaigns, None)
      end
  end.

Definition FindCampaign (ctx : Context) (c : donatelyClient) (id : string)
    (account : Account) : M (Campaign * option error) :=
  let endpoint := "/campaigns/" +:+ url_PathEscape id in
  let params : Values := Values_Add "account_id" (Account_ID account) ∅ in
  '(resp, err) ← makeRequest ctx c "GET"
                    (endpoint +:+ "?" +:+ Values_Encode params) None;
  match err with
  | Some e => mret (Campaign_zero, Some e)
  | None =>
      r ← deref resp;
      match json_Unmarshal_Campaign lib (APIResponse_Data r) with
      | inl e =>
          mret (Campaign_zero,
                Some (fmt_Errorf_w "failed to unmarshal campaign: " e))
      | inr campaign => mret (campaign, None)
      end
  end.

Definition DeleteCampaign (ctx : Context) (c : donatelyClient)
    (campaign : Campaign) : M (option error) :=
  let endpoint := "/campaigns/" +:+ url_PathEscape (Campaign_ID campaign) in
  '(_, err) ← makeRequest ctx c "DELETE" endpoint None;
  mret err.

End Client.

Arguments Campaign : clear implicits.
Arguments Donation : clear implicits.
Arguments any : clear implicits.
Arguments Library : clear implicits.
Arguments Decoders : clear implicits.

(** ** Vocabulary of the properties *)

(** [sub] occurs in [s]. *)
Definition contains (sub s : string) : Prop :=
  ∃ pre post, s = pre +:+ sub +:+ post.

(** The path a save operation targets: the collection for a record without
    an ID, the collection followed by the path-escaped ID otherwise. *)
Definition save_path (collection id : string) : string :=
  if String.eqb id "" then collection
  else collection +:+ "/" +:+ url_PathEscape id.

(** The query string of a paginated list call: the scoping account, then
    [limit] and [offset], each present only when positive and then written
    in decimal. *)
Definition pagination_query (account_id : string) (offset limit : Z) : string :=
  "account_id=" +:+ url_QueryEscape account_id
  +:+ (if (0 <? limit)%Z then "&limit=" +:+ strconv_Itoa limit else "")
  +:+ (if (0 <? offset)%Z then "&offset=" +:+ strconv_Itoa offset else "").

(** A call that started in world [w] failed with the local validation error
    and issued no request. *)
Definition validation_failure {A : Type} (w : World)
    (r : outcome (A * option error) * World) : Prop :=
  (∃ a e, r.1 = Returns (a, Some e) ∧ Error e = "missing account information")
  ∧ sent r.2 = sent w.

(** The person has at least one associated account with a non-empty ID. *)
Definition has_account (p : Person) : Prop :=
  ∃ a, a ∈ Person_Accounts p ∧ Account_ID a ≠ "".

(** The person has no account, or the first account has an empty ID. *)
Definition first_account_missing (p : Person) : Prop :=
  match Person_Accounts p with
  | [] => True
  | first :: _ => Account_ID first = ""
  end.

Global Instance first_account_missing_dec (p : Person) :
  Decision (first_account_missing p).
Proof. unfold first_account_missing. destruct (Person_Accounts p); apply _. Defined.

(** A request with the given method to the given endpoint of the client's
    base URL. *)
Definition request_to (c : donatelyClient) (method endpoint : string)
    (r : Request) : Prop :=
  Method r = method ∧ URL r = baseURL (opts c) +:+ endpoint.

(** A program that takes no request back and issues only requests that
    satisfy [P]. *)
Definition sends_only {A : Type} (P : Request -> Prop) (m : M A) : Prop :=
  ∀ w, ∃ reqs, sent (m w).2 = sent w ++ reqs ∧ Forall P reqs.

(** Every byte of [s] is a decimal digit. *)
Definition all_digits (s : string) : bool :=
  forallb (fun c => byte_between "0"%char c "9"%char) (String.list_ascii_of_string s).

(** An option that leaves the base URL as it finds it. *)
Definition keeps_baseURL (option : ClientOption) : Prop :=
  ∀ opt, baseURL (option opt) = baseURL opt.

(** ** A reference environment

    A concrete [Library] and concrete servers, used to run the client on
    examples. Its [TrimSpace] and [ToLower] are the ASCII paths of the Go
    functions; its decoders know the bodies of the examples and report a
    syntax error for any other input; its [json.Marshal] encodes
    [url.Values] whose text needs no JSON escape. *)
Module Reference.

Definition dq : string := String "034"%char "".
Definition jstr (s : string) : string := dq +:+ s +:+ dq.
Definition member (k v : string) : string := jstr k +:+ ":" +:+ v.

Definition asciiSpace (c : ascii) : bool :=
  byte_between "009"%char c "013"%char || Ascii.eqb c " "%char.

Fixpoint TrimLeft (s : string) : string :=
  match s with
  | String c rest => if asciiSpace c then TrimLeft rest else s
  | EmptyString => EmptyString
  end.

Definition TrimSpace (s : string) : string :=
  String.rev (TrimLeft (String.rev (TrimLeft s))).

Fixpoint ToLower (s : string) : string :=
  match s with
  | String c rest =>
      String (if byte_between "A"%char c "Z"%char
              then ascii_of_N (N_of_ascii c + 32) else c) (ToLower rest)
  | EmptyString => EmptyString
  end.

(** The text after the scheme and host of an absolute URL. *)
Fixpoint from_slash (s : string) : string :=
  match s with
  | String c rest => if Ascii.eqb c "/"%char then s else from_slash rest
  | EmptyString => "/"
  end.

Fixpoint RequestURI (url : string) : string :=
  match url with
  | String ":" (String "/" (String "/" rest)) => from_slash rest
  | String _ rest => RequestURI rest
  | EmptyString => "/"
  end.

(** {"id":"don_123"} *)
Definition donation_json : string := "{" +:+ member "id" (jstr "don_123") +:+ "}".
(** {"data":{"id":"don_123"}} *)
Definition success_body : string := "{" +:+ member "data" donation_json +:+ "}".
(** {"type":"error","message":"Invalid API key","code":"invalid_api_key"} *)
Definition api_error_body : string :=
  "{" +:+ member "type" (jstr "error") +:+ "," +:+
  member "message" (jstr "Invalid API key") +:+ "," +:+
  member "code" (jstr "invalid_api_key") +:+ "}".

Definition syntax_error : error :=
  externalError "invalid character looking for beginning of value".

Definition decode_APIResponse (data : string) : error + APIResponse :=
  if String.eqb data success_body then
    inr {| APIResponse_Data := donation_json; APIResponse_Type := "";
           APIResponse_Message := ""; APIResponse_Code := "";
           APIResponse_RequestID := "" |}
  else if String.eqb data api_error_body then
    inr {| APIResponse_Data := ""; APIResponse_Type := "error";
           APIResponse_Message := "Invalid API key";
           APIResponse_Code := "invalid_api_key"; APIResponse_RequestID := "" |}
  else if String.eqb data "{}" then
    inr {| APIResponse_Data := ""; APIResponse_Type := "";
           APIResponse_Message := ""; APIResponse_Code := "";
           APIResponse_RequestID := "" |}
  else inl syntax_error.

(** A library that decodes and encodes nothing; it supplies the zero values
    of the opaque types to the records below. *)
Definition zeros : Library unit unit unit :=
  {| float64_zero := tt; time_Time_zero := tt;
     json_Unmarshal_APIResponse := fun _ => inl syntax_error;
     json_Unmarshal_Person := fun _ => inl syntax_error;
     json_Unmarshal_People := fun _ => inl syntax_error;
     json_Unmarshal_Donation := fun _ => inl syntax_error;
     json_Unmarshal_Donations := fun _ => inl syntax_error;
     json_Unmarshal_Subscription := fun _ => inl syntax_error;
     json_Unmarshal_Campaign := fun _ => inl syntax_error;
     json_Marshal := fun _ => inl syntax_error;
     strings_TrimSpace := TrimSpace;
     strings_ToLower := ToLower;
     http_NewRequestWithContext := fun _ url => inr (RequestURI url) |}.

Definition donation (id account_id : string) (amount : Z) : Donation unit unit unit :=
  {| Donation_ID := id; Donation_AmountInCents := amount;
     Donation_DonationType := ""; Donation_Campaign := Campaign_zero zeros;
     Donation_Person := Person_zero; Donation_Comment := "";
     Donation_Anonymous := false; Donation_OnBehalfOf := "";
     Donation_Status := "";
     Donation_Account := {| Account_ID := account_id; Account_Title := "" |} |}.

Definition decode_Donation (data : string) : error + Donation unit unit unit :=
  if String.eqb data donation_json then inr (donation "don_123" "" 0)
  else inl syntax_error.

(** Bytes that encoding/json writes into a string as they are. *)
Definition json_plain (c : ascii) : bool :=
  byte_between " "%char c "~"%char && negb (byte_in c (dq +:+ "\<>&")).

Definition json_array (vs : list string) : string :=
  "[" +:+ String.concat "," (map jstr vs) +:+ "]".

Definition marshal_Values (v : Values) : error + string :=
  let keys := merge_sort String.le (map fst (map_to_list v)) in
  if forallb (fun kv => forallb json_plain
                (String.list_ascii_of_string (String.concat "" (kv.1 :: kv.2))))
       (map_to_list v)
  then inr ("{" +:+ String.concat ","
              (map (fun k => member k (json_array (default [] (v !! k)))) keys)
            +:+ "}")
  else inl (externalError "json: text of this value is outside the reference encoder").

Definition lib : Library unit unit unit :=
  {| float64_zero := tt; time_Time_zero := tt;
     json_Unmarshal_APIResponse := decode_APIResponse;
     json_Unmarshal_Person := fun _ => inl syntax_error;
     json_Unmarshal_People := fun _ => inl syntax_error;
     json_Unmarshal_Donation := decode_Donation;
     json_Unmarshal_Donations := fun _ => inl syntax_error;
     json_Unmarshal_Subscription := fun _ => inl syntax_error;
     json_Unmarshal_Campaign := fun _ => inl syntax_error;
     json_Marshal := fun b =>
       match b with
       | any_Values v => marshal_Values v
       | _ => inl (externalError "json: this type is outside the reference encoder")
       end;
     strings_TrimSpace := TrimSpace;
     strings_ToLower := ToLower;
     http_NewRequestWithContext := fun _ url => inr (RequestURI url) |}.

Definition person (accounts : list Account) : Person :=
  {| Person_ID := ""; Person_FirstName := "John"; Person_LastName := "Doe";
     Person_Email := "john@example.com"; Person_PhoneNumber := "";
     Person_StreetAddress := ""; Person_StreetAddress2 := ""; Person_City := "";
     Person_State := ""; Person_ZipCode := ""; Person_Country := "";
     Person_Accounts := accounts |}.

Definition account (id : string) : Account :=
  {| Account_ID := id; Account_Title := "" |}.

(** {"account_id":["acc_123"],"refund_reason":["Customer request"]} *)
Definition refund_json : string :=
  "{" +:+ member "account_id" ("[" +:+ jstr "acc_123" +:+ "]") +:+ ","
      +:+ member "refund_reason" ("[" +:+ jstr "Customer request" +:+ "]") +:+ "}".

(** The envelope of the body [{}]. *)
Definition empty_envelope : APIResponse :=
  {| APIResponse_Data := ""; APIResponse_Type := ""; APIResponse_Message := "";
     APIResponse_Code := ""; APIResponse_RequestID := "" |}.

(** Clients as the tests build them. *)
Definition test_client (retry : bool) : donatelyClient :=
  (NewDonatelyClient
     ([WithAPIKey "test-api-key"; WithBaseURL "http://127.0.0.1:8080"]
        ++ (if retry then [WithRetry] else []))).1.

(** A fresh world in front of a server. *)
Definition world (h : list Request -> RoundTrip) : World :=
  {| handler := h; sent := []; stdout := [] |}.

(** The server of TestRetryOnRetryableError: [retry later] on the first
    attempt, a success envelope afterwards. *)
Definition retry_later_once (reqs : list Request) : RoundTrip :=
  if (length reqs =? 1)%nat then Response 200 "retry later"
  else Response 200 success_body.

(** A server that always gives the same answer. *)
Definition always (status : Z) (body : string) (reqs : list Request) : RoundTrip :=
  Response status body.

(** A stand-in for the encoder of the two record types: it writes the ID of
    a subscription or a campaign and nothing else. *)
Definition marshal_id (id : string) : string :=
  "{" +:+ member "id" (jstr id) +:+ "}".

Definition encoding : Library unit unit unit :=
  {| float64_zero := tt; time_Time_zero := tt;
     json_Unmarshal_APIResponse := decode_APIResponse;
     json_Unmarshal_Person := fun _ => inl syntax_error;
     json_Unmarshal_People := fun _ => inl syntax_error;
     json_Unmarshal_Donation := decode_Donation;
     json_Unmarshal_Donations := fun _ => inl syntax_error;
     json_Unmarshal_Subscription := fun _ => inl syntax_error;
     json_Unmarshal_Campaign := fun _ => inl syntax_error;
     json_Marshal := fun b =>
       match b with
       | any_Values v => marshal_Values v
       | any_Subscription s => inr (marshal_id (Subscription_ID s))
       | any_Campaign c => inr (marshal_id (Campaign_ID c))
       end;
     strings_TrimSpace := TrimSpace;
     strings_ToLower := ToLower;
     http_NewRequestWithContext := fun _ url => inr (RequestURI url) |}.

Definition subscription (id : string) : Subscription :=
  {| Subscription_ID := id; Subscription_AmountInCents := 1000;
     Subscription_RecurringFrequency := "monthly" |}.

(** Decoders that reject everything. *)
Definition decoders : Decoders unit unit unit :=
  {| json_Unmarshal_Account := fun _ => inl syntax_error;
     json_Unmarshal_Subscriptions := fun _ => inl syntax_error;
     json_Unmarshal_Campaigns := fun _ => inl syntax_error |}.

(** A server that cannot be reached. *)
Definition connection_refused : error :=
  externalError "dial tcp 127.0.0.1:8080: connect: connection refused".

Definition unreachable (reqs : list Request) : RoundTrip :=
  TransportError connection_refused.

(** What a context reports once its deadline has passed. *)
Definition deadline_exceeded : error := externalError "context deadline exceeded".

(** The error of a body that reads [retry later]. *)
Definition retry_later_error : error :=
  retryableError (fmt_Errorf_w "failed to unmarshal response: " syntax_error) true.

End Reference.

(** ** Vocabulary of the further properties *)

(** The client has its HTTP handle. *)
Definition has_handle (c : donatelyClient) : bool :=
  match client c with Some _ => true | None => false end.

(** The requests one run of the executor can issue. *)
Definition budget (c : donatelyClient) : nat := if has_handle c then 1 else 0.

(** Of a response and an error, exactly one is nil. *)
Definition exactly_one_nil (r : option APIResponse * option error) : Prop :=
  match r with
  | (Some _, None) | (None, Some _) => True
  | _ => False
  end.

(** A result whose value is the zero value whenever its error is not nil. *)
Definition zero_on_error {A : Type} (zero : A) (r : A * option error) : Prop :=
  r.2 ≠ None -> r.1 = zero.

(** From world [w] to world [w']: at most [n] requests were issued, each
    satisfies [P], the server is the same, and nothing was printed unless the
    client's debug flag is set. *)
Definition follows (c : donatelyClient) (n : nat) (P : Request -> Prop)
    (w w' : World) : Prop :=
  ∃ reqs, sent w' = sent w ++ reqs
          ∧ (length reqs ≤ n)%nat
          ∧ Forall P reqs
          ∧ handler w' = handler w
          ∧ (debug (opts c) = false -> stdout w' = stdout w).

(** A program that moves the world as [follows] says and whose result
    satisfies [Q]; when [total] is set it does not panic. *)
Definition conducts {A : Type} (total : bool) (c : donatelyClient) (n : nat)
    (P : Request -> Prop) (Q : A -> Prop) (m : M A) : Prop :=
  ∀ w, follows c n P w (m w).2
       ∧ match (m w).1 with
         | Returns a => Q a
         | Panics _ => total = false
         end.

(** The headers every request of the client carries. *)
Definition carries_credentials (c : donatelyClient) (r : Request) : Prop :=
  Header r !! "Authorization" = Some ["Bearer " +:+ apiKey (opts c)]
  ∧ Header r !! "Donately-Version" = Some [donatelyAPIVersion (opts c)]
  ∧ Header r !! "Accept" = Some ["application/json"]
  ∧ dom (Header r)
    = {["Accept"; "Authorization"; "Content-Type"; "Donately-Version"]}.

(** The options the package offers: a [ClientOption] is a function on an
    unexported type, so callers outside the package have only these. *)
Inductive provided_option : ClientOption -> Prop :=
  | provided_WithAPIKey (key : string) : provided_option (WithAPIKey key)
  | provided_WithBaseURL (url : string) : provided_option (WithBaseURL url)
  | provided_WithRetry : provided_option WithRetry.

(** The configuration [NewDonatelyClient] checks: the defaults with the
    options applied in order. *)
Definition configured (options : list ClientOption) : clientOption :=
  foldl (fun acc (option : ClientOption) => option acc)
    {| apiKey := ""; baseURL := "https://api.donately.com/v2";
       donatelyAPIVersion := "2018-04-01"; doRetry := false; debug := false |}
    options.

(** Reading an escaped string back: [%XY] is the byte with hexadecimal
    digits [X] and [Y]; in a query component [+] is a space. *)
Definition unhex (ch : ascii) : option N :=
  (N.of_nat ∘ fst) <$>
    list_find (Ascii.eqb ch) (String.list_ascii_of_string "0123456789ABCDEF").

Fixpoint unescape (mode : encoding) (s : string) : option string :=
  match s with
  | EmptyString => Some EmptyString
  | String ch rest =>
      if Ascii.eqb ch "%"%char then
        match rest with
        | String hi (String lo rest') =>
            match unhex hi, unhex lo, unescape mode rest' with
            | Some h, Some l, Some r => Some (String (ascii_of_N (16 * h + l)) r)
            | _, _, _ => None
            end
        | _ => None
        end
      else if Ascii.eqb ch "+"%char
              && match mode with encodeQueryComponent => true | _ => false end
      then String " "%char <$> unescape mode rest
      else String ch <$> unescape mode rest
  end.

(** The bytes of a string. *)
Definition bytes (s : string) : list ascii := String.list_ascii_of_string s.

Section Calls.
Context {float64 time_Time any_value : Type}.
Context (lib : Library float64 time_Time any_value).
Context (dec : Decoders float64 time_Time any_value).

(** A call of one of the methods of the [Client] interface (lines 23-82),
    with its arguments. *)
Inductive call :=
  | call_FindAccount (id : string)
  | call_ListPeople (account : Account) (offset limit : Z)
  | call_FindPerson (id : string) (account : Account)
  | call_Me
  | call_SavePerson (person : Person)
  | call_ListDonations (account : Account) (offset limit : Z)
  | call_ListMyDonations
  | call_FindDonation (id : string) (account : Account)
  | call_SaveDonation (donation : Donation float64 time_Time any_value)
  | call_RefundDonation (donation : Donation float64 time_Time any_value)
      (reason : string)
  | call_SendDonationReceipt (donation : Donation float64 time_Time any_value)
  | call_ListSubscriptions (account : Account)
  | call_ListMySubscriptions
  | call_FindSubscription (id : string) (account : Account)
  | call_SaveSubscription (subscription : Subscription)
  | call_ListCampaigns (account : Account)
  | call_FindCampaign (id : string) (account : Account)
  | call_SaveCampaign (campaign : Campaign float64 time_Time any_value)
  | call_DeleteCampaign (campaign : Campaign float64 time_Time any_value).

(** The error result of a method that also returns a value. *)
Definition error_of {A : Type} (m : M (A * option error)) : M (option error) :=
  '(_, err) ← m; mret err.

(** Running a call; of its results only the error is kept. *)
Definition perform (ctx : Context) (c : donatelyClient) (k : call)
  : M (option error) :=
  match k with
  | call_FindAccount id => error_of (FindAccount lib dec ctx c id)
  | call_ListPeople account offset limit =>
      error_of (ListPeople lib ctx c account offset limit)
  | call_FindPerson id account => error_of (FindPerson lib ctx c id account)
  | call_Me => error_of (Me lib ctx c)
  | call_SavePerson person => error_of (SavePerson lib ctx c person)
  | call_ListDonations account offset limit =>
      error_of (ListDonations lib ctx c account offset limit)
  | call_ListMyDonations => error_of (ListMyDonations lib ctx c)
  | call_FindDonation id account => error_of (FindDonation lib ctx c id account)
  | call_SaveDonation donation => error_of (SaveDonation lib ctx c donation)
  | call_RefundDonation donation reason => RefundDonation lib ctx c donation reason
  | call_SendDonationReceipt donation => SendDonationReceipt lib ctx c donation
  | call_ListSubscriptions account => error_of (ListSubscriptions lib dec ctx c account)
  | call_ListMySubscriptions => error_of (ListMySubscriptions lib dec ctx c)
  | call_FindSubscription id account =>
      error_of (FindSubscription lib ctx c id account)
  | call_SaveSubscription subscription =>
      error_of (SaveSubscription lib ctx c subscription)
  | call_ListCampaigns account => error_of (ListCampaigns lib dec ctx c account)
  | call_FindCampaign id account => error_of (FindCampaign lib ctx c id account)
  | call_SaveCampaign campaign => error_of (SaveCampaign lib ctx c campaign)
  | call_DeleteCampaign campaign => DeleteCampaign lib ctx c campaign
  end.

(** The method and the endpoint of each call. *)
Definition route (k : call) : string * string :=
  match k with
  | call_FindAccount id => ("GET", "/accounts/" +:+ url_PathEscape id)
  | call_ListPeople account offset limit =>
      ("GET", "/people?" +:+ pagination_query (Account_ID account) offset limit)
  | call_FindPerson id account =>
      ("GET", "/people/" +:+ url_PathEscape id +:+ "?account_id="
                +:+ url_QueryEscape (Account_ID account))
  | call_Me => ("GET", "/me")
  | call_SavePerson person => ("POST", save_path "/people" (Person_ID person))
  | call_ListDonations account offset limit =>
      ("GET", "/donations?" +:+ pagination_query (Account_ID account) offset limit)
  | call_ListMyDonations => ("GET", "/me/donations")
  | call_FindDonation id account =>
      ("GET", "/donations/" +:+ url_PathEscape id +:+ "?account_id="
                +:+ url_QueryEscape (Account_ID account))
  | call_SaveDonation donation =>
      ("POST", save_path "/donations" (Donation_ID donation) +:+ "?"
                 +:+ Values_Encode (SaveDonation_params donation))
  | call_RefundDonation donation _ =>
      ("POST", "/donations/" +:+ url_PathEscape (Donation_ID donation)
                 +:+ "/refund")
  | call_SendDonationReceipt donation =>
      ("POST", "/donations/" +:+ url_PathEscape (Donation_ID donation)
                 +:+ "/receipt")
  | call_ListSubscriptions account =>
      ("GET", "/subscriptions?account_id=" +:+ url_QueryEscape (Account_ID account))
  | call_ListMySubscriptions => ("GET", "/me/subscriptions")
  | call_FindSubscription id account =>
      ("GET", "/subscriptions/" +:+ url_PathEscape id +:+ "?account_id="
                +:+ url_QueryEscape (Account_ID account))
  | call_SaveSubscription subscription =>
      ("POST", save_path "/subscriptions" (Subscription_ID subscription))
  | call_ListCampaigns account =>
      ("GET", "/campaigns?account_id=" +:+ url_QueryEscape (Account_ID account))
  | call_FindCampaign id account =>
      ("GET", "/campaigns/" +:+ url_PathEscape id +:+ "?account_id="
                +:+ url_QueryEscape (Account_ID account))
  | call_SaveCampaign campaign =>
      ("POST", save_path "/campaigns" (Campaign_ID campaign))
  | call_DeleteCampaign campaign =>
      ("DELETE", "/campaigns/" +:+ url_PathEscape (Campaign_ID campaign))
  end.

(** The content type a call declares. *)
Definition content_type (k : call) : string :=
  match k with
  | call_SavePerson _ => "application/x-www-form-urlencoded"
  | _ => "application/json"
  end.

(** The calls whose request has a body. *)
Definition has_body (k : call) : bool :=
  match k with
  | call_SavePerson _ | call_RefundDonation _ _ | call_SaveSubscription _
  | call_SaveCampaign _ => true
  | _ => false
  end.

(** The calls that go through the retry loop. *)
Definition retries (k : call) : bool :=
  match k with call_SaveDonation _ => true | _ => false end.

(** The most requests a call can issue under context [ctx]. *)
Definition attempts (ctx : Context) (k : call) : nat :=
  if retries k then 2 + length ctx else 1.

(** What every request of call [k] looks like. *)
Definition request_of_call (c : donatelyClient) (k : call) (r : Request) : Prop :=
  request_to c (route k).1 (route k).2 r
  ∧ carries_credentials c r
  ∧ Header r !! "Content-Type" = Some [content_type k]
  ∧ (has_body k = false -> Body r = None).

End Calls.

(** A field of a sparse update: left out when empty, otherwise sent as it
    is. *)
Definition sparse (value : string) : option (list string) :=
  if String.eqb value "" then None else Some [value].

(** An operation whose value is the zero value whenever it returns an
    error. *)
Definition returns_zero_on_error {A : Type} (zero : A) (m : M (A * option error))
  : Prop :=
  ∀ w a e, (m w).1 = Returns (a, Some e) -> a = zero.

(** The bytes [url.PathEscape] and [url.QueryEscape] can write: the
    unreserved characters, the percent sign of an escape, and the few
    reserved characters each mode lets through. *)
Definition escaped_alphabet (mode : encoding) : string :=
  "abcdefghijklmnopqrstuvwxyzABCDEFGHIJKLMNOPQRSTUVWXYZ0123456789-_.~%"
  +:+ match mode with
      | encodePathSegment => "$&+:=@"
      | encodeQueryComponent => "+"
      end.

Section Reach.
Context {float64 time_Time any_value : Type}.
Context (lib : Library float64 time_Time any_value).

(** The calls the client stops before any request: the three methods that
    check for account information (lines 338-343, 458-460, 523-525). *)
Definition stopped_locally (k : @call float64 time_Time any_value) : bool :=
  match k with
  | call_SavePerson person =>
      match Person_Accounts person with
      | [] => true
      | first :: _ => String.eqb (Account_ID first) ""
      end
  | call_SaveDonation donation | call_RefundDonation donation _ =>
      String.eqb (Account_ID (Donation_Account donation)) ""
  | _ => false
  end.



End Reach.


(** * Properties *)

Example escape_path : url_PathEscape "a b/c?d" = "a%20b%2Fc%3Fd".
Proof. reflexivity. Qed.
Example escape_query : url_QueryEscape "a b&c=d~" = "a+b%26c%3Dd~".
Proof. reflexivity. Qed.
Example encode_sorted (x y : string) :
  Values_Encode (Values_Set "offset" "10" (Values_Set "limit" y (Values_Set "account_id" x ∅)))
  = "account_id=" +:+ url_QueryEscape x +:+ "&limit=" +:+ url_QueryEscape y +:+ "&offset=10".
Proof. vm_compute. reflexivity. Qed.


Section Properties.
Context {float64 time_Time any_value : Type}.
Context (lib : Library float64 time_Time any_value).

Local Abbreviation Donation' := (Donation float64 time_Time any_value).
Local Abbreviation Campaign' := (Campaign float64 time_Time any_value).
Local Abbreviation any' := (any float64 time_Time any_value).

(** ** Construction *)

Lemma foldl_options_baseURL (post : list ClientOption) (opt : clientOption) :
  Forall keeps_baseURL post ->
  baseURL (foldl (fun acc (option : ClientOption) => option acc) opt post)
  = baseURL opt.
Proof.
  intros Hpost. revert opt.
  induction Hpost as [|o post Ho _ IH]; intros opt; simpl; [done|].
  rewrite IH. apply Ho.
Qed.

Lemma WithAPIKey_keeps_baseURL key : keeps_baseURL (WithAPIKey key).
Proof. by intros opt. Qed.

Lemma WithRetry_keeps_baseURL : keeps_baseURL WithRetry.
Proof. by intros opt. Qed.

Lemma eqb_empty_false (s : string) : s ≠ "" -> String.eqb s "" = false.
Proof. intros H. by apply String.eqb_neq. Qed.

Lemma NewDonatelyClient_base_url_cleared (pre post : list ClientOption) :
  Forall keeps_baseURL post ->
  apiKey (foldl (fun acc (option : ClientOption) => option acc)
            {| apiKey := ""; baseURL := "https://api.donately.com/v2";
               donatelyAPIVersion := "2018-04-01"; doRetry := false;
               debug := false |}
            (pre ++ WithBaseURL "" :: post)) ≠ "" ->
  NewDonatelyClient (pre ++ WithBaseURL "" :: post)
  = (donatelyClient_zero, Some (errors_New "missing base URL!")).
Proof.
  intros Hpost Hkey.
  unfold NewDonatelyClient.
  rewrite (eqb_empty_false _ Hkey).
  rewrite foldl_app. simpl.
  rewrite (foldl_options_baseURL post _ Hpost). done.
Qed.

(** C10. Constructing a client with a non-empty API key and the base URL
    option explicitly set to the empty string fails with the error
    "missing base URL!", whichever of the two options comes first and
    whatever options precede them: the empty base URL replaces the default
    instead of falling back to it. Without the option the default base URL
    is kept and construction succeeds. *)
Theorem NewDonatelyClient_empty_base_url (key : string) (pre : list ClientOption) :
  key ≠ "" ->
  NewDonatelyClient (pre ++ [WithAPIKey key; WithBaseURL ""])
    = (donatelyClient_zero, Some (errors_New "missing base URL!"))
  ∧ NewDonatelyClient (pre ++ [WithBaseURL ""; WithAPIKey key])
    = (donatelyClient_zero, Some (errors_New "missing base URL!"))
  ∧ Error (errors_New "missing base URL!") = "missing base URL!"
  ∧ NewDonatelyClient [WithAPIKey key]
    = ({| opts := {| apiKey := key; baseURL := "https://api.donately.com/v2";
                     donatelyAPIVersion := "2018-04-01"; doRetry := false;
                     debug := false |};
          client := Some http_Client_zero |}, None).
Proof.
  intros Hkey. repeat split.
  - replace (pre ++ [WithAPIKey key; WithBaseURL ""])
      with ((pre ++ [WithAPIKey key]) ++ WithBaseURL "" :: [])
      by (by rewrite <- app_assoc).
    apply NewDonatelyClient_base_url_cleared; [constructor|].
    rewrite !foldl_app. simpl. done.
  - apply NewDonatelyClient_base_url_cleared.
    + constructor; [apply WithAPIKey_keeps_baseURL|constructor].
    + rewrite foldl_app. simpl. done.
  - unfold NewDonatelyClient. simpl.
    by rewrite (eqb_empty_false _ Hkey).
Qed.

(** ** The request executor *)

Lemma makeRequestWithContentType_completed
    (ctx : Context) (c : donatelyClient) (method endpoint : string)
    (body : option any') (contentType : string) (w : World)
    (hc : http_Client) (reqBody : option string) (requestURI : string)
    (rt : RoundTrip) :
  client c = Some hc ->
  encodeBody lib body contentType = inr reqBody ->
  http_NewRequestWithContext lib method (baseURL (opts c) +:+ endpoint)
    = inr requestURI ->
  handler w (sent w ++ [newRequest c method endpoint reqBody contentType]) = rt ->
  ∃ w',
    makeRequestWithContentType lib ctx c method endpoint body contentType w
    = (Returns
         match rt with
         | TransportError err =>
             (None, Some (fmt_Errorf_w "failed to make request: " err))
         | BodyReadError err =>
             (None, Some (fmt_Errorf_w "failed to read response body: " err))
         | Response StatusCode respBody => classifyResponse lib StatusCode respBody
         end, w')
    ∧ sent w' = sent w ++ [newRequest c method endpoint reqBody contentType]
    ∧ handler w' = handler w.
Proof.
  intros Hc Henc Hnew Hrt.
  unfold makeRequestWithContentType. rewrite Henc, Hnew.
  unfold mbind, M_bind, http_Client_Do. rewrite Hc.
  destruct (debug (opts c)); simpl; rewrite Hrt;
    (eexists; split; [by destruct rt|done]).
Qed.

(** C4. A completed response whose body parses as the envelope: with all of
    type, message and code non-empty the request fails with the error text
    "API error: {code} - ({type}) {message}", which is not retryable,
    whatever the HTTP status; otherwise a status of 400 or more fails with
    an HTTP error whose text contains the status in decimal, not retryable
    either; otherwise the envelope is returned with a nil error. *)
Theorem makeRequest_classifies_envelope
    (ctx : Context) (c : donatelyClient) (method endpoint : string)
    (body : option any') (contentType : string) (w : World)
    (hc : http_Client) (reqBody : option string) (requestURI : string)
    (StatusCode : Z) (respBody : string) (apiResp : APIResponse) :
  client c = Some hc ->
  encodeBody lib body contentType = inr reqBody ->
  http_NewRequestWithContext lib method (baseURL (opts c) +:+ endpoint)
    = inr requestURI ->
  handler w (sent w ++ [newRequest c method endpoint reqBody contentType])
    = Response StatusCode respBody ->
  json_Unmarshal_APIResponse lib respBody = inr apiResp ->
  let result :=
    (makeRequestWithContentType lib ctx c method endpoint body contentType w).1 in
  let triple :=
    APIResponse_Type apiResp ≠ "" ∧ APIResponse_Message apiResp ≠ ""
    ∧ APIResponse_Code apiResp ≠ "" in
  (triple ->
     ∃ e, result = Returns (None, Some e)
       ∧ Error e = "API error: " +:+ APIResponse_Code apiResp +:+ " - ("
                     +:+ APIResponse_Type apiResp +:+ ") "
                     +:+ APIResponse_Message apiResp
       ∧ assert_retryable (Some e) = None)
  ∧ (¬ triple -> (400 ≤ StatusCode)%Z ->
     ∃ e, result = Returns (None, Some e)
       ∧ Error e = "HTTP error: " +:+ strconv_Itoa StatusCode
                     +:+ " (Raw Response: " +:+ fmt_v_APIResponse apiResp +:+ ")"
       ∧ contains (strconv_Itoa StatusCode) (Error e)
       ∧ assert_retryable (Some e) = None)
  ∧ (¬ triple -> (StatusCode < 400)%Z ->
     result = Returns (Some apiResp, None)).
Proof.
  intros Hc Henc Hnew Hrt Hparse result triple.
  destruct (makeRequestWithContentType_completed ctx c method endpoint body
              contentType w hc reqBody requestURI _ Hc Henc Hnew Hrt)
    as (w' & Hrun & _ & _).
  subst result. rewrite Hrun. simpl.
  unfold classifyResponse. rewrite Hparse.
  assert (Hcond :
    negb (String.eqb (APIResponse_Type apiResp) "")
    && negb (String.eqb (APIResponse_Message apiResp) "")
    && negb (String.eqb (APIResponse_Code apiResp) "") = true <-> triple).
  { subst triple. rewrite !andb_true_iff, !negb_true_iff, !String.eqb_neq. tauto. }
  destruct (negb (String.eqb (APIResponse_Type apiResp) "")
            && negb (String.eqb (APIResponse_Message apiResp) "")
            && negb (String.eqb (APIResponse_Code apiResp) "")) eqn:Hb.
  - assert (Htri : triple) by (by apply Hcond).
    split; [intros _; by eexists|]. split; intros Hno; by destruct Hno.
  - assert (Hno : ¬ triple) by (intros Htri; apply Hcond in Htri; done).
    split; [intros Htri; by destruct Hno|].
    destruct (Z.geb_spec StatusCode 400) as [Hge|Hlt].
    + split; [|intros _ ?; lia].
      intros _ _. eexists. repeat split.
      by exists "HTTP error: ",
                (" (Raw Response: " +:+ fmt_v_APIResponse apiResp +:+ ")").
    + split; [intros _ ?; lia|done].
Qed.

(** C6. A completed response whose body does not parse as the envelope: when
    the body, trimmed and lower-cased, is exactly "retry later" the request
    fails with a retryable error whose can-retry marker is true, whatever
    the HTTP status; for every other unparseable body it fails with the
    decode error that wraps the parse failure, which is not retryable. *)
Theorem makeRequest_classifies_unparseable
    (ctx : Context) (c : donatelyClient) (method endpoint : string)
    (body : option any') (contentType : string) (w : World)
    (hc : http_Client) (reqBody : option string) (requestURI : string)
    (StatusCode : Z) (respBody : string) (parseErr : error) :
  client c = Some hc ->
  encodeBody lib body contentType = inr reqBody ->
  http_NewRequestWithContext lib method (baseURL (opts c) +:+ endpoint)
    = inr requestURI ->
  handler w (sent w ++ [newRequest c method endpoint reqBody contentType])
    = Response StatusCode respBody ->
  json_Unmarshal_APIResponse lib respBody = inl parseErr ->
  let result :=
    (makeRequestWithContentType lib ctx c method endpoint body contentType w).1 in
  let decodeErr := fmt_Errorf_w "failed to unmarshal response: " parseErr in
  (strings_ToLower lib (strings_TrimSpace lib respBody) = "retry later" ->
     result = Returns (None, Some (retryableError decodeErr true))
     ∧ assert_retryable (Some (retryableError decodeErr true)) = Some true)
  ∧ (strings_ToLower lib (strings_TrimSpace lib respBody) ≠ "retry later" ->
     result = Returns (None, Some decodeErr)
     ∧ Unwrap decodeErr = Some parseErr
     ∧ assert_retryable (Some decodeErr) = None).
Proof.
  intros Hc Henc Hnew Hrt Hparse result decodeErr.
  destruct (makeRequestWithContentType_completed ctx c method endpoint body
              contentType w hc reqBody requestURI _ Hc Henc Hnew Hrt)
    as (w' & Hrun & _ & _).
  subst result. rewrite Hrun. simpl.
  unfold classifyResponse. rewrite Hparse.
  destruct (String.eqb_spec "retry later"
              (strings_ToLower lib (strings_TrimSpace lib respBody))) as [He|He].
  - split; [done|]. intros Hne. by rewrite <- He in Hne.
  - split; [intros Heq; by rewrite Heq in He|done].
Qed.

(** ** SaveDonation and the retry gate *)

Lemma issued_app (w w' : World) (reqs : list Request) :
  sent w' = sent w ++ reqs -> issued w w' = reqs.
Proof. intros H. unfold issued. rewrite H. apply drop_app_length. Qed.

Lemma encodeBody_nil (contentType : string) :
  encodeBody lib (None : option any') contentType = inr None.
Proof. done. Qed.

(** One bodiless request against a server that answers it. *)
Lemma makeRequest_answered
    (ctx : Context) (c : donatelyClient) (method endpoint : string) (w : World)
    (hc : http_Client) (requestURI : string) (StatusCode : Z) (respBody : string) :
  client c = Some hc ->
  http_NewRequestWithContext lib method (baseURL (opts c) +:+ endpoint)
    = inr requestURI ->
  handler w (sent w ++ [newRequest c method endpoint None "application/json"])
    = Response StatusCode respBody ->
  ∃ w',
    makeRequest lib ctx c method endpoint None w
    = (Returns (classifyResponse lib StatusCode respBody), w')
    ∧ sent w' = sent w ++ [newRequest c method endpoint None "application/json"]
    ∧ handler w' = handler w.
Proof.
  intros Hc Hnew Hrt.
  apply (makeRequestWithContentType_completed ctx c method endpoint None
           "application/json" w hc None requestURI _ Hc (encodeBody_nil _)
           Hnew Hrt).
Qed.

Lemma classifyResponse_retryable (StatusCode : Z) (respBody : string) (parseErr : error) :
  json_Unmarshal_APIResponse lib respBody = inl parseErr ->
  strings_ToLower lib (strings_TrimSpace lib respBody) = "retry later" ->
  classifyResponse lib StatusCode respBody
  = (None, Some (retryableError
                   (fmt_Errorf_w "failed to unmarshal response: " parseErr) true)).
Proof.
  intros Hparse Hsentinel. unfold classifyResponse.
  by rewrite Hparse, Hsentinel.
Qed.

Lemma classifyResponse_success (StatusCode : Z) (respBody : string) (apiResp : APIResponse) :
  json_Unmarshal_APIResponse lib respBody = inr apiResp ->
  ¬ (APIResponse_Type apiResp ≠ "" ∧ APIResponse_Message apiResp ≠ ""
     ∧ APIResponse_Code apiResp ≠ "") ->
  (StatusCode < 400)%Z ->
  classifyResponse lib StatusCode respBody = (Some apiResp, None).
Proof.
  intros Hparse Hno Hst. unfold classifyResponse. rewrite Hparse.
  destruct (negb (String.eqb (APIResponse_Type apiResp) "")
            && negb (String.eqb (APIResponse_Message apiResp) "")
            && negb (String.eqb (APIResponse_Code apiResp) "")) eqn:Hb.
  - exfalso. apply Hno. revert Hb.
    rewrite !andb_true_iff, !negb_true_iff, !String.eqb_neq. tauto.
  - by destruct (Z.geb_spec StatusCode 400); [lia|].
Qed.

(** C1 (as the code behaves). Retry disabled, and the first response is
    classified retryable: [SaveDonation] issues exactly one request and then
    dereferences the nil response. It panics; no error is returned. *)
Theorem SaveDonation_retry_disabled_nil_dereference
    (ctx : Context) (c : donatelyClient) (donation : Donation') (w : World)
    (hc : http_Client) (requestURI : string)
    (StatusCode : Z) (respBody : string) (parseErr : error) :
  let req :=
    newRequest c "POST" (SaveDonation_endpoint donation) None "application/json" in
  doRetry (opts c) = false ->
  client c = Some hc ->
  Account_ID (Donation_Account donation) ≠ "" ->
  http_NewRequestWithContext lib "POST"
    (baseURL (opts c) +:+ SaveDonation_endpoint donation) = inr requestURI ->
  handler w (sent w ++ [req]) = Response StatusCode respBody ->
  json_Unmarshal_APIResponse lib respBody = inl parseErr ->
  strings_ToLower lib (strings_TrimSpace lib respBody) = "retry later" ->
  ∃ w', SaveDonation lib ctx c donation w = (Panics nil_dereference, w')
        ∧ issued w w' = [req].
Proof.
  intros req Hretry Hc Hacct Hnew Hrt Hparse Hsentinel.
  unfold SaveDonation. rewrite (eqb_empty_false _ Hacct). cbv zeta.
  destruct (makeRequest_answered ctx c "POST" (SaveDonation_endpoint donation)
              w hc requestURI StatusCode respBody Hc Hnew Hrt)
    as (w1 & Hrun & Hsent & _).
  rewrite (classifyResponse_retryable _ _ _ Hparse Hsentinel) in Hrun.
  unfold mbind, M_bind. rewrite Hrun, Hretry. simpl.
  exists w1. split; [done|]. by apply issued_app.
Qed.

(** The same happens for every error of the first request, retryable or
    not: with retry disabled nothing returns the error. *)
Lemma SaveDonation_retry_disabled_any_error
    (ctx : Context) (c : donatelyClient) (donation : Donation') (w : World)
    (hc : http_Client) (requestURI : string)
    (StatusCode : Z) (respBody : string) (e : error) :
  doRetry (opts c) = false ->
  client c = Some hc ->
  Account_ID (Donation_Account donation) ≠ "" ->
  http_NewRequestWithContext lib "POST"
    (baseURL (opts c) +:+ SaveDonation_endpoint donation) = inr requestURI ->
  handler w (sent w ++ [newRequest c "POST" (SaveDonation_endpoint donation)
                          None "application/json"])
    = Response StatusCode respBody ->
  classifyResponse lib StatusCode respBody = (None, Some e) ->
  (SaveDonation lib ctx c donation w).1 = Panics nil_dereference.
Proof.
  intros Hretry Hc Hacct Hnew Hrt Hclass.
  unfold SaveDonation. rewrite (eqb_empty_false _ Hacct). cbv zeta.
  destruct (makeRequest_answered ctx c "POST" (SaveDonation_endpoint donation)
              w hc requestURI StatusCode respBody Hc Hnew Hrt)
    as (w1 & Hrun & _ & _).
  rewrite Hclass in Hrun.
  unfold mbind, M_bind. by rewrite Hrun, Hretry.
Qed.

(** With retry disabled a successful request is decoded, as in every other
    operation. *)
Lemma SaveDonation_retry_disabled_success
    (ctx : Context) (c : donatelyClient) (donation : Donation') (w : World)
    (hc : http_Client) (requestURI : string)
    (StatusCode : Z) (respBody : string) (apiResp : APIResponse)
    (saved : Donation') :
  doRetry (opts c) = false ->
  client c = Some hc ->
  Account_ID (Donation_Account donation) ≠ "" ->
  http_NewRequestWithContext lib "POST"
    (baseURL (opts c) +:+ SaveDonation_endpoint donation) = inr requestURI ->
  handler w (sent w ++ [newRequest c "POST" (SaveDonation_endpoint donation)
                          None "application/json"])
    = Response StatusCode respBody ->
  classifyResponse lib StatusCode respBody = (Some apiResp, None) ->
  json_Unmarshal_Donation lib (APIResponse_Data apiResp) = inr saved ->
  (SaveDonation lib ctx c donation w).1 = Returns (saved, None).
Proof.
  intros Hretry Hc Hacct Hnew Hrt Hclass Hsaved.
  unfold SaveDonation. rewrite (eqb_empty_false _ Hacct). cbv zeta.
  destruct (makeRequest_answered ctx c "POST" (SaveDonation_endpoint donation)
              w hc requestURI StatusCode respBody Hc Hnew Hrt)
    as (w1 & Hrun & _ & _).
  rewrite Hclass in Hrun.
  unfold mbind, M_bind. rewrite Hrun, Hretry. simpl. by rewrite Hsaved.
Qed.

(** C2 (as the code behaves). Retry enabled, and the first request
    succeeds: the nil error is not a retryable one, so [SaveDonation] takes
    the branch that returns at once. It returns the zero donation with a nil
    error after one request, and never decodes the response's data. *)
Theorem SaveDonation_retry_enabled_first_success_returns_zero
    (ctx : Context) (c : donatelyClient) (donation : Donation') (w : World)
    (hc : http_Client) (requestURI : string)
    (StatusCode : Z) (respBody : string) (apiResp : APIResponse) :
  let req :=
    newRequest c "POST" (SaveDonation_endpoint donation) None "application/json" in
  doRetry (opts c) = true ->
  client c = Some hc ->
  Account_ID (Donation_Account donation) ≠ "" ->
  http_NewRequestWithContext lib "POST"
    (baseURL (opts c) +:+ SaveDonation_endpoint donation) = inr requestURI ->
  handler w (sent w ++ [req]) = Response StatusCode respBody ->
  json_Unmarshal_APIResponse lib respBody = inr apiResp ->
  ¬ (APIResponse_Type apiResp ≠ "" ∧ APIResponse_Message apiResp ≠ ""
     ∧ APIResponse_Code apiResp ≠ "") ->
  (StatusCode < 400)%Z ->
  ∃ w', SaveDonation lib ctx c donation w = (Returns (Donation_zero lib, None), w')
        ∧ issued w w' = [req].
Proof.
  intros req Hretry Hc Hacct Hnew Hrt Hparse Hno Hst.
  unfold SaveDonation. rewrite (eqb_empty_false _ Hacct). cbv zeta.
  destruct (makeRequest_answered ctx c "POST" (SaveDonation_endpoint donation)
              w hc requestURI StatusCode respBody Hc Hnew Hrt)
    as (w1 & Hrun & Hsent & _).
  rewrite (classifyResponse_success _ _ _ Hparse Hno Hst) in Hrun.
  unfold mbind, M_bind. rewrite Hrun, Hretry. simpl.
  exists w1. split; [done|]. by apply issued_app.
Qed.

(** C7. Retry enabled, the first response is classified retryable (its body
    is [retry later]) and the next attempt's response is a well-formed
    success envelope: [SaveDonation] returns the donation decoded from the
    second response's data with a nil error, after exactly two attempts,
    both carrying the same request. *)
Theorem SaveDonation_retry_then_success
    (ctx : Context) (c : donatelyClient) (donation : Donation') (w : World)
    (hc : http_Client) (requestURI : string)
    (status1 : Z) (body1 : string) (parseErr : error)
    (status2 : Z) (body2 : string) (apiResp : APIResponse) (saved : Donation') :
  let req :=
    newRequest c "POST" (SaveDonation_endpoint donation) None "application/json" in
  doRetry (opts c) = true ->
  client c = Some hc ->
  Account_ID (Donation_Account donation) ≠ "" ->
  http_NewRequestWithContext lib "POST"
    (baseURL (opts c) +:+ SaveDonation_endpoint donation) = inr requestURI ->
  handler w (sent w ++ [req]) = Response status1 body1 ->
  json_Unmarshal_APIResponse lib body1 = inl parseErr ->
  strings_ToLower lib (strings_TrimSpace lib body1) = "retry later" ->
  handler w (sent w ++ [req; req]) = Response status2 body2 ->
  json_Unmarshal_APIResponse lib body2 = inr apiResp ->
  ¬ (APIResponse_Type apiResp ≠ "" ∧ APIResponse_Message apiResp ≠ ""
     ∧ APIResponse_Code apiResp ≠ "") ->
  (status2 < 400)%Z ->
  json_Unmarshal_Donation lib (APIResponse_Data apiResp) = inr saved ->
  ∃ w', SaveDonation lib ctx c donation w = (Returns (saved, None), w')
        ∧ issued w w' = [req; req].
Proof.
  intros req Hretry Hc Hacct Hnew Hrt1 Hparse1 Hsentinel Hrt2 Hparse2 Hno Hst
    Hsaved.
  unfold SaveDonation. rewrite (eqb_empty_false _ Hacct). cbv zeta.
  set (endpoint := SaveDonation_endpoint donation) in *.
  destruct (makeRequest_answered ctx c "POST" endpoint w hc requestURI
              status1 body1 Hc Hnew Hrt1) as (w1 & Hrun1 & Hsent1 & Hh1).
  rewrite (classifyResponse_retryable _ _ _ Hparse1 Hsentinel) in Hrun1.
  destruct (makeRequest_answered ctx c "POST" endpoint w1 hc requestURI
              status2 body2 Hc Hnew) as (w2 & Hrun2 & Hsent2 & _).
  { rewrite Hh1, Hsent1, <- app_assoc. apply Hrt2. }
  rewrite (classifyResponse_success _ _ _ Hparse2 Hno Hst) in Hrun2.
  unfold mbind, M_bind. rewrite Hrun1, Hretry. simpl.
  assert (Hretried :
    backoff_Retry ctx (makeRequest lib ctx c "POST" endpoint None) w1
    = (Returns (Some apiResp, None), w2)).
  { destruct ctx; simpl; unfold mbind, M_bind; by rewrite Hrun2. }
  rewrite Hretried. simpl. rewrite Hsaved.
  exists w2. split; [done|].
  apply issued_app. by rewrite Hsent2, Hsent1, <- app_assoc.
Qed.

(** ** Local validation *)

Lemma sends_only_ret {A} (P : Request -> Prop) (a : A) : sends_only P (mret a).
Proof. intros w. exists []. by rewrite app_nil_r. Qed.

Lemma sends_only_panic {A} (P : Request -> Prop) (msg : string) :
  sends_only P (panic (A:=A) msg).
Proof. intros w. exists []. by rewrite app_nil_r. Qed.

Lemma sends_only_bind {A B} (P : Request -> Prop) (m : M A) (k : A -> M B) :
  sends_only P m -> (∀ a, sends_only P (k a)) -> sends_only P (m ≫= k).
Proof.
  intros Hm Hk w. unfold mbind, M_bind.
  destruct (Hm w) as (reqs1 & Hsent1 & HP1).
  destruct (m w) as [[a|msg] w1]; simpl in *; [|by exists reqs1].
  destruct (Hk a w1) as (reqs2 & Hsent2 & HP2).
  exists (reqs1 ++ reqs2). rewrite Hsent2, Hsent1, <- app_assoc.
  split; [done|]. by apply Forall_app.
Qed.

Lemma sends_only_weaken {A} (P Q : Request -> Prop) (m : M A) :
  (∀ r, P r -> Q r) -> sends_only P m -> sends_only Q m.
Proof.
  intros HPQ Hm w. destruct (Hm w) as (reqs & Hsent & HP).
  exists reqs. split; [done|]. by eapply Forall_impl.
Qed.

Lemma sends_only_issued {A} (P : Request -> Prop) (m : M A) (w : World) :
  sends_only P m -> Forall P (issued w (m w).2).
Proof.
  intros Hm. destruct (Hm w) as (reqs & Hsent & HP).
  by rewrite (issued_app _ _ _ Hsent).
Qed.

Lemma sends_only_Println2 (P : Request -> Prop) (a b : string) :
  sends_only P (fmt_Println2 a b).
Proof. intros w. exists []. by rewrite app_nil_r. Qed.

Lemma sends_only_Do (P : Request -> Prop) (c : donatelyClient) (req : Request) :
  P req -> sends_only P (http_Client_Do c req).
Proof.
  intros HP w. unfold http_Client_Do. destruct (client c); simpl.
  - exists [req]. split; [done|]. by constructor.
  - exists []. by rewrite app_nil_r.
Qed.

Lemma sends_only_deref (P : Request -> Prop) (resp : option APIResponse) :
  sends_only P (deref resp).
Proof. destruct resp; [apply sends_only_ret|apply sends_only_panic]. Qed.

Ltac sends_only_step :=
  match goal with
  | |- sends_only _ (mret _) => apply sends_only_ret
  | |- sends_only _ (panic _) => apply sends_only_panic
  | |- sends_only _ (deref _) => apply sends_only_deref
  | |- sends_only _ (fmt_Println2 _ _) => apply sends_only_Println2
  | |- sends_only _ (_ ≫= _) => apply sends_only_bind; [|intros ?]
  | |- sends_only _ (match ?x with _ => _ end) => destruct x
  | |- sends_only _ (let _ := _ in _) => cbv zeta
  end.

Lemma sends_only_makeRequestWithContentType
    (ctx : Context) (c : donatelyClient) (method endpoint : string)
    (body : option any') (contentType : string) :
  method ≠ "" ->
  sends_only (request_to c method endpoint)
    (makeRequestWithContentType lib ctx c method endpoint body contentType).
Proof.
  intros Hmethod. unfold makeRequestWithContentType.
  repeat (sends_only_step
          || (apply sends_only_Do; split; simpl;
              [by rewrite (eqb_empty_false _ Hmethod)|done])).
Qed.

Lemma sends_only_makeRequest
    (ctx : Context) (c : donatelyClient) (method endpoint : string)
    (body : option any') :
  method ≠ "" ->
  sends_only (request_to c method endpoint)
    (makeRequest lib ctx c method endpoint body).
Proof. apply sends_only_makeRequestWithContentType. Qed.

Lemma sends_only_Retry {T} (P : Request -> Prop) (ctx : Context)
    (operation : M (T * option error)) :
  sends_only P operation -> sends_only P (backoff_Retry ctx operation).
Proof.
  intros Hop. induction ctx as [|wait ctx IH]; simpl.
  - repeat sends_only_step; done.
  - apply sends_only_bind; [done|]. intros [res [e|]]; [|apply sends_only_ret].
    destruct wait; [done|apply sends_only_ret..].
Qed.

(** The ways a request whose body encodes can end. *)
Lemma makeRequestWithContentType_cases
    (ctx : Context) (c : donatelyClient) (method endpoint : string)
    (body : option any') (contentType : string) (reqBody : option string)
    (w : World) :
  encodeBody lib body contentType = inr reqBody ->
  let r := makeRequestWithContentType lib ctx c method endpoint body contentType w in
  (∃ err, r = (Returns (None, Some (fmt_Errorf_w "failed to create request: " err)), w))
  ∨ (∃ msg, r.1 = Panics msg)
  ∨ (∃ res, r.1 = Returns res
       ∧ sent r.2 = sent w ++ [newRequest c method endpoint reqBody contentType]).
Proof.
  intros Henc. unfold makeRequestWithContentType. rewrite Henc.
  destruct (http_NewRequestWithContext lib method (baseURL (opts c) +:+ endpoint))
    as [err|uri]; [left; by exists err|right].
  unfold mbind, M_bind, http_Client_Do.
  destruct (client c) as [hc|]; destruct (debug (opts c)); simpl;
    [right; destruct (handler w _); by eexists ..
    |left; by eexists | left; by eexists].
Qed.

Lemma create_request_error_text (err : error) :
  Error (fmt_Errorf_w "failed to create request: " err) ≠ "missing account information".
Proof. done. Qed.

Lemma SavePerson_passes_validation
    (ctx : Context) (c : donatelyClient) (person : Person) (w : World) :
  ¬ first_account_missing person ->
  ¬ validation_failure w (SavePerson lib ctx c person w).
Proof.
  unfold first_account_missing, SavePerson.
  destruct (Person_Accounts person) as [|first rest]; [tauto|].
  intros Hid. rewrite (eqb_empty_false _ Hid). cbv zeta.
  match goal with
  | |- context [makeRequestWithContentType lib ctx c "POST" ?e (Some (any_Values ?f)) ?t] =>
      set (endpoint := e); set (formData := f);
      pose proof (makeRequestWithContentType_cases ctx c "POST" endpoint
                    (Some (any_Values formData)) t (Some (Values_Encode formData)) w
                    eq_refl) as Hcases
  end.
  cbv zeta in Hcases. unfold mbind, M_bind.
  destruct Hcases as [[err Hr]|[[msg Hr]|(res & Hr & Hsent)]].
  - rewrite Hr. intros [(a & e & Heq & Htext) _]. simpl in Heq.
    inversion Heq; subst. by apply create_request_error_text in Htext.
  - destruct (makeRequestWithContentType _ _ _ _ _ _ _ w) as [o w1].
    simpl in Hr; subst o. by intros [(a & e & Heq & _) _].
  - destruct (makeRequestWithContentType _ _ _ _ _ _ _ w) as [o w1].
    simpl in Hr, Hsent; subst o. intros [_ Hnone].
    assert (Hlen : (length (sent w) < length (sent w1))%nat)
      by (rewrite Hsent, length_app; simpl; lia).
    destruct res as [resp [e|]]; simpl in Hnone.
    + rewrite Hnone in Hlen. lia.
    + destruct resp as [r|]; simpl in Hnone.
      * destruct (json_Unmarshal_Person lib (APIResponse_Data r));
          simpl in Hnone; rewrite Hnone in Hlen; lia.
      * rewrite Hnone in Hlen. lia.
Qed.

Lemma bind_grows {A B} (P : Request -> Prop) (m : M A) (k : A -> M B) (w : World) :
  (∀ a, sends_only P (k a)) ->
  (length (sent w) < length (sent (m w).2))%nat ->
  sent ((m ≫= k) w).2 ≠ sent w.
Proof.
  intros Hk Hlt Heq. unfold mbind, M_bind in Heq.
  destruct (m w) as [[a|msg] w1]; simpl in *.
  - destruct (Hk a w1) as (reqs & Hsent & _).
    rewrite Heq in Hsent. rewrite Hsent, length_app in Hlt. lia.
  - rewrite Heq in Hlt. lia.
Qed.

(** What follows the first request of [SaveDonation]. *)
Lemma SaveDonation_rest_sends_only
    (ctx : Context) (c : donatelyClient) (endpoint : string)
    (resp : option APIResponse) (err : option error) :
  sends_only (request_to c "POST" endpoint)
    ('(resp, returned) ←
       (if doRetry (opts c) then
          match assert_retryable err with
          | Some true =>
              let operation := makeRequest lib ctx c "POST" endpoint None in
              '(resp, err) ← backoff_Retry ctx operation;
              match err with
              | Some e => mret (resp, Some (Donation_zero lib, Some e))
              | None => mret (resp, None)
              end
          | _ => mret (resp, Some (Donation_zero lib, err))
          end
        else mret (resp, None));
     match returned with
     | Some result => mret result
     | None =>
         r ← deref resp;
         match json_Unmarshal_Donation lib (APIResponse_Data r) with
         | inl e =>
             mret (Donation_zero lib,
                   Some (fmt_Errorf_w "failed to unmarshal saved donation: " e))
         | inr savedDonation => mret (savedDonation, None)
         end
     end).
Proof.
  apply sends_only_bind.
  - destruct (doRetry (opts c)); [|apply sends_only_ret].
    destruct (assert_retryable err) as [[|]|]; try apply sends_only_ret.
    apply sends_only_bind;
      [by apply sends_only_Retry, sends_only_makeRequest|].
    intros [resp' [e|]]; apply sends_only_ret.
  - intros [resp' [result|]]; [apply sends_only_ret|].
    apply sends_only_bind; [apply sends_only_deref|]. intros r.
    destruct (json_Unmarshal_Donation lib (APIResponse_Data r));
      apply sends_only_ret.
Qed.

Lemma SaveDonation_passes_validation
    (ctx : Context) (c : donatelyClient) (donation : Donation') (w : World) :
  Account_ID (Donation_Account donation) ≠ "" ->
  ¬ validation_failure w (SaveDonation lib ctx c donation w).
Proof.
  intros Hacct. unfold SaveDonation. rewrite (eqb_empty_false _ Hacct). cbv zeta.
  set (endpoint := SaveDonation_endpoint donation).
  pose proof (makeRequestWithContentType_cases ctx c "POST" endpoint None
                "application/json" None w eq_refl) as Hcases.
  cbv zeta in Hcases. fold (makeRequest lib ctx c "POST" endpoint None) in Hcases.
  destruct Hcases as [[err Hr]|[[msg Hr]|(res & Hr & Hsent)]].
  - unfold mbind, M_bind. rewrite Hr.
    destruct (doRetry (opts c)); simpl.
    + intros [(a & e & Heq & Htext) _]. inversion Heq; subst.
      by apply create_request_error_text in Htext.
    + by intros [(a & e & Heq & _) _].
  - unfold mbind, M_bind.
    destruct (makeRequest lib ctx c "POST" endpoint None w) as [o w1].
    simpl in Hr; subst o. by intros [(a & e & Heq & _) _].
  - intros [_ Hnone]. revert Hnone.
    apply (bind_grows (request_to c "POST" endpoint)).
    + intros [resp err]. apply SaveDonation_rest_sends_only.
    + rewrite Hsent, length_app. simpl. lia.
Qed.

(** C5 (amended). [SavePerson] fails with the local validation error
    "missing account information" and issues no request if and only if the
    person has no account or the first account's ID is empty; in particular
    it does so for every person without an account that has a non-empty ID.
    [SaveDonation] fails the same way if and only if the donation's account
    ID is empty. *)
Theorem validation_failure_iff (ctx : Context) (c : donatelyClient) (w : World) :
  (∀ person : Person,
     (validation_failure w (SavePerson lib ctx c person w)
      ↔ first_account_missing person)
     ∧ (¬ has_account person ->
        validation_failure w (SavePerson lib ctx c person w)))
  ∧ (∀ donation : Donation',
       validation_failure w (SaveDonation lib ctx c donation w)
       ↔ Account_ID (Donation_Account donation) = "").
Proof.
  assert (Hperson : ∀ person : Person, first_account_missing person ->
            validation_failure w (SavePerson lib ctx c person w)).
  { intros person Hmiss. unfold first_account_missing in Hmiss.
    unfold SavePerson, validation_failure.
    destruct (Person_Accounts person) as [|first rest].
    - split; [by eexists _, _|done].
    - rewrite Hmiss. split; [by eexists _, _|done]. }
  split.
  - intros person. split; [split; [|apply Hperson]|].
    + intros Hfail.
      destruct (decide (first_account_missing person)) as [|Hno]; [done|].
      by destruct (SavePerson_passes_validation ctx c person w Hno).
    + intros Hnone. apply Hperson. unfold first_account_missing.
      destruct (Person_Accounts person) as [|first rest] eqn:Haccts; [done|].
      destruct (decide (Account_ID first = "")) as [|Hid]; [done|].
      exfalso. apply Hnone. exists first. rewrite Haccts. split; [left|done].
  - intros donation. split.
    + intros Hfail.
      destruct (decide (Account_ID (Donation_Account donation) = "")) as [|Hno];
        [done|].
      by destruct (SaveDonation_passes_validation ctx c donation w Hno).
    + intros Hid. unfold SaveDonation, validation_failure. rewrite Hid.
      split; [by eexists _, _|done].
Qed.

(** ** Routes of the save operations *)

Lemma SavePerson_sends_only (ctx : Context) (c : donatelyClient) (person : Person) :
  sends_only (request_to c "POST" (save_path "/people" (Person_ID person)))
    (SavePerson lib ctx c person).
Proof.
  unfold SavePerson, save_path.
  destruct (Person_Accounts person) as [|first rest]; [apply sends_only_ret|].
  destruct (String.eqb (Account_ID first) ""); [apply sends_only_ret|].
  cbv zeta. apply sends_only_bind.
  - destruct (String.eqb (Person_ID person) "");
      by apply sends_only_makeRequestWithContentType.
  - intros [resp [e|]]; repeat sends_only_step.
Qed.

Lemma SaveSubscription_sends_only
    (ctx : Context) (c : donatelyClient) (subscription : Subscription) :
  sends_only
    (request_to c "POST" (save_path "/subscriptions" (Subscription_ID subscription)))
    (SaveSubscription lib ctx c subscription).
Proof.
  unfold SaveSubscription, save_path. cbv zeta. apply sends_only_bind.
  - destruct (String.eqb (Subscription_ID subscription) "");
      by apply sends_only_makeRequest.
  - intros [resp [e|]]; repeat sends_only_step.
Qed.

Lemma SaveCampaign_sends_only
    (ctx : Context) (c : donatelyClient) (campaign : Campaign') :
  sends_only
    (request_to c "POST" (save_path "/campaigns" (Campaign_ID campaign)))
    (SaveCampaign lib ctx c campaign).
Proof.
  unfold SaveCampaign, save_path. cbv zeta. apply sends_only_bind.
  - destruct (String.eqb (Campaign_ID campaign) "");
      by apply sends_only_makeRequest.
  - intros [resp [e|]]; repeat sends_only_step.
Qed.

(** Parameters added under other keys leave [account_id] in place. *)
Lemma set_keeps_account_id (b : bool) (key value account_id : string) (v : Values) :
  key ≠ "account_id" ->
  v !! "account_id" = Some [account_id] ->
  Values_Set_if b key value v !! "account_id" = Some [account_id].
Proof.
  intros Hkey Hv. destruct b; [|done].
  unfold Values_Set_if, Values_Set. by rewrite lookup_insert_ne.
Qed.

Lemma Values_size_positive (v : Values) (key : string) (vs : list string) :
  v !! key = Some vs -> (0 <? size v)%nat = true.
Proof.
  intros Hv. apply Nat.ltb_lt.
  destruct (size v) eqn:Hsize; [|lia].
  apply map_size_empty_iff in Hsize. subst v. by rewrite lookup_empty in Hv.
Qed.

Lemma SaveDonation_params_account (donation : Donation') :
  SaveDonation_params donation !! "account_id"
  = Some [Account_ID (Donation_Account donation)].
Proof.
  unfold SaveDonation_params. cbv zeta.
  repeat (apply set_keeps_account_id; [done|]).
  apply lookup_insert_eq.
Qed.

(** A donation's endpoint always has its query string. *)
Lemma SaveDonation_endpoint_query (donation : Donation') :
  SaveDonation_endpoint donation
  = save_path "/donations" (Donation_ID donation) +:+ "?"
      +:+ Values_Encode (SaveDonation_params donation).
Proof.
  unfold SaveDonation_endpoint. cbv zeta.
  rewrite (Values_size_positive _ _ _ (SaveDonation_params_account donation)).
  unfold save_path. by destruct (String.eqb (Donation_ID donation) "").
Qed.

Lemma SaveDonation_sends_only
    (ctx : Context) (c : donatelyClient) (donation : Donation') :
  sends_only
    (request_to c "POST"
       (save_path "/donations" (Donation_ID donation) +:+ "?"
          +:+ Values_Encode (SaveDonation_params donation)))
    (SaveDonation lib ctx c donation).
Proof.
  unfold SaveDonation.
  destruct (String.eqb (Account_ID (Donation_Account donation)) "");
    [apply sends_only_ret|].
  cbv zeta. rewrite SaveDonation_endpoint_query.
  apply sends_only_bind; [by apply sends_only_makeRequest|].
  intros [resp err]. apply SaveDonation_rest_sends_only.
Qed.

(** What follows the executor in an operation that decodes its result
    leaves the world as the executor left it. *)
Lemma decode_issued {A} (m : M (option APIResponse * option error))
    (zero : A) (decode : string -> error + A) (prefix : string)
    (w : World) (reqs : list Request) :
  issued w (m w).2 = reqs ->
  issued w (('(resp, err) ← m;
             match err with
             | Some e => mret (zero, Some e)
             | None =>
                 r ← deref resp;
                 match decode (APIResponse_Data r) with
                 | inl e => mret (zero, Some (fmt_Errorf_w prefix e))
                 | inr v => mret (v, None)
                 end
             end) w).2 = reqs.
Proof.
  intros <-. unfold mbind, M_bind.
  destruct (m w) as [[[resp [e|]]|msg] w1]; simpl; try done.
  destruct resp as [r|]; simpl; [|done].
  by destruct (decode (APIResponse_Data r)).
Qed.

(** On a client with its HTTP handle, a request whose body encodes and that
    can be built is issued, and it is the only one. *)
Lemma executor_issued
    (ctx : Context) (c : donatelyClient) (method endpoint : string)
    (body : option any') (contentType : string) (w : World)
    (hc : http_Client) (reqBody : option string) (requestURI : string) :
  client c = Some hc ->
  encodeBody lib body contentType = inr reqBody ->
  http_NewRequestWithContext lib method (baseURL (opts c) +:+ endpoint)
    = inr requestURI ->
  issued w (makeRequestWithContentType lib ctx c method endpoint body contentType w).2
  = [newRequest c method endpoint reqBody contentType].
Proof.
  intros Hc Henc Hnew.
  destruct (makeRequestWithContentType_completed ctx c method endpoint body
              contentType w hc reqBody requestURI _ Hc Henc Hnew eq_refl)
    as (w1 & Hrun & Hsent & _).
  rewrite Hrun. by apply issued_app.
Qed.

Lemma makeRequest_issued
    (ctx : Context) (c : donatelyClient) (method endpoint : string) (w : World)
    (hc : http_Client) (requestURI : string) :
  client c = Some hc ->
  http_NewRequestWithContext lib method (baseURL (opts c) +:+ endpoint)
    = inr requestURI ->
  issued w (makeRequest lib ctx c method endpoint None w).2
  = [newRequest c method endpoint None "application/json"].
Proof. intros Hc Hnew. by eapply executor_issued. Qed.

Lemma encodeBody_json (b : any') (jsonBody : string) :
  json_Marshal lib b = inr jsonBody ->
  encodeBody lib (Some b) "application/json" = inr (Some jsonBody).
Proof. intros Hm. unfold encodeBody. simpl. by rewrite Hm. Qed.

(** A first request that was issued stays first, whatever follows. *)
Lemma bind_first_request {A B} (P : Request -> Prop) (m : M A) (k : A -> M B)
    (w w1 : World) (a : A) (req : Request) :
  m w = (Returns a, w1) ->
  sent w1 = sent w ++ [req] ->
  (∀ a, sends_only P (k a)) ->
  ∃ rest, issued w ((m ≫= k) w).2 = req :: rest.
Proof.
  intros Hrun Hsent Hk. unfold mbind, M_bind. rewrite Hrun.
  destruct (Hk a w1) as (reqs & Hsent' & _).
  exists reqs. apply issued_app. by rewrite Hsent', Hsent, <- app_assoc.
Qed.

(** C8. A save operation that passes local validation, whose body encodes
    and whose request can be built issues its request whenever the client
    has its HTTP handle: a POST, for a record with an empty ID to the
    collection path (/people, /donations, /subscriptions, /campaigns), for
    a record with an ID to the collection path followed by the path-escaped
    ID. For a person, a subscription and a campaign it is the only request;
    for a donation it is the first, and it carries the donation's
    parameters, the account among them, in the query string after the
    path. Whether or not these conditions hold, a save operation never
    issues a request of another kind. *)
Theorem save_operations_route (ctx : Context) (c : donatelyClient) (w : World) :
  (∀ person : Person,
     Forall (request_to c "POST" (save_path "/people" (Person_ID person)))
       (issued w (SavePerson lib ctx c person w).2)
     ∧ (∀ (hc : http_Client) (requestURI : string),
          client c = Some hc ->
          ¬ first_account_missing person ->
          http_NewRequestWithContext lib "POST"
            (baseURL (opts c) +:+ save_path "/people" (Person_ID person))
            = inr requestURI ->
          ∃ formData : Values,
            issued w (SavePerson lib ctx c person w).2
            = [newRequest c "POST" (save_path "/people" (Person_ID person))
                 (Some (Values_Encode formData))
                 "application/x-www-form-urlencoded"]))
  ∧ (∀ donation : Donation',
       Forall (request_to c "POST"
                 (save_path "/donations" (Donation_ID donation) +:+ "?"
                    +:+ Values_Encode (SaveDonation_params donation)))
         (issued w (SaveDonation lib ctx c donation w).2)
       ∧ SaveDonation_params donation !! "account_id"
         = Some [Account_ID (Donation_Account donation)]
       ∧ (∀ (hc : http_Client) (requestURI : string),
            client c = Some hc ->
            Account_ID (Donation_Account donation) ≠ "" ->
            http_NewRequestWithContext lib "POST"
              (baseURL (opts c)
                 +:+ save_path "/donations" (Donation_ID donation) +:+ "?"
                 +:+ Values_Encode (SaveDonation_params donation))
              = inr requestURI ->
            ∃ rest,
              issued w (SaveDonation lib ctx c donation w).2
              = newRequest c "POST"
                  (save_path "/donations" (Donation_ID donation) +:+ "?"
                     +:+ Values_Encode (SaveDonation_params donation))
                  None "application/json" :: rest))
  ∧ (∀ subscription : Subscription,
       Forall (request_to c "POST"
                 (save_path "/subscriptions" (Subscription_ID subscription)))
         (issued w (SaveSubscription lib ctx c subscription w).2)
       ∧ (∀ (hc : http_Client) (requestURI jsonBody : string),
            client c = Some hc ->
            json_Marshal lib (any_Subscription subscription) = inr jsonBody ->
            http_NewRequestWithContext lib "POST"
              (baseURL (opts c)
                 +:+ save_path "/subscriptions" (Subscription_ID subscription))
              = inr requestURI ->
            issued w (SaveSubscription lib ctx c subscription w).2
            = [newRequest c "POST"
                 (save_path "/subscriptions" (Subscription_ID subscription))
                 (Some jsonBody) "application/json"]))
  ∧ (∀ campaign : Campaign',
       Forall (request_to c "POST"
                 (save_path "/campaigns" (Campaign_ID campaign)))
         (issued w (SaveCampaign lib ctx c campaign w).2)
       ∧ (∀ (hc : http_Client) (requestURI jsonBody : string),
            client c = Some hc ->
            json_Marshal lib (any_Campaign campaign) = inr jsonBody ->
            http_NewRequestWithContext lib "POST"
              (baseURL (opts c) +:+ save_path "/campaigns" (Campaign_ID campaign))
              = inr requestURI ->
            issued w (SaveCampaign lib ctx c campaign w).2
            = [newRequest c "POST" (save_path "/campaigns" (Campaign_ID campaign))
                 (Some jsonBody) "application/json"])).
Proof.
  split; [|split; [|split]]; intros x.
  - split; [apply sends_only_issued, SavePerson_sends_only|].
    intros hc requestURI Hc Hvalid Huri.
    unfold first_account_missing in Hvalid. unfold SavePerson.
    destruct (Person_Accounts x) as [|first rest]; [tauto|].
    rewrite (eqb_empty_false _ Hvalid). cbv zeta.
    eexists. apply decode_issued.
    eapply executor_issued; [exact Hc|reflexivity|exact Huri].
  - split; [apply sends_only_issued, SaveDonation_sends_only|].
    split; [apply SaveDonation_params_account|].
    intros hc requestURI Hc Hacct Huri. unfold SaveDonation.
    rewrite (eqb_empty_false _ Hacct). cbv zeta.
    rewrite SaveDonation_endpoint_query.
    set (endpoint := save_path "/donations" (Donation_ID x) +:+ "?"
                       +:+ Values_Encode (SaveDonation_params x)) in *.
    destruct (makeRequestWithContentType_completed ctx c "POST" endpoint None
                "application/json" w hc None requestURI _ Hc eq_refl Huri eq_refl)
      as (w1 & Hrun & Hsent & _).
    eapply (bind_first_request (request_to c "POST" endpoint));
      [exact Hrun|exact Hsent|].
    intros [resp err]. apply SaveDonation_rest_sends_only.
  - split; [apply sends_only_issued, SaveSubscription_sends_only|].
    intros hc requestURI jsonBody Hc Hjson Huri.
    unfold SaveSubscription. cbv zeta. apply decode_issued.
    eapply executor_issued; [exact Hc|by apply encodeBody_json|exact Huri].
  - split; [apply sends_only_issued, SaveCampaign_sends_only|].
    intros hc requestURI jsonBody Hc Hjson Huri.
    unfold SaveCampaign. cbv zeta. apply decode_issued.
    eapply executor_issued; [exact Hc|by apply encodeBody_json|exact Huri].
Qed.

Lemma bind_after_request {A B} (P : Request -> Prop) (m : M A) (k : A -> M B)
    (w w1 : World) (a : A) (req : Request) :
  m w = (Returns a, w1) ->
  sent w1 = sent w ++ [req] ->
  (∀ a, sends_only P (k a)) ->
  issued w ((m ≫= k) w).2 ≠ [].
Proof.
  intros Hrun Hsent Hk. unfold mbind, M_bind. rewrite Hrun.
  destruct (Hk a w1) as (reqs & Hsent' & _).
  rewrite (issued_app w _ (req :: reqs)); [done|].
  by rewrite Hsent', Hsent, <- app_assoc.
Qed.

(** The routes above are not vacuous: a save operation that passes local
    validation, whose body encodes and whose request can be built does issue
    a request, whenever the client has its HTTP handle. *)
Lemma save_operations_issue (ctx : Context) (c : donatelyClient) (w : World)
    (hc : http_Client) (requestURI : string) :
  client c = Some hc ->
  (∀ person : Person, ¬ first_account_missing person ->
     http_NewRequestWithContext lib "POST"
       (baseURL (opts c) +:+ save_path "/people" (Person_ID person))
       = inr requestURI ->
     issued w (SavePerson lib ctx c person w).2 ≠ [])
  ∧ (∀ donation : Donation', Account_ID (Donation_Account donation) ≠ "" ->
       http_NewRequestWithContext lib "POST"
         (baseURL (opts c) +:+ SaveDonation_endpoint donation) = inr requestURI ->
       issued w (SaveDonation lib ctx c donation w).2 ≠ [])
  ∧ (∀ (subscription : Subscription) (jsonBody : string),
       json_Marshal lib (any_Subscription subscription) = inr jsonBody ->
       http_NewRequestWithContext lib "POST"
         (baseURL (opts c)
            +:+ save_path "/subscriptions" (Subscription_ID subscription))
         = inr requestURI ->
       issued w (SaveSubscription lib ctx c subscription w).2 ≠ [])
  ∧ (∀ (campaign : Campaign') (jsonBody : string),
       json_Marshal lib (any_Campaign campaign) = inr jsonBody ->
       http_NewRequestWithContext lib "POST"
         (baseURL (opts c) +:+ save_path "/campaigns" (Campaign_ID campaign))
         = inr requestURI ->
       issued w (SaveCampaign lib ctx c campaign w).2 ≠ []).
Proof.
  intros Hc. repeat split.
  - intros person Hvalid Huri. unfold first_account_missing in Hvalid.
    unfold SavePerson.
    destruct (Person_Accounts person) as [|first rest]; [tauto|].
    rewrite (eqb_empty_false _ Hvalid). cbv zeta.
    match goal with
    | |- context [makeRequestWithContentType lib ctx c "POST" ?e
                    (Some (any_Values ?f)) ?t] =>
        set (formData := f);
        destruct (makeRequestWithContentType_completed ctx c "POST" e
                    (Some (any_Values formData)) t w hc
                    (Some (Values_Encode formData)) requestURI _ Hc eq_refl
                    Huri eq_refl)
          as (w1 & Hrun & Hsent & _)
    end.
    eapply (bind_after_request (fun _ => True)); [exact Hrun|exact Hsent|].
    intros [resp [e|]]; repeat sends_only_step.
  - intros donation Hacct Huri. unfold SaveDonation.
    rewrite (eqb_empty_false _ Hacct). cbv zeta.
    set (endpoint := SaveDonation_endpoint donation) in *.
    destruct (makeRequestWithContentType_completed ctx c "POST" endpoint None
                "application/json" w hc None requestURI _ Hc eq_refl Huri eq_refl)
      as (w1 & Hrun & Hsent & _).
    eapply (bind_after_request (request_to c "POST" endpoint));
      [exact Hrun|exact Hsent|].
    intros [resp err]. apply SaveDonation_rest_sends_only.
  - intros subscription jsonBody Hjson Huri. unfold SaveSubscription. cbv zeta.
    fold (save_path "/subscriptions" (Subscription_ID subscription)).
    set (endpoint := save_path "/subscriptions" (Subscription_ID subscription))
      in *.
    assert (Henc : encodeBody lib (Some (any_Subscription subscription))
                     "application/json" = inr (Some jsonBody))
      by (unfold encodeBody; simpl; by rewrite Hjson).
    destruct (makeRequestWithContentType_completed ctx c "POST" endpoint
                (Some (any_Subscription subscription)) "application/json" w hc
                (Some jsonBody) requestURI _ Hc Henc Huri eq_refl)
      as (w1 & Hrun & Hsent & _).
    eapply (bind_after_request (fun _ => True)); [exact Hrun|exact Hsent|].
    intros [resp [e|]]; repeat sends_only_step.
  - intros campaign jsonBody Hjson Huri. unfold SaveCampaign. cbv zeta.
    fold (save_path "/campaigns" (Campaign_ID campaign)).
    set (endpoint := save_path "/campaigns" (Campaign_ID campaign)) in *.
    assert (Henc : encodeBody lib (Some (any_Campaign campaign))
                     "application/json" = inr (Some jsonBody))
      by (unfold encodeBody; simpl; by rewrite Hjson).
    destruct (makeRequestWithContentType_completed ctx c "POST" endpoint
                (Some (any_Campaign campaign)) "application/json" w hc
                (Some jsonBody) requestURI _ Hc Henc Huri eq_refl)
      as (w1 & Hrun & Hsent & _).
    eapply (bind_after_request (fun _ => True)); [exact Hrun|exact Hsent|].
    intros [resp [e|]]; repeat sends_only_step.
Qed.

(** ** Pagination *)

Lemma escape_digits (s : string) (mode : encoding) :
  all_digits s = true -> escape s mode = s.
Proof.
  unfold all_digits. induction s as [|ch s IH]; simpl; [done|].
  intros [Hch Hs]%andb_true_iff.
  unfold shouldEscape. rewrite Hch, !orb_true_r. by rewrite IH.
Qed.

Lemma pretty_N_char_digit (x : N) :
  byte_between "0"%char (pretty_N_char x) "9"%char = true.
Proof. unfold pretty_N_char. by repeat case_match. Qed.

Lemma pretty_N_go_digits (x : N) (s : string) :
  all_digits s = true -> all_digits (pretty_N_go x s) = true.
Proof.
  revert s. induction (N.lt_wf_0 x) as [x _ IH]. intros s Hs.
  destruct (decide (x = 0)%N) as [->|Hx]; [by rewrite pretty_N_go_0|].
  rewrite pretty_N_go_step by lia. apply IH.
  - apply N.div_lt; lia.
  - unfold all_digits in *. simpl. by rewrite pretty_N_char_digit, Hs.
Qed.

Lemma Itoa_digits (i : Z) : (0 < i)%Z -> all_digits (strconv_Itoa i) = true.
Proof.
  intros Hi. destruct i as [|p|p]; [lia| |lia].
  unfold strconv_Itoa, pretty, pretty_Z, pretty, pretty_positive, pretty, pretty_N.
  destruct (decide (N.pos p = 0)%N); [done|]. by apply pretty_N_go_digits.
Qed.

Lemma QueryEscape_Itoa (i : Z) :
  (0 < i)%Z -> url_QueryEscape (strconv_Itoa i) = strconv_Itoa i.
Proof. intros Hi. by apply escape_digits, Itoa_digits. Qed.

Lemma append_empty_r (s : string) : s +:+ "" = s.
Proof.
  induction s as [|ch s IH]; [done|].
  change (String ch (s +:+ "") = String ch s). by rewrite IH.
Qed.

Lemma Encode_account (a : string) :
  Values_Encode (Values_Set "account_id" a ∅) = "account_id=" +:+ url_QueryEscape a.
Proof. vm_compute. reflexivity. Qed.

Lemma Encode_account_offset (a o : string) :
  Values_Encode (Values_Set "offset" o (Values_Set "account_id" a ∅))
  = "account_id=" +:+ url_QueryEscape a +:+ "&offset=" +:+ url_QueryEscape o.
Proof. vm_compute. reflexivity. Qed.

Lemma Encode_account_limit (a l : string) :
  Values_Encode (Values_Set "limit" l (Values_Set "account_id" a ∅))
  = "account_id=" +:+ url_QueryEscape a +:+ "&limit=" +:+ url_QueryEscape l.
Proof. vm_compute. reflexivity. Qed.

Lemma Encode_account_limit_offset (a l o : string) :
  Values_Encode
    (Values_Set "limit" l (Values_Set "offset" o (Values_Set "account_id" a ∅)))
  = "account_id=" +:+ url_QueryEscape a +:+ "&limit=" +:+ url_QueryEscape l
      +:+ "&offset=" +:+ url_QueryEscape o.
Proof. vm_compute. reflexivity. Qed.

(** The parameters that the list calls assemble encode to the pagination
    query. *)
Lemma list_params_encode (a : string) (offset limit : Z) :
  Values_Encode
    (Values_Set_if (limit >? 0)%Z "limit" (strconv_Itoa limit)
       (Values_Set_if (offset >? 0)%Z "offset" (strconv_Itoa offset)
          (Values_Set "account_id" a ∅)))
  = pagination_query a offset limit.
Proof.
  unfold pagination_query, Values_Set_if.
  destruct (Z.gtb_spec offset 0), (Z.gtb_spec limit 0),
    (Z.ltb_spec 0 limit), (Z.ltb_spec 0 offset); try lia.
  - rewrite Encode_account_limit_offset, !QueryEscape_Itoa by done.
    generalize (url_QueryEscape a), (strconv_Itoa limit), (strconv_Itoa offset).
    intros. vm_compute. reflexivity.
  - rewrite Encode_account_offset, !QueryEscape_Itoa by done. reflexivity.
  - rewrite Encode_account_limit, !QueryEscape_Itoa, !append_empty_r by done.
    reflexivity.
  - rewrite Encode_account, !append_empty_r. reflexivity.
Qed.

Lemma ListPeople_sends_only
    (ctx : Context) (c : donatelyClient) (account : Account) (offset limit : Z) :
  sends_only
    (request_to c "GET"
       ("/people?" +:+ pagination_query (Account_ID account) offset limit))
    (ListPeople lib ctx c account offset limit).
Proof.
  unfold ListPeople. cbv zeta. rewrite list_params_encode.
  apply sends_only_bind; [by apply sends_only_makeRequest|].
  intros [resp [e|]]; repeat sends_only_step.
Qed.

Lemma ListDonations_sends_only
    (ctx : Context) (c : donatelyClient) (account : Account) (offset limit : Z) :
  sends_only
    (request_to c "GET"
       ("/donations?" +:+ pagination_query (Account_ID account) offset limit))
    (ListDonations lib ctx c account offset limit).
Proof.
  unfold ListDonations. cbv zeta. rewrite list_params_encode.
  apply sends_only_bind; [by apply sends_only_makeRequest|].
  intros [resp [e|]]; repeat sends_only_step.
Qed.

(** C9. [ListPeople] and [ListDonations] issue, whenever the client has
    its HTTP handle and the request can be built, exactly one request: a GET
    whose query string is [account_id], then [limit] and [offset]; an offset
    or limit that is zero or negative is left out of the query string, a
    positive one is there as its decimal digits. Whether or not the
    conditions hold, they never issue a request of another kind. *)
Theorem list_operations_pagination
    (ctx : Context) (c : donatelyClient) (account : Account) (offset limit : Z)
    (w : World) :
  Forall (request_to c "GET"
            ("/people?" +:+ pagination_query (Account_ID account) offset limit))
    (issued w (ListPeople lib ctx c account offset limit w).2)
  ∧ Forall (request_to c "GET"
              ("/donations?" +:+ pagination_query (Account_ID account) offset limit))
      (issued w (ListDonations lib ctx c account offset limit w).2)
  ∧ pagination_query (Account_ID account) offset limit
    = "account_id=" +:+ url_QueryEscape (Account_ID account)
      +:+ (if (0 <? limit)%Z then "&limit=" +:+ strconv_Itoa limit else "")
      +:+ (if (0 <? offset)%Z then "&offset=" +:+ strconv_Itoa offset else "")
  ∧ (∀ (hc : http_Client) (requestURI : string),
       client c = Some hc ->
       http_NewRequestWithContext lib "GET"
         (baseURL (opts c) +:+ "/people?"
            +:+ pagination_query (Account_ID account) offset limit)
         = inr requestURI ->
       issued w (ListPeople lib ctx c account offset limit w).2
       = [newRequest c "GET"
            ("/people?" +:+ pagination_query (Account_ID account) offset limit)
            None "application/json"])
  ∧ (∀ (hc : http_Client) (requestURI : string),
       client c = Some hc ->
       http_NewRequestWithContext lib "GET"
         (baseURL (opts c) +:+ "/donations?"
            +:+ pagination_query (Account_ID account) offset limit)
         = inr requestURI ->
       issued w (ListDonations lib ctx c account offset limit w).2
       = [newRequest c "GET"
            ("/donations?" +:+ pagination_query (Account_ID account) offset limit)
            None "application/json"]).
Proof.
  split; [apply sends_only_issued, ListPeople_sends_only|].
  split; [apply sends_only_issued, ListDonations_sends_only|].
  split; [done|]. split; intros hc requestURI Hc Huri.
  - unfold ListPeople. cbv zeta. rewrite list_params_encode.
    apply decode_issued. by eapply makeRequest_issued.
  - unfold ListDonations. cbv zeta. rewrite list_params_encode.
    apply decode_issued. by eapply makeRequest_issued.
Qed.

(** The list calls do issue their request whenever the client has its HTTP
    handle and the request can be built. *)
Lemma list_operations_issue
    (ctx : Context) (c : donatelyClient) (account : Account) (offset limit : Z)
    (w : World) (hc : http_Client) (requestURI : string) :
  client c = Some hc ->
  (http_NewRequestWithContext lib "GET"
     (baseURL (opts c) +:+ "/people?"
        +:+ pagination_query (Account_ID account) offset limit) = inr requestURI ->
   issued w (ListPeople lib ctx c account offset limit w).2 ≠ [])
  ∧ (http_NewRequestWithContext lib "GET"
       (baseURL (opts c) +:+ "/donations?"
          +:+ pagination_query (Account_ID account) offset limit) = inr requestURI ->
     issued w (ListDonations lib ctx c account offset limit w).2 ≠ []).
Proof.
  intros Hc. split; intros Huri.
  - unfold ListPeople. cbv zeta. rewrite list_params_encode.
    destruct (makeRequestWithContentType_completed ctx c "GET" _ None
                "application/json" w hc None requestURI _ Hc eq_refl Huri eq_refl)
      as (w1 & Hrun & Hsent & _).
    eapply (bind_after_request (fun _ => True)); [exact Hrun|exact Hsent|].
    intros [resp [e|]]; repeat sends_only_step.
  - unfold ListDonations. cbv zeta. rewrite list_params_encode.
    destruct (makeRequestWithContentType_completed ctx c "GET" _ None
                "application/json" w hc None requestURI _ Hc eq_refl Huri eq_refl)
      as (w1 & Hrun & Hsent & _).
    eapply (bind_after_request (fun _ => True)); [exact Hrun|exact Hsent|].
    intros [resp [e|]]; repeat sends_only_step.
Qed.

(** ** RefundDonation *)

(** C3 (as the code behaves). For a donation with an account ID,
    [RefundDonation] issues one POST to /donations/{escaped id}/refund. Its
    parameters are exactly [account_id] and [refund_reason], but they go
    through [makeRequest]: the request is declared [application/json] and its
    body is the JSON encoding of the parameter map, not a form-urlencoded
    body. *)
Theorem RefundDonation_sends_json
    (ctx : Context) (c : donatelyClient) (donation : Donation') (reason : string)
    (w : World) (hc : http_Client) (requestURI jsonBody : string) :
  let formData : Values :=
    Values_Set "refund_reason" reason
      (Values_Set "account_id" (Account_ID (Donation_Account donation)) ∅) in
  client c = Some hc ->
  Account_ID (Donation_Account donation) ≠ "" ->
  http_NewRequestWithContext lib "POST"
    (baseURL (opts c) +:+ "/donations/"
       +:+ url_PathEscape (Donation_ID donation) +:+ "/refund") = inr requestURI ->
  json_Marshal lib (any_Values formData) = inr jsonBody ->
  ∃ req,
    issued w (RefundDonation lib ctx c donation reason w).2 = [req]
    ∧ request_to c "POST"
        ("/donations/" +:+ url_PathEscape (Donation_ID donation) +:+ "/refund") req
    ∧ Header req !! "Content-Type" = Some ["application/json"]
    ∧ Body req = Some jsonBody
    ∧ dom formData = {["account_id"; "refund_reason"]}.
Proof.
  intros formData Hc Hacct Huri Hjson.
  unfold RefundDonation. rewrite (eqb_empty_false _ Hacct). cbv zeta.
  fold formData.
  set (endpoint := "/donations/" +:+ url_PathEscape (Donation_ID donation)
                     +:+ "/refund") in *.
  assert (Henc : encodeBody lib (Some (any_Values formData)) "application/json"
                 = inr (Some jsonBody))
    by (unfold encodeBody; simpl; by rewrite Hjson).
  destruct (makeRequestWithContentType_completed ctx c "POST" endpoint
              (Some (any_Values formData)) "application/json" w hc
              (Some jsonBody) requestURI _ Hc Henc Huri eq_refl)
    as (w1 & Hrun & Hsent & _).
  exists (newRequest c "POST" endpoint (Some jsonBody) "application/json").
  split; [|split; [done|split; [done|split; [done|]]]].
  - unfold mbind, M_bind, makeRequest. rewrite Hrun.
    apply issued_app.
    by destruct (handler w _) as [?|?|st respBody];
      [..|destruct (classifyResponse lib st respBody)].
  - subst formData. unfold Values_Set.
    rewrite !dom_insert_L, dom_empty_L. set_solver.
Qed.

End Properties.

(** * Further properties

    What the nineteen methods of the [Client] interface have in common,
    and what the executor, the retry loop and the escaping guarantee. *)


Section Coverage.
Context {float64 time_Time any_value : Type}.
Context (lib : Library float64 time_Time any_value).
Context (dec : Decoders float64 time_Time any_value).

Local Abbreviation Donation' := (Donation float64 time_Time any_value).
Local Abbreviation Campaign' := (Campaign float64 time_Time any_value).
Local Abbreviation any' := (any float64 time_Time any_value).
Local Abbreviation call' := (@call float64 time_Time any_value).

(** ** How programs move the world *)

Lemma follows_refl (c : donatelyClient) (P : Request -> Prop) (w : World) :
  follows c 0 P w w.
Proof. exists []. by rewrite app_nil_r. Qed.

Lemma follows_nothing (c : donatelyClient) (n : nat) (P : Request -> Prop)
    (w : World) :
  follows c n P w w.
Proof.
  exists []. rewrite app_nil_r. repeat split; [simpl; lia|constructor].
Qed.

Lemma follows_trans (c : donatelyClient) (n1 n2 : nat) (P : Request -> Prop)
    (w w1 w2 : World) :
  follows c n1 P w w1 -> follows c n2 P w1 w2 -> follows c (n1 + n2) P w w2.
Proof.
  intros (reqs1 & Hs1 & Hn1 & HP1 & Hh1 & Ho1) (reqs2 & Hs2 & Hn2 & HP2 & Hh2 & Ho2).
  exists (reqs1 ++ reqs2). rewrite Hs2, Hs1, <- app_assoc, length_app.
  repeat split; [lia|by apply Forall_app|congruence|].
  intros Hd. by rewrite (Ho2 Hd), (Ho1 Hd).
Qed.

Lemma follows_weaken (c : donatelyClient) (n n' : nat) (P P' : Request -> Prop)
    (w w' : World) :
  (n ≤ n')%nat -> (∀ r, P r -> P' r) -> follows c n P w w' -> follows c n' P' w w'.
Proof.
  intros Hn HP (reqs & Hs & Hl & HF & Hh & Ho).
  exists reqs. repeat split; [done|lia|by eapply Forall_impl|done|done].
Qed.

Lemma conducts_ret {A} (t : bool) (c : donatelyClient) (P : Request -> Prop)
    (Q : A -> Prop) (a : A) :
  Q a -> conducts t c 0 P Q (mret a).
Proof. intros HQ w. split; [apply follows_refl|done]. Qed.

Lemma conducts_ret_early {A} (t : bool) (c : donatelyClient) (n : nat)
    (P : Request -> Prop) (Q : A -> Prop) (a : A) :
  Q a -> conducts t c n P Q (mret a).
Proof. intros HQ w. split; [apply follows_nothing|done]. Qed.

Lemma conducts_panic {A} (c : donatelyClient) (P : Request -> Prop)
    (Q : A -> Prop) (msg : string) :
  conducts false c 0 P Q (panic msg).
Proof. intros w. split; [apply follows_refl|done]. Qed.

Lemma conducts_bind {A B} (t : bool) (c : donatelyClient) (n1 n2 : nat)
    (P : Request -> Prop) (Q : A -> Prop) (R : B -> Prop)
    (m : M A) (k : A -> M B) :
  conducts t c n1 P Q m ->
  (∀ a, Q a -> conducts t c n2 P R (k a)) ->
  conducts t c (n1 + n2) P R (m ≫= k).
Proof.
  intros Hm Hk w. unfold mbind, M_bind.
  destruct (Hm w) as [Hf1 HQ].
  destruct (m w) as [[a|msg] w1]; simpl in *.
  - destruct (Hk a HQ w1) as [Hf2 HR]. split; [|done].
    by eapply follows_trans.
  - split; [|done]. eapply follows_weaken; [| |exact Hf1]; [lia|done].
Qed.

Lemma conducts_weaken {A} (t t' : bool) (c : donatelyClient) (n n' : nat)
    (P P' : Request -> Prop) (Q Q' : A -> Prop) (m : M A) :
  (t' = true -> t = true) -> (n ≤ n')%nat ->
  (∀ r, P r -> P' r) -> (∀ a, Q a -> Q' a) ->
  conducts t c n P Q m -> conducts t' c n' P' Q' m.
Proof.
  intros Ht Hn HP HQ Hm w. destruct (Hm w) as [Hf Hres].
  split; [by eapply follows_weaken|].
  destruct ((m w).1); [by apply HQ|].
  destruct t'; [|done]. by rewrite Ht in Hres.
Qed.

Lemma conducts_deref (t : bool) (c : donatelyClient) (P : Request -> Prop)
    (r : APIResponse) :
  conducts t c 0 P (fun _ => True) (deref (Some r)).
Proof. by apply conducts_ret. Qed.

(** ** The executor *)

Lemma classifyResponse_exactly_one_nil (StatusCode : Z) (respBody : string) :
  exactly_one_nil (classifyResponse lib StatusCode respBody).
Proof.
  unfold classifyResponse.
  destruct (json_Unmarshal_APIResponse lib respBody) as [err|apiResp].
  - by destruct (String.eqb _ _).
  - destruct (_ && _); [done|]. by destruct (_ >=? _)%Z.
Qed.

Lemma newRequest_credentials (c : donatelyClient) (method endpoint : string)
    (reqBody : option string) (contentType : string) :
  carries_credentials c (newRequest c method endpoint reqBody contentType)
  ∧ Header (newRequest c method endpoint reqBody contentType) !! "Content-Type"
    = Some [contentType].
Proof.
  unfold carries_credentials, newRequest, Values_Set. simpl.
  repeat split;
    first [done | rewrite !dom_insert_L, dom_empty_L; set_solver].
Qed.

Lemma makeRequestWithContentType_conducts
    (ctx : Context) (c : donatelyClient) (method endpoint : string)
    (body : option any') (contentType : string) :
  conducts (has_handle c) c (budget c)
    (fun r => ∃ reqBody, encodeBody lib body contentType = inr reqBody
                         ∧ r = newRequest c method endpoint reqBody contentType)
    exactly_one_nil
    (makeRequestWithContentType lib ctx c method endpoint body contentType).
Proof.
  intros w. unfold makeRequestWithContentType, has_handle, budget, has_handle.
  destruct (encodeBody lib body contentType) as [err|reqBody] eqn:Henc;
    [split; [apply follows_nothing|done]|].
  destruct (http_NewRequestWithContext lib method (baseURL (opts c) +:+ endpoint))
    as [err|uri];
    [split; [apply follows_nothing|done]|].
  unfold mbind, M_bind, http_Client_Do, fmt_Println2.
  destruct (client c) as [hc|]; destruct (debug (opts c)) eqn:Hdebug; simpl.
  - split.
    + exists [newRequest c method endpoint reqBody contentType].
      destruct (handler w _); simpl;
        (split; [done|split; [simpl; lia|split; [|split; [done|congruence]]]];
         repeat constructor; by exists reqBody).
    + destruct (handler w _); simpl; [done..|].
      apply classifyResponse_exactly_one_nil.
  - split.
    + exists [newRequest c method endpoint reqBody contentType].
      destruct (handler w _); simpl;
        (split; [done|split; [simpl; lia|split; [|split; [done|congruence]]]];
         repeat constructor; by exists reqBody).
    + destruct (handler w _); simpl; [done..|].
      apply classifyResponse_exactly_one_nil.
  - split; [|done]. exists []. simpl. rewrite app_nil_r.
    split; [done|split; [lia|split; [constructor|split; [done|congruence]]]].
  - split; [apply follows_nothing|done].
Qed.

(** A bodiless request through [makeRequest]. *)
Lemma makeRequest_conducts
    (ctx : Context) (c : donatelyClient) (method endpoint : string) :
  conducts (has_handle c) c (budget c)
    (eq (newRequest c method endpoint None "application/json"))
    exactly_one_nil
    (makeRequest lib ctx c method endpoint None).
Proof.
  intros w.
  destruct (makeRequestWithContentType_conducts ctx c method endpoint None
              "application/json" w) as [Hf Hres].
  split; [|exact Hres].
  eapply follows_weaken; [apply le_n| |exact Hf].
  intros r (reqBody & Henc & ->). by injection Henc as <-.
Qed.

Lemma conducts_bind0 {A B} (t : bool) (c : donatelyClient) (n : nat)
    (P : Request -> Prop) (Q : A -> Prop) (R : B -> Prop)
    (m : M A) (k : A -> M B) :
  conducts t c n P Q m ->
  (∀ a, Q a -> conducts t c 0 P R (k a)) ->
  conducts t c n P R (m ≫= k).
Proof.
  intros Hm Hk. rewrite <- (Nat.add_0_r n). by eapply conducts_bind.
Qed.

Lemma conducts_makeRequest (P : Request -> Prop)
    (ctx : Context) (c : donatelyClient) (method endpoint : string) :
  P (newRequest c method endpoint None "application/json") ->
  conducts (has_handle c) c (budget c) P exactly_one_nil
    (makeRequest lib ctx c method endpoint None).
Proof.
  intros HP w. destruct (makeRequest_conducts ctx c method endpoint w) as [Hf Hres].
  split; [|exact Hres].
  eapply follows_weaken; [apply le_n| |exact Hf]. by intros r <-.
Qed.

Lemma conducts_executor (P : Request -> Prop)
    (ctx : Context) (c : donatelyClient) (method endpoint : string)
    (body : option any') (contentType : string) :
  (∀ reqBody, P (newRequest c method endpoint reqBody contentType)) ->
  conducts (has_handle c) c (budget c) P exactly_one_nil
    (makeRequestWithContentType lib ctx c method endpoint body contentType).
Proof.
  intros HP w.
  destruct (makeRequestWithContentType_conducts ctx c method endpoint body
              contentType w) as [Hf Hres].
  split; [|exact Hres].
  eapply follows_weaken; [apply le_n| |exact Hf].
  intros r (reqBody & _ & ->). apply HP.
Qed.

(** The shape shared by the operations that decode what the executor
    returns. *)
Lemma decode_conducts {A} (t : bool) (c : donatelyClient) (n : nat)
    (P : Request -> Prop) (m : M (option APIResponse * option error))
    (zero : A) (decode : string -> error + A) (prefix : string) :
  conducts t c n P exactly_one_nil m ->
  conducts t c n P (zero_on_error zero)
    ('(resp, err) ← m;
     match err with
     | Some e => mret (zero, Some e)
     | None =>
         r ← deref resp;
         match decode (APIResponse_Data r) with
         | inl e => mret (zero, Some (fmt_Errorf_w prefix e))
         | inr v => mret (v, None)
         end
     end).
Proof.
  intros Hm. eapply conducts_bind0; [exact Hm|].
  intros [resp [e|]] Hshape; [apply conducts_ret; by intros ?|].
  destruct resp as [r|]; [|done].
  eapply conducts_bind0; [apply (conducts_deref _ _ _ r)|]. intros r' _.
  destruct (decode (APIResponse_Data r')); apply conducts_ret; by intros ?.
Qed.

(** The shape of the operations that return only the error. *)
Lemma act_conducts (t : bool) (c : donatelyClient) (n : nat)
    (P : Request -> Prop) (m : M (option APIResponse * option error)) :
  conducts t c n P exactly_one_nil m ->
  conducts t c n P (fun _ : option error => True) ('(_, err) ← m; mret err).
Proof.
  intros Hm. eapply conducts_bind0; [exact Hm|].
  intros [resp err] _. by apply conducts_ret.
Qed.

Lemma request_of_call_intro (c : donatelyClient) (k : call')
    (method endpoint : string) (reqBody : option string) (contentType : string) :
  method ≠ "" ->
  route k = (method, endpoint) ->
  content_type k = contentType ->
  (has_body k = false -> reqBody = None) ->
  request_of_call c k (newRequest c method endpoint reqBody contentType).
Proof.
  intros Hm Hroute Hct Hbody.
  destruct (newRequest_credentials c method endpoint reqBody contentType)
    as [Hcred Hheader].
  unfold request_of_call, request_to. rewrite Hroute, Hct. simpl.
  rewrite (proj2 (String.eqb_neq _ _) Hm). done.
Qed.

Lemma Encode_account_added (a : string) :
  Values_Encode (Values_Add "account_id" a ∅) = "account_id=" +:+ url_QueryEscape a.
Proof. vm_compute. reflexivity. Qed.

Ltac route_request :=
  apply request_of_call_intro;
  first [ done
        | simpl; by rewrite ?Encode_account, ?Encode_account_added,
                           ?list_params_encode ].

(** ** Every operation *)

Lemma FindAccount_conducts (ctx : Context) (c : donatelyClient) (id : string) :
  conducts (has_handle c) c (budget c)
    (request_of_call c (call_FindAccount id : call'))
    (zero_on_error Account_zero) (FindAccount lib dec ctx c id).
Proof.
  unfold FindAccount. cbv zeta.
  apply decode_conducts, conducts_makeRequest. route_request.
Qed.

Lemma ListPeople_conducts (ctx : Context) (c : donatelyClient)
    (account : Account) (offset limit : Z) :
  conducts (has_handle c) c (budget c)
    (request_of_call c (call_ListPeople account offset limit : call'))
    (zero_on_error []) (ListPeople lib ctx c account offset limit).
Proof.
  unfold ListPeople. cbv zeta.
  apply decode_conducts, conducts_makeRequest. route_request.
Qed.

Lemma FindPerson_conducts (ctx : Context) (c : donatelyClient) (id : string)
    (account : Account) :
  conducts (has_handle c) c (budget c)
    (request_of_call c (call_FindPerson id account : call'))
    (zero_on_error Person_zero) (FindPerson lib ctx c id account).
Proof.
  unfold FindPerson. cbv zeta.
  apply decode_conducts, conducts_makeRequest. route_request.
Qed.

Lemma Me_conducts (ctx : Context) (c : donatelyClient) :
  conducts (has_handle c) c (budget c) (request_of_call c (call_Me : call'))
    (zero_on_error Person_zero) (Me lib ctx c).
Proof.
  unfold Me. apply decode_conducts, conducts_makeRequest. route_request.
Qed.

Lemma SavePerson_conducts (ctx : Context) (c : donatelyClient) (person : Person) :
  conducts (has_handle c) c (budget c)
    (request_of_call c (call_SavePerson person : call'))
    (zero_on_error Person_zero) (SavePerson lib ctx c person).
Proof.
  unfold SavePerson.
  destruct (Person_Accounts person) as [|first rest].
  { apply conducts_ret_early. by intros ?. }
  destruct (String.eqb (Account_ID first) "").
  { apply conducts_ret_early. by intros ?. }
  cbv zeta. apply decode_conducts, conducts_executor. intros reqBody.
  apply request_of_call_intro; [done| |done|done].
  simpl. unfold save_path. by destruct (String.eqb (Person_ID person) "").
Qed.

Lemma ListDonations_conducts (ctx : Context) (c : donatelyClient)
    (account : Account) (offset limit : Z) :
  conducts (has_handle c) c (budget c)
    (request_of_call c (call_ListDonations account offset limit : call'))
    (zero_on_error []) (ListDonations lib ctx c account offset limit).
Proof.
  unfold ListDonations. cbv zeta.
  apply decode_conducts, conducts_makeRequest. route_request.
Qed.

Lemma ListMyDonations_conducts (ctx : Context) (c : donatelyClient) :
  conducts (has_handle c) c (budget c)
    (request_of_call c (call_ListMyDonations : call'))
    (zero_on_error []) (ListMyDonations lib ctx c).
Proof.
  unfold ListMyDonations. apply decode_conducts, conducts_makeRequest.
  route_request.
Qed.

Lemma FindDonation_conducts (ctx : Context) (c : donatelyClient) (id : string)
    (account : Account) :
  conducts (has_handle c) c (budget c)
    (request_of_call c (call_FindDonation id account : call'))
    (zero_on_error (Donation_zero lib)) (FindDonation lib ctx c id account).
Proof.
  unfold FindDonation. cbv zeta.
  apply decode_conducts, conducts_makeRequest. route_request.
Qed.

Lemma RefundDonation_conducts (ctx : Context) (c : donatelyClient)
    (donation : Donation') (reason : string) :
  conducts (has_handle c) c (budget c)
    (request_of_call c (call_RefundDonation donation reason : call'))
    (fun _ => True) (RefundDonation lib ctx c donation reason).
Proof.
  unfold RefundDonation.
  destruct (String.eqb (Account_ID (Donation_Account donation)) "").
  { by apply conducts_ret_early. }
  cbv zeta. apply act_conducts, conducts_executor. intros reqBody.
  by apply request_of_call_intro.
Qed.

Lemma SendDonationReceipt_conducts (ctx : Context) (c : donatelyClient)
    (donation : Donation') :
  conducts (has_handle c) c (budget c)
    (request_of_call c (call_SendDonationReceipt donation : call'))
    (fun _ => True) (SendDonationReceipt lib ctx c donation).
Proof.
  unfold SendDonationReceipt. cbv zeta.
  apply act_conducts, conducts_makeRequest. route_request.
Qed.

Lemma ListSubscriptions_conducts (ctx : Context) (c : donatelyClient)
    (account : Account) :
  conducts (has_handle c) c (budget c)
    (request_of_call c (call_ListSubscriptions account : call'))
    (zero_on_error []) (ListSubscriptions lib dec ctx c account).
Proof.
  unfold ListSubscriptions. cbv zeta.
  apply decode_conducts, conducts_makeRequest. route_request.
Qed.

Lemma ListMySubscriptions_conducts (ctx : Context) (c : donatelyClient) :
  conducts (has_handle c) c (budget c)
    (request_of_call c (call_ListMySubscriptions : call'))
    (zero_on_error []) (ListMySubscriptions lib dec ctx c).
Proof.
  unfold ListMySubscriptions. apply decode_conducts, conducts_makeRequest.
  route_request.
Qed.

Lemma FindSubscription_conducts (ctx : Context) (c : donatelyClient)
    (id : string) (account : Account) :
  conducts (has_handle c) c (budget c)
    (request_of_call c (call_FindSubscription id account : call'))
    (zero_on_error Subscription_zero) (FindSubscription lib ctx c id account).
Proof.
  unfold FindSubscription. cbv zeta.
  apply decode_conducts, conducts_makeRequest. route_request.
Qed.

Lemma SaveSubscription_conducts (ctx : Context) (c : donatelyClient)
    (subscription : Subscription) :
  conducts (has_handle c) c (budget c)
    (request_of_call c (call_SaveSubscription subscription : call'))
    (zero_on_error Subscription_zero) (SaveSubscription lib ctx c subscription).
Proof.
  unfold SaveSubscription. cbv zeta.
  apply decode_conducts, conducts_executor. intros reqBody.
  apply request_of_call_intro; [done| |done|done].
  simpl. unfold save_path.
  by destruct (String.eqb (Subscription_ID subscription) "").
Qed.

Lemma ListCampaigns_conducts (ctx : Context) (c : donatelyClient)
    (account : Account) :
  conducts (has_handle c) c (budget c)
    (request_of_call c (call_ListCampaigns account : call'))
    (zero_on_error []) (ListCampaigns lib dec ctx c account).
Proof.
  unfold ListCampaigns. cbv zeta.
  apply decode_conducts, conducts_makeRequest. route_request.
Qed.

Lemma FindCampaign_conducts (ctx : Context) (c : donatelyClient) (id : string)
    (account : Account) :
  conducts (has_handle c) c (budget c)
    (request_of_call c (call_FindCampaign id account : call'))
    (zero_on_error (Campaign_zero lib)) (FindCampaign lib ctx c id account).
Proof.
  unfold FindCampaign. cbv zeta.
  apply decode_conducts, conducts_makeRequest. route_request.
Qed.

Lemma SaveCampaign_conducts (ctx : Context) (c : donatelyClient)
    (campaign : Campaign') :
  conducts (has_handle c) c (budget c)
    (request_of_call c (call_SaveCampaign campaign : call'))
    (zero_on_error (Campaign_zero lib)) (SaveCampaign lib ctx c campaign).
Proof.
  unfold SaveCampaign. cbv zeta.
  apply decode_conducts, conducts_executor. intros reqBody.
  apply request_of_call_intro; [done| |done|done].
  simpl. unfold save_path. by destruct (String.eqb (Campaign_ID campaign) "").
Qed.

Lemma DeleteCampaign_conducts (ctx : Context) (c : donatelyClient)
    (campaign : Campaign') :
  conducts (has_handle c) c (budget c)
    (request_of_call c (call_DeleteCampaign campaign : call'))
    (fun _ => True) (DeleteCampaign lib ctx c campaign).
Proof.
  unfold DeleteCampaign. cbv zeta.
  apply act_conducts, conducts_makeRequest. route_request.
Qed.

(** ** The retry loop *)

Lemma Retry_conducts (t : bool) (c : donatelyClient) (n : nat)
    (P : Request -> Prop) (ctx : Context)
    (operation : M (option APIResponse * option error)) :
  conducts t c n P exactly_one_nil operation ->
  conducts t c (n * S (length ctx)) P exactly_one_nil
    (backoff_Retry ctx operation).
Proof.
  intros Hop. induction ctx as [|wait ctx IH]; simpl.
  - rewrite Nat.mul_1_r. eapply conducts_bind0; [exact Hop|].
    intros [res [e|]] Hshape; by apply conducts_ret.
  - replace (n * S (S (length ctx)))%nat with (n + n * S (length ctx))%nat by lia.
    eapply conducts_bind; [exact Hop|].
    intros [res [e|]] Hshape; [|by apply conducts_ret_early].
    destruct wait; [exact IH|by apply conducts_ret_early..].
Qed.

Lemma SaveDonation_conducts (ctx : Context) (c : donatelyClient)
    (donation : Donation') :
  conducts false c (budget c * (2 + length ctx))
    (request_of_call c (call_SaveDonation donation : call'))
    (zero_on_error (Donation_zero lib)) (SaveDonation lib ctx c donation).
Proof.
  unfold SaveDonation.
  destruct (String.eqb (Account_ID (Donation_Account donation)) "").
  { apply conducts_ret_early. by intros ?. }
  cbv zeta. rewrite SaveDonation_endpoint_query.
  set (endpoint := save_path "/donations" (Donation_ID donation) +:+ "?"
                     +:+ Values_Encode (SaveDonation_params donation)).
  assert (Hreq : request_of_call c (call_SaveDonation donation : call')
                   (newRequest c "POST" endpoint None "application/json"))
    by (by apply request_of_call_intro).
  assert (Hop : conducts false c (budget c)
                  (request_of_call c (call_SaveDonation donation : call'))
                  exactly_one_nil (makeRequest lib ctx c "POST" endpoint None)).
  { eapply conducts_weaken; [| | | |by apply conducts_makeRequest]; done. }
  replace (budget c * (2 + length ctx))%nat
    with (budget c + (budget c * S (length ctx) + 0))%nat by lia.
  eapply conducts_bind; [exact Hop|]. intros [resp err] Hshape.
  eapply (conducts_bind _ _ _ _ _
            (fun x : option APIResponse * option (Donation' * option error) =>
               match x.2 with
               | Some result => zero_on_error (Donation_zero lib) result
               | None => True
               end)).
  - destruct (doRetry (opts c)); [|by apply conducts_ret_early].
    destruct (assert_retryable err) as [[|]|];
      try (apply conducts_ret_early; by intros ?).
    cbv zeta. eapply conducts_bind0; [by apply Retry_conducts|].
    intros [resp' [e|]] Hshape'; apply conducts_ret; simpl; [by intros ?|done].
  - intros [resp' [result|]] Hresult; [by apply conducts_ret|].
    destruct resp' as [r|]; [|apply conducts_panic].
    eapply conducts_bind0; [apply (conducts_deref _ _ _ r)|]. intros r' _.
    destruct (json_Unmarshal_Donation lib (APIResponse_Data r'));
      apply conducts_ret; by intros ?.
Qed.

(** ** Every call *)

Lemma error_of_conducts {A} (t : bool) (c : donatelyClient) (n : nat)
    (P : Request -> Prop) (Q : A * option error -> Prop)
    (m : M (A * option error)) :
  conducts t c n P Q m -> conducts t c n P (fun _ => True) (error_of m).
Proof.
  intros Hm. unfold error_of. eapply conducts_bind0; [exact Hm|].
  intros [a err] _. by apply conducts_ret.
Qed.

Lemma budget_le_1 (c : donatelyClient) : (budget c ≤ 1)%nat.
Proof. unfold budget. destruct (has_handle c); lia. Qed.

Lemma conducts_call {A} (ctx : Context) (c : donatelyClient) (k : call')
    (Q : A -> Prop) (m : M A) :
  retries k = false ->
  conducts (has_handle c) c (budget c) (request_of_call c k) Q m ->
  conducts (has_handle c && negb (retries k)) c
    (if has_handle c then attempts ctx k else 0)
    (request_of_call c k) (fun _ => True) m.
Proof.
  intros Hk Hm. unfold attempts. rewrite Hk, andb_true_r.
  eapply conducts_weaken; [| | | |exact Hm]; done.
Qed.

Lemma perform_conducts (ctx : Context) (c : donatelyClient) (k : call') :
  conducts (has_handle c && negb (retries k)) c
    (if has_handle c then attempts ctx k else 0)
    (request_of_call c k) (fun _ => True) (perform lib dec ctx c k).
Proof.
  destruct k; simpl perform.
  - eapply conducts_call, error_of_conducts, FindAccount_conducts; done.
  - eapply conducts_call, error_of_conducts, ListPeople_conducts; done.
  - eapply conducts_call, error_of_conducts, FindPerson_conducts; done.
  - eapply conducts_call, error_of_conducts, Me_conducts; done.
  - eapply conducts_call, error_of_conducts, SavePerson_conducts; done.
  - eapply conducts_call, error_of_conducts, ListDonations_conducts; done.
  - eapply conducts_call, error_of_conducts, ListMyDonations_conducts; done.
  - eapply conducts_call, error_of_conducts, FindDonation_conducts; done.
  - pose proof (error_of_conducts _ _ _ _ _ _
                  (SaveDonation_conducts ctx c donation)) as Hsave.
    eapply conducts_weaken; [| | | |exact Hsave]; [|..|done|done].
    + by rewrite andb_false_r.
    + unfold attempts, budget. simpl. destruct (has_handle c); lia.
  - eapply conducts_call, RefundDonation_conducts; done.
  - eapply conducts_call, SendDonationReceipt_conducts; done.
  - eapply conducts_call, error_of_conducts, ListSubscriptions_conducts; done.
  - eapply conducts_call, error_of_conducts, ListMySubscriptions_conducts; done.
  - eapply conducts_call, error_of_conducts, FindSubscription_conducts; done.
  - eapply conducts_call, error_of_conducts, SaveSubscription_conducts; done.
  - eapply conducts_call, error_of_conducts, ListCampaigns_conducts; done.
  - eapply conducts_call, error_of_conducts, FindCampaign_conducts; done.
  - eapply conducts_call, error_of_conducts, SaveCampaign_conducts; done.
  - eapply conducts_call, DeleteCampaign_conducts; done.
Qed.

Lemma perform_follows (ctx : Context) (c : donatelyClient) (k : call') (w : World) :
  follows c (if has_handle c then attempts ctx k else 0) (request_of_call c k)
    w (perform lib dec ctx c k w).2.
Proof. apply perform_conducts. Qed.

Lemma follows_issued (c : donatelyClient) (n : nat) (P : Request -> Prop)
    (w w' : World) :
  follows c n P w w' -> (length (issued w w') ≤ n)%nat ∧ Forall P (issued w w').
Proof.
  intros (reqs & Hsent & Hn & HP & _). by rewrite (issued_app _ _ _ Hsent).
Qed.

(** X1. Whatever the arguments and the world, the executor returns either a
    response with a nil error or a nil response with an error, never both
    and never neither; it panics only for a client without its HTTP handle,
    with a nil pointer dereference. *)
Theorem executor_result_shape
    (ctx : Context) (c : donatelyClient) (method endpoint : string)
    (body : option any') (contentType : string) (w : World) :
  match (makeRequestWithContentType lib ctx c method endpoint body contentType w).1
  with
  | Returns r => exactly_one_nil r
  | Panics msg => client c = None ∧ msg = nil_dereference
  end.
Proof.
  unfold makeRequestWithContentType.
  destruct (encodeBody lib body contentType) as [err|reqBody]; [done|].
  destruct (http_NewRequestWithContext lib method (baseURL (opts c) +:+ endpoint))
    as [err|uri]; [done|].
  unfold mbind, M_bind, http_Client_Do.
  destruct (client c) as [hc|]; destruct (debug (opts c)); simpl; try done.
  all: destruct (handler w _); simpl; try done;
    apply classifyResponse_exactly_one_nil.
Qed.

(** X2. On a client that has its HTTP handle, no call other than
    [SaveDonation] panics: it returns, with an error or without. *)
Theorem calls_never_panic (ctx : Context) (c : donatelyClient) (k : call')
    (w : World) (hc : http_Client) :
  client c = Some hc ->
  retries k = false ->
  ∃ err w', perform lib dec ctx c k w = (Returns err, w').
Proof.
  intros Hc Hk. destruct (perform_conducts ctx c k w) as [_ Hres].
  unfold has_handle in Hres. rewrite Hc, Hk in Hres.
  destruct (perform lib dec ctx c k w) as [[err|msg] w']; [by eexists _, _|done].
Qed.

(** X3. A call other than [SaveDonation] issues at most one request,
    whether or not retry is enabled and whatever the server answers;
    [SaveDonation] issues at most two requests plus one for every wait its
    context allows. *)
Theorem calls_issue_bounded (ctx : Context) (c : donatelyClient) (k : call')
    (w : World) :
  (length (issued w (perform lib dec ctx c k w).2) ≤ attempts ctx k)%nat
  ∧ (retries k = false ->
     (length (issued w (perform lib dec ctx c k w).2) ≤ 1)%nat).
Proof.
  destruct (follows_issued _ _ _ _ _ (perform_follows ctx c k w)) as [Hn _].
  assert (Hle : (length (issued w (perform lib dec ctx c k w).2)
                 ≤ attempts ctx k)%nat)
    by (destruct (has_handle c); lia).
  split; [done|]. intros Hk. unfold attempts in Hle. by rewrite Hk in Hle.
Qed.

(** X4. Every request of every call carries the client's credentials: the
    bearer authorization made from the API key, the API version, the
    [Accept: application/json] header, and no header beyond these and the
    content type. *)
Theorem calls_carry_credentials (ctx : Context) (c : donatelyClient) (k : call')
    (w : World) :
  Forall (carries_credentials c) (issued w (perform lib dec ctx c k w).2).
Proof.
  destruct (follows_issued _ _ _ _ _ (perform_follows ctx c k w)) as [_ HP].
  eapply Forall_impl; [exact HP|]. by intros r (_ & Hcred & _).
Qed.

(** X5. Every request of a call has the method and the endpoint of the
    call's route and declares the call's content type; the calls that send
    no body (every GET and DELETE, the receipt, and [SaveDonation], whose
    parameters travel in the query string) have no request body. *)
Theorem calls_follow_routes (ctx : Context) (c : donatelyClient) (k : call')
    (w : World) :
  Forall (fun r => Method r = (route k).1
                   ∧ URL r = baseURL (opts c) +:+ (route k).2
                   ∧ Header r !! "Content-Type" = Some [content_type k]
                   ∧ (has_body k = false -> Body r = None))
    (issued w (perform lib dec ctx c k w).2).
Proof.
  destruct (follows_issued _ _ _ _ _ (perform_follows ctx c k w)) as [_ HP].
  eapply Forall_impl; [exact HP|]. by intros r ([? ?] & _ & ? & ?).
Qed.

(** X6. A client without its HTTP handle never issues a request; this is
    the client that [NewDonatelyClient] returns together with an error. *)
Theorem failed_construction_issues_nothing (ctx : Context)
    (options : list ClientOption) (k : call') (w : World) :
  (NewDonatelyClient options).2 ≠ None ->
  client (NewDonatelyClient options).1 = None
  ∧ issued w (perform lib dec ctx (NewDonatelyClient options).1 k w).2 = [].
Proof.
  intros Herr.
  assert (Hnone : client (NewDonatelyClient options).1 = None).
  { revert Herr. unfold NewDonatelyClient.
    destruct (String.eqb _ _); [done|]. by destruct (String.eqb _ _). }
  split; [done|].
  pose proof (perform_follows ctx (NewDonatelyClient options).1 k w) as Hf.
  unfold has_handle in Hf. rewrite Hnone in Hf.
  destruct (follows_issued _ _ _ _ _ Hf) as [Hn _].
  by destruct (issued w _); [|simpl in Hn; lia].
Qed.

(** ** Configuration *)

Lemma provided_keeps (o : ClientOption) (opt : clientOption) :
  provided_option o ->
  debug (o opt) = debug opt
  ∧ donatelyAPIVersion (o opt) = donatelyAPIVersion opt
  ∧ (doRetry opt = true -> doRetry (o opt) = true)
  ∧ (doRetry (o opt) = true -> doRetry opt = true ∨ o = WithRetry).
Proof. intros [key|url|]; simpl; auto. Qed.

Lemma configured_snoc (options : list ClientOption) (o : ClientOption) :
  configured (options ++ [o]) = o (configured options).
Proof. unfold configured. by rewrite foldl_app. Qed.

Lemma configured_provided (options : list ClientOption) :
  Forall provided_option options ->
  debug (configured options) = false
  ∧ donatelyAPIVersion (configured options) = "2018-04-01"
  ∧ (doRetry (configured options) = true ↔ WithRetry ∈ options).
Proof.
  intros Hall. induction options as [|o options IH] using rev_ind.
  - split; [done|split; [done|]]. split; [done|]. by intros ?%elem_of_nil.
  - apply Forall_app in Hall as [Hall Ho]. apply Forall_inv in Ho.
    destruct (IH Hall) as (Hd & Hv & Hr).
    destruct (provided_keeps o (configured options) Ho) as (Hd' & Hv' & Hup & Hdown).
    rewrite configured_snoc.
    split; [congruence|split; [congruence|]]. split.
    + intros [Hold| ->]%Hdown; apply elem_of_app.
      * left. by apply Hr.
      * right. by apply list_elem_of_singleton.
    + intros [Hin|Hin%list_elem_of_singleton]%elem_of_app.
      * apply Hup. by apply Hr.
      * by subst o.
Qed.

Lemma NewDonatelyClient_opts (options : list ClientOption) :
  (NewDonatelyClient options).1 = donatelyClient_zero
  ∨ ((NewDonatelyClient options).2 = None
     ∧ opts (NewDonatelyClient options).1 = configured options
     ∧ has_handle (NewDonatelyClient options).1 = true).
Proof.
  unfold NewDonatelyClient. fold (configured options).
  destruct (String.eqb (apiKey _) ""); [by left|].
  destruct (String.eqb (baseURL _) ""); [by left|by right].
Qed.

(** X7. With the options the package provides, in any number and order, a
    client never has debug output on and always speaks API version
    2018-04-01; retry is on exactly when [WithRetry] is among the options.
    When construction succeeds the client has its HTTP handle and exactly
    this configuration. *)
Theorem provided_options_configuration (options : list ClientOption) :
  Forall provided_option options ->
  debug (configured options) = false
  ∧ donatelyAPIVersion (configured options) = "2018-04-01"
  ∧ (doRetry (configured options) = true ↔ WithRetry ∈ options)
  ∧ ((NewDonatelyClient options).2 = None ->
     opts (NewDonatelyClient options).1 = configured options
     ∧ has_handle (NewDonatelyClient options).1 = true).
Proof.
  intros Hall. destruct (configured_provided options Hall) as (Hd & Hv & Hr).
  split; [done|split; [done|split; [done|]]].
  unfold NewDonatelyClient. fold (configured options).
  destruct (String.eqb (apiKey _) ""); [done|].
  by destruct (String.eqb (baseURL _) "").
Qed.

(** X8. A client built by [NewDonatelyClient] from the options the package
    provides prints nothing, whatever it is asked to do and whether or not
    its construction succeeded. *)
Theorem provided_clients_print_nothing (ctx : Context)
    (options : list ClientOption) (k : call') (w : World) :
  Forall provided_option options ->
  stdout (perform lib dec ctx (NewDonatelyClient options).1 k w).2 = stdout w.
Proof.
  intros Hall.
  destruct (perform_follows ctx (NewDonatelyClient options).1 k w)
    as (reqs & _ & _ & _ & _ & Hquiet).
  apply Hquiet.
  destruct (configured_provided options Hall) as [Hd _].
  destruct (NewDonatelyClient_opts options) as [->|(_ & -> & _)]; done.
Qed.

(** ** Zero values *)

Lemma conducts_zero {A} (t : bool) (c : donatelyClient) (n : nat)
    (P : Request -> Prop) (zero : A) (m : M (A * option error)) :
  conducts t c n P (zero_on_error zero) m -> returns_zero_on_error zero m.
Proof.
  intros Hm w a e Hres. destruct (Hm w) as [_ Hq]. rewrite Hres in Hq.
  by apply Hq.
Qed.

(** X9. Every operation that returns a value with an error returns the zero
    value of its type whenever the error is not nil: no partial result
    leaves the client, whatever the server answered. *)
Theorem operations_return_zero_on_error (ctx : Context) (c : donatelyClient) :
  (∀ id, returns_zero_on_error Account_zero (FindAccount lib dec ctx c id))
  ∧ (∀ account offset limit,
       returns_zero_on_error [] (ListPeople lib ctx c account offset limit))
  ∧ (∀ id account,
       returns_zero_on_error Person_zero (FindPerson lib ctx c id account))
  ∧ returns_zero_on_error Person_zero (Me lib ctx c)
  ∧ (∀ person, returns_zero_on_error Person_zero (SavePerson lib ctx c person))
  ∧ (∀ account offset limit,
       returns_zero_on_error [] (ListDonations lib ctx c account offset limit))
  ∧ returns_zero_on_error [] (ListMyDonations lib ctx c)
  ∧ (∀ id account,
       returns_zero_on_error (Donation_zero lib) (FindDonation lib ctx c id account))
  ∧ (∀ donation,
       returns_zero_on_error (Donation_zero lib) (SaveDonation lib ctx c donation))
  ∧ (∀ account,
       returns_zero_on_error [] (ListSubscriptions lib dec ctx c account))
  ∧ returns_zero_on_error [] (ListMySubscriptions lib dec ctx c)
  ∧ (∀ id account,
       returns_zero_on_error Subscription_zero
         (FindSubscription lib ctx c id account))
  ∧ (∀ subscription,
       returns_zero_on_error Subscription_zero
         (SaveSubscription lib ctx c subscription))
  ∧ (∀ account, returns_zero_on_error [] (ListCampaigns lib dec ctx c account))
  ∧ (∀ id account,
       returns_zero_on_error (Campaign_zero lib) (FindCampaign lib ctx c id account))
  ∧ (∀ campaign,
       returns_zero_on_error (Campaign_zero lib) (SaveCampaign lib ctx c campaign)).
Proof.
  repeat split; intros; eapply conducts_zero.
  - apply FindAccount_conducts.
  - apply ListPeople_conducts.
  - apply FindPerson_conducts.
  - apply Me_conducts.
  - apply SavePerson_conducts.
  - apply ListDonations_conducts.
  - apply ListMyDonations_conducts.
  - apply FindDonation_conducts.
  - apply SaveDonation_conducts.
  - apply ListSubscriptions_conducts.
  - apply ListMySubscriptions_conducts.
  - apply FindSubscription_conducts.
  - apply SaveSubscription_conducts.
  - apply ListCampaigns_conducts.
  - apply FindCampaign_conducts.
  - apply SaveCampaign_conducts.
Qed.

(** ** Failures of the executor *)

Lemma encodeBody_error_not_retryable (body : option any') (contentType : string)
    (err : error) :
  encodeBody lib body contentType = inl err -> assert_retryable (Some err) = None.
Proof.
  unfold encodeBody. destruct body as [b|]; [|done].
  destruct (String.eqb contentType _).
  - destruct b; by intros [= <-].
  - destruct (json_Marshal lib b); by intros [= <-].
Qed.

Lemma classifyResponse_retryable_inv (StatusCode : Z) (respBody : string)
    (resp : option APIResponse) (e : error) (b : bool) :
  classifyResponse lib StatusCode respBody = (resp, Some e) ->
  assert_retryable (Some e) = Some b ->
  ∃ perr, json_Unmarshal_APIResponse lib respBody = inl perr
          ∧ strings_ToLower lib (strings_TrimSpace lib respBody) = "retry later"
          ∧ resp = None ∧ b = true
          ∧ e = retryableError (fmt_Errorf_w "failed to unmarshal response: " perr) true.
Proof.
  unfold classifyResponse.
  destruct (json_Unmarshal_APIResponse lib respBody) as [perr|apiResp].
  - destruct (String.eqb "retry later" _) eqn:Hs.
    + intros [= <- <-] [= <-]. exists perr.
      apply String.eqb_eq in Hs. by rewrite <- Hs.
    + by intros [= <- <-].
  - destruct (_ && _); [by intros [= <- <-]|].
    destruct (_ >=? _)%Z; [by intros [= <- <-]|done].
Qed.

Lemma executor_retryable_inv
    (ctx : Context) (c : donatelyClient) (method endpoint : string)
    (body : option any') (contentType : string) (w : World)
    (resp : option APIResponse) (e : error) (b : bool) :
  (makeRequestWithContentType lib ctx c method endpoint body contentType w).1
  = Returns (resp, Some e) ->
  assert_retryable (Some e) = Some b ->
  b = true
  ∧ ∃ reqBody StatusCode respBody perr,
      encodeBody lib body contentType = inr reqBody
      ∧ handler w (sent w ++ [newRequest c method endpoint reqBody contentType])
        = Response StatusCode respBody
      ∧ json_Unmarshal_APIResponse lib respBody = inl perr
      ∧ strings_ToLower lib (strings_TrimSpace lib respBody) = "retry later"
      ∧ e = retryableError (fmt_Errorf_w "failed to unmarshal response: " perr) true.
Proof.
  unfold makeRequestWithContentType.
  destruct (encodeBody lib body contentType) as [err|reqBody] eqn:Henc.
  { intros [= <- <-] Hre.
    by rewrite (encodeBody_error_not_retryable _ _ _ Henc) in Hre. }
  destruct (http_NewRequestWithContext lib method (baseURL (opts c) +:+ endpoint))
    as [err|uri]; [by intros [= <- <-]|].
  unfold mbind, M_bind, http_Client_Do.
  destruct (client c) as [hc|]; destruct (debug (opts c)); simpl; try done.
  all: destruct (handler w _) as [err|err|StatusCode respBody] eqn:Hrt; simpl;
    [by intros [= <- <-]|by intros [= <- <-]|];
    intros [= Hcl] Hre;
    destruct (classifyResponse_retryable_inv _ _ _ _ _ Hcl Hre)
      as (perr & Hp & Hs & _ & -> & ->);
    split; [done|]; by exists reqBody, StatusCode, respBody, perr.
Qed.

(** X10. An error of the executor is retryable only when a request was sent
    and answered, and the answer's body is not an envelope and reads
    [retry later] once trimmed and lowered; failures to encode the body, to
    create the request, to reach the server or to read the answer, API
    errors and HTTP errors are never retryable. *)
Theorem executor_retryable_only_retry_later
    (ctx : Context) (c : donatelyClient) (method endpoint : string)
    (body : option any') (contentType : string) (w : World)
    (resp : option APIResponse) (e : error) (b : bool) :
  (makeRequestWithContentType lib ctx c method endpoint body contentType w).1
  = Returns (resp, Some e) ->
  assert_retryable (Some e) = Some b ->
  b = true
  ∧ ∃ reqBody StatusCode respBody perr,
      encodeBody lib body contentType = inr reqBody
      ∧ handler w (sent w ++ [newRequest c method endpoint reqBody contentType])
        = Response StatusCode respBody
      ∧ json_Unmarshal_APIResponse lib respBody = inl perr
      ∧ strings_ToLower lib (strings_TrimSpace lib respBody) = "retry later"
      ∧ e = retryableError (fmt_Errorf_w "failed to unmarshal response: " perr) true.
Proof. apply executor_retryable_inv. Qed.

(** X11. When the server cannot be reached, or its answer cannot be read,
    the executor returns a nil response and an error that wraps the cause
    under [failed to make request: ] or [failed to read response body: ];
    the error is not retryable, and the one request was sent. *)
Theorem executor_transport_failure
    (ctx : Context) (c : donatelyClient) (method endpoint : string)
    (body : option any') (contentType : string) (w : World)
    (hc : http_Client) (reqBody : option string) (requestURI : string)
    (cause : error) (reading : bool) :
  client c = Some hc ->
  encodeBody lib body contentType = inr reqBody ->
  http_NewRequestWithContext lib method (baseURL (opts c) +:+ endpoint)
    = inr requestURI ->
  handler w (sent w ++ [newRequest c method endpoint reqBody contentType])
  = (if reading then BodyReadError cause else TransportError cause) ->
  ∃ e w',
    makeRequestWithContentType lib ctx c method endpoint body contentType w
    = (Returns (None, Some e), w')
    ∧ Error e = (if reading then "failed to read response body: "
                 else "failed to make request: ") +:+ Error cause
    ∧ Unwrap e = Some cause
    ∧ assert_retryable (Some e) = None
    ∧ issued w w' = [newRequest c method endpoint reqBody contentType].
Proof.
  intros Hc Henc Hnew Hrt.
  destruct (makeRequestWithContentType_completed lib ctx c method endpoint body
              contentType w hc reqBody requestURI _ Hc Henc Hnew Hrt)
    as (w' & Hrun & Hsent & _).
  rewrite Hrun. destruct reading; eexists _, w';
    (split; [done|]); rewrite (issued_app _ _ _ Hsent); done.
Qed.

(** X12. A subscription or a campaign that cannot be marshalled is never
    sent: [SaveSubscription] and [SaveCampaign] return the zero value and
    an error that wraps the marshaller's under
    [failed to marshal request body: ], and the world is as before. *)
Theorem save_marshal_failure (ctx : Context) (c : donatelyClient) (w : World)
    (cause : error) :
  (∀ subscription,
     json_Marshal lib (any_Subscription subscription) = inl cause ->
     SaveSubscription lib ctx c subscription w
     = (Returns (Subscription_zero,
                 Some (fmt_Errorf_w "failed to marshal request body: " cause)), w))
  ∧ (∀ campaign,
     json_Marshal lib (any_Campaign campaign) = inl cause ->
     SaveCampaign lib ctx c campaign w
     = (Returns (Campaign_zero lib,
                 Some (fmt_Errorf_w "failed to marshal request body: " cause)), w)).
Proof.
  split; intros x Hm.
  - unfold SaveSubscription, makeRequest, makeRequestWithContentType, encodeBody.
    change (String.eqb "application/json" "application/x-www-form-urlencoded")
      with false. cbv iota. by rewrite Hm.
  - unfold SaveCampaign, makeRequest, makeRequestWithContentType, encodeBody.
    change (String.eqb "application/json" "application/x-www-form-urlencoded")
      with false. cbv iota. by rewrite Hm.
Qed.

(** ** When SaveDonation asks again *)

Lemma issued_refl (w : World) : issued w w = [].
Proof. apply issued_app. by rewrite app_nil_r. Qed.

Lemma budget_issued (c : donatelyClient) (P : Request -> Prop) (w w' : World) :
  follows c (budget c) P w w' -> (length (issued w w') ≤ 1)%nat.
Proof.
  intros Hf. destruct (follows_issued _ _ _ _ _ Hf) as [Hn _].
  unfold budget in Hn. destruct (has_handle c); lia.
Qed.

(** X13. [SaveDonation] issues a second request only when retry is enabled
    and the answer to its first request was the [retry later] sentinel: a
    body that is not an envelope and reads [retry later] once trimmed and
    lowered. *)
Theorem SaveDonation_asks_again_only_after_retry_later
    (ctx : Context) (c : donatelyClient) (donation : Donation') (w : World) :
  (2 ≤ length (issued w (SaveDonation lib ctx c donation w).2))%nat ->
  doRetry (opts c) = true
  ∧ ∃ StatusCode respBody perr,
      handler w (sent w ++ [newRequest c "POST" (SaveDonation_endpoint donation)
                              None "application/json"])
      = Response StatusCode respBody
      ∧ json_Unmarshal_APIResponse lib respBody = inl perr
      ∧ strings_ToLower lib (strings_TrimSpace lib respBody) = "retry later".
Proof.
  unfold SaveDonation.
  destruct (String.eqb (Account_ID (Donation_Account donation)) "").
  { simpl. rewrite issued_refl. simpl. lia. }
  cbv zeta. set (endpoint := SaveDonation_endpoint donation).
  destruct (makeRequest_conducts ctx c "POST" endpoint w) as [Hf _].
  apply budget_issued in Hf.
  unfold mbind at 1, M_bind at 1.
  pose proof (executor_retryable_inv ctx c "POST" endpoint None
                "application/json" w) as Hinv.
  fold (makeRequest lib ctx c "POST" endpoint None) in Hinv.
  destruct (makeRequest lib ctx c "POST" endpoint None w)
    as [[[resp err]|msg] w1]; simpl in *; [|lia].
  destruct (doRetry (opts c)).
  - destruct err as [e|].
    + destruct (assert_retryable (Some e)) as [b|] eqn:Hre.
      * destruct (Hinv resp e b eq_refl Hre)
          as (-> & reqBody & StatusCode & respBody & perr & Henc & Hrt & Hp & Hs & _).
        injection Henc as <-.
        intros _. split; [done|]. by exists StatusCode, respBody, perr.
      * unfold mbind, M_bind. simpl. lia.
    + unfold mbind, M_bind. simpl. lia.
  - unfold mbind, M_bind. simpl.
    destruct resp as [r|]; simpl; [|lia].
    destruct (json_Unmarshal_Donation lib (APIResponse_Data r)); simpl; lia.
Qed.

(** The loop against an operation that fails the same way every time. *)
Lemma backoff_Retry_persistent {T} (h : list Request -> RoundTrip)
    (operation : M (T * option error)) (res : T) (e : error) (req : Request)
    (n : nat) (rest : Context) (w : World) :
  (∀ w0, handler w0 = h ->
         ∃ w1, operation w0 = (Returns (res, Some e), w1)
               ∧ sent w1 = sent w0 ++ [req] ∧ handler w1 = h) ->
  head rest ≠ Some TimerFired ->
  handler w = h ->
  ∃ w', backoff_Retry (replicate n TimerFired ++ rest) operation w
        = (Returns (res, Some match rest with
                              | ContextDone cause :: _ => cause
                              | _ => e
                              end), w')
        ∧ sent w' = sent w ++ replicate (S n) req.
Proof.
  intros Hop Hrest. revert w. induction n as [|n IH]; intros w Hh.
  - destruct (Hop w Hh) as (w1 & Hrun & Hsent & _).
    exists w1. split; [|done].
    destruct rest as [|[| |cause] rest]; simpl; unfold mbind, M_bind;
      rewrite Hrun; done.
  - destruct (Hop w Hh) as (w1 & Hrun & Hsent & Hh1).
    destruct (IH w1 Hh1) as (w' & Hloop & Hsent').
    exists w'. split.
    + change (replicate (S n) TimerFired ++ rest)
        with (TimerFired :: (replicate n TimerFired ++ rest)).
      simpl. unfold mbind at 1, M_bind at 1. rewrite Hrun. exact Hloop.
    + rewrite Hsent', Hsent, <- app_assoc. done.
Qed.

(** X14. Retry enabled, against a server that answers every request with
    the [retry later] sentinel: [SaveDonation] sends the same request once,
    then once more, then once after every wait that elapses, and stops at
    the first wait that does not; it returns the zero donation with the
    context's error when the context ended the wait, and with the
    retryable error otherwise. *)
Theorem SaveDonation_retry_later_forever
    (c : donatelyClient) (donation : Donation') (w : World)
    (hc : http_Client) (requestURI : string)
    (StatusCode : Z) (respBody : string) (perr : error)
    (n : nat) (rest : Context) :
  doRetry (opts c) = true ->
  client c = Some hc ->
  Account_ID (Donation_Account donation) ≠ "" ->
  http_NewRequestWithContext lib "POST"
    (baseURL (opts c) +:+ SaveDonation_endpoint donation) = inr requestURI ->
  (∀ reqs, handler w reqs = Response StatusCode respBody) ->
  json_Unmarshal_APIResponse lib respBody = inl perr ->
  strings_ToLower lib (strings_TrimSpace lib respBody) = "retry later" ->
  head rest ≠ Some TimerFired ->
  ∃ w',
    SaveDonation lib (replicate n TimerFired ++ rest) c donation w
    = (Returns (Donation_zero lib,
                Some match rest with
                     | ContextDone cause :: _ => cause
                     | _ => retryableError
                              (fmt_Errorf_w "failed to unmarshal response: " perr)
                              true
                     end), w')
    ∧ issued w w'
      = replicate (2 + n)
          (newRequest c "POST" (SaveDonation_endpoint donation) None
             "application/json").
Proof.
  intros Hretry Hc Hacct Hnew Hserver Hparse Hsentinel Hrest.
  set (ctx := replicate n TimerFired ++ rest).
  unfold SaveDonation. rewrite (eqb_empty_false _ Hacct). cbv zeta.
  set (endpoint := SaveDonation_endpoint donation) in *.
  set (req := newRequest c "POST" endpoint None "application/json").
  set (e := retryableError (fmt_Errorf_w "failed to unmarshal response: " perr) true).
  assert (Hop : ∀ w0, handler w0 = handler w ->
            ∃ w1, makeRequest lib ctx c "POST" endpoint None w0
                  = (Returns (None, Some e), w1)
                  ∧ sent w1 = sent w0 ++ [req] ∧ handler w1 = handler w).
  { intros w0 Hh.
    destruct (makeRequest_answered lib ctx c "POST" endpoint w0 hc requestURI
                StatusCode respBody Hc Hnew) as (w1 & Hrun & Hsent & Hh1).
    { rewrite Hh. apply Hserver. }
    rewrite (classifyResponse_retryable lib _ _ _ Hparse Hsentinel) in Hrun.
    exists w1. split; [done|split; [done|congruence]]. }
  destruct (Hop w eq_refl) as (w1 & Hrun1 & Hsent1 & Hh1).
  destruct (backoff_Retry_persistent (handler w) _ None e req n rest w1 Hop Hrest Hh1)
    as (w' & Hloop & Hsent').
  unfold mbind at 1, M_bind at 1. rewrite Hrun1, Hretry. simpl.
  fold ctx in Hloop.
  unfold mbind at 1, M_bind at 1. unfold mbind at 1, M_bind at 1.
  rewrite Hloop. simpl.
  exists w'. split.
  - by destruct rest as [|[| |cause] rest'].
  - apply issued_app. rewrite Hsent', Hsent1, <- app_assoc. done.
Qed.

(** ** Sparse updates *)

Lemma lookup_Values_Set_if (cond : bool) (key value : string) (v : Values)
    (k : string) :
  Values_Set_if cond key value v !! k
  = if decide (key = k) then (if cond then Some [value] else v !! k) else v !! k.
Proof.
  unfold Values_Set_if, Values_Set. destruct cond.
  - destruct (decide (key = k)) as [->|Hne];
      [apply lookup_insert_eq|by apply lookup_insert_ne].
  - by destruct (decide (key = k)).
Qed.

Lemma lookup_Values_Set (key value : string) (v : Values) (k : string) :
  Values_Set key value v !! k
  = if decide (key = k) then Some [value] else v !! k.
Proof. apply (lookup_Values_Set_if true). Qed.

Lemma dom_Values_Set_if (cond : bool) (key value : string) (v : Values)
    (keys : gset string) :
  key ∈ keys -> dom v ⊆ keys -> dom (Values_Set_if cond key value v) ⊆ keys.
Proof.
  intros Hk Hv. unfold Values_Set_if, Values_Set. destruct cond; [|done].
  rewrite dom_insert_L. apply union_least; [by apply singleton_subseteq_l|done].
Qed.

Lemma sparse_guard (value : string) (v : option (list string)) :
  (if negb (String.eqb value "") then Some [value] else v)
  = if String.eqb value "" then v else Some [value].
Proof. by destruct (String.eqb value ""). Qed.

Ltac key_listed := rewrite !elem_of_union, !elem_of_singleton; tauto.

Lemma lookup_Values_Set_if_eq (cond : bool) (key value : string) (v : Values) :
  Values_Set_if cond key value v !! key
  = if cond then Some [value] else v !! key.
Proof. rewrite lookup_Values_Set_if. by destruct (decide (key = key)). Qed.

Lemma lookup_Values_Set_if_ne (cond : bool) (key value : string) (v : Values)
    (k : string) :
  String.eqb key k = false -> Values_Set_if cond key value v !! k = v !! k.
Proof.
  intros Hne%String.eqb_neq. rewrite lookup_Values_Set_if.
  by destruct (decide (key = k)).
Qed.

Lemma lookup_Values_Set_eq (key value : string) (v : Values) :
  Values_Set key value v !! key = Some [value].
Proof. apply (lookup_Values_Set_if_eq true). Qed.

Lemma lookup_Values_Set_ne (key value : string) (v : Values) (k : string) :
  String.eqb key k = false -> Values_Set key value v !! k = v !! k.
Proof. apply (lookup_Values_Set_if_ne true). Qed.

Ltac lookup_field :=
  repeat first
    [ rewrite lookup_Values_Set_if_eq
    | rewrite lookup_Values_Set_if_ne by reflexivity
    | rewrite lookup_Values_Set_eq
    | rewrite lookup_Values_Set_ne by reflexivity ];
  rewrite ?lookup_empty; unfold sparse;
  try (by destruct (String.eqb _ "")); try done.

Lemma conducts_executor_body (P : Request -> Prop)
    (ctx : Context) (c : donatelyClient) (method endpoint : string)
    (body : option any') (contentType : string) :
  (∀ reqBody, encodeBody lib body contentType = inr reqBody ->
              P (newRequest c method endpoint reqBody contentType)) ->
  conducts (has_handle c) c (budget c) P exactly_one_nil
    (makeRequestWithContentType lib ctx c method endpoint body contentType).
Proof.
  intros HP w.
  destruct (makeRequestWithContentType_conducts ctx c method endpoint body
              contentType w) as [Hf Hres].
  split; [|exact Hres].
  eapply follows_weaken; [apply le_n| |exact Hf].
  intros r (reqBody & Henc & ->). by apply HP.
Qed.

Lemma conducts_issued {A} (t : bool) (c : donatelyClient) (n : nat)
    (P : Request -> Prop) (Q : A -> Prop) (m : M A) (w : World) :
  conducts t c n P Q m -> Forall P (issued w (m w).2).
Proof.
  intros Hm. destruct (Hm w) as [Hf _]. by apply follows_issued in Hf as [_ HP].
Qed.

(** X15. The body of every request of [SavePerson] is the form encoding of
    a sparse update: the ID of the person's first account, and of the ten
    personal fields exactly those that are not empty, each under its own
    key with its value unchanged; the person's ID travels in the path only. *)
Theorem SavePerson_sends_sparse_form (ctx : Context) (c : donatelyClient)
    (person : Person) (w : World) :
  Forall (fun r =>
    ∃ (first : Account) (formData : Values),
      head (Person_Accounts person) = Some first
      ∧ Body r = Some (Values_Encode formData)
      ∧ formData !! "account_id" = Some [Account_ID first]
      ∧ formData !! "first_name" = sparse (Person_FirstName person)
      ∧ formData !! "last_name" = sparse (Person_LastName person)
      ∧ formData !! "email" = sparse (Person_Email person)
      ∧ formData !! "phone_number" = sparse (Person_PhoneNumber person)
      ∧ formData !! "street_address" = sparse (Person_StreetAddress person)
      ∧ formData !! "street_address_2" = sparse (Person_StreetAddress2 person)
      ∧ formData !! "city" = sparse (Person_City person)
      ∧ formData !! "state" = sparse (Person_State person)
      ∧ formData !! "zip_code" = sparse (Person_ZipCode person)
      ∧ formData !! "country" = sparse (Person_Country person)
      ∧ dom formData ⊆ {["account_id"; "first_name"; "last_name"; "email";
                         "phone_number"; "street_address"; "street_address_2";
                         "city"; "state"; "zip_code"; "country"]})
    (issued w (SavePerson lib ctx c person w).2).
Proof.
  eapply (conducts_issued (has_handle c) c (budget c) _
            (zero_on_error Person_zero)).
  unfold SavePerson.
  destruct (Person_Accounts person) as [|first rest].
  { apply conducts_ret_early. by intros ?. }
  destruct (String.eqb (Account_ID first) "").
  { apply conducts_ret_early. by intros ?. }
  cbv zeta. apply decode_conducts, conducts_executor_body. intros reqBody Henc.
  unfold encodeBody in Henc. rewrite String.eqb_refl in Henc.
  injection Henc as <-.
  eexists first, _. split; [done|]. split; [done|].
  repeat (split; [lookup_field|]).
  repeat (apply dom_Values_Set_if; [key_listed|]).
  unfold Values_Set. rewrite dom_insert_L, dom_empty_L, union_empty_r_L.
  apply singleton_subseteq_l. key_listed.
Qed.

(** X16. The query string of every request of [SaveDonation] is the
    encoding of a sparse update: the account's ID always; the amount only
    when positive, in decimal; [anonymous=true] only for an anonymous
    donation; the donation type, campaign ID, donor email, comment,
    on-behalf-of and status only when not empty. The request has no body. *)
Theorem SaveDonation_sends_sparse_query (ctx : Context) (c : donatelyClient)
    (donation : Donation') (w : World) :
  Forall (fun r =>
    ∃ params : Values,
      URL r = baseURL (opts c) +:+ save_path "/donations" (Donation_ID donation)
                +:+ "?" +:+ Values_Encode params
      ∧ Body r = None
      ∧ params !! "account_id" = Some [Account_ID (Donation_Account donation)]
      ∧ params !! "amount_in_cents"
        = (if (Donation_AmountInCents donation >? 0)%Z
           then Some [strconv_Itoa (Donation_AmountInCents donation)] else None)
      ∧ params !! "donation_type" = sparse (Donation_DonationType donation)
      ∧ params !! "campaign_id"
        = sparse (Campaign_ID (Donation_Campaign donation))
      ∧ params !! "email" = sparse (Person_Email (Donation_Person donation))
      ∧ params !! "comment" = sparse (Donation_Comment donation)
      ∧ params !! "anonymous"
        = (if Donation_Anonymous donation then Some ["true"] else None)
      ∧ params !! "on_behalf_of" = sparse (Donation_OnBehalfOf donation)
      ∧ params !! "status" = sparse (Donation_Status donation)
      ∧ dom params ⊆ {["account_id"; "amount_in_cents"; "donation_type";
                       "campaign_id"; "email"; "comment"; "anonymous";
                       "on_behalf_of"; "status"]})
    (issued w (SaveDonation lib ctx c donation w).2).
Proof.
  destruct (SaveDonation_conducts ctx c donation w) as [Hf _].
  apply follows_issued in Hf as [_ HP].
  eapply Forall_impl; [exact HP|].
  intros r ([_ Hurl] & _ & _ & Hbody).
  exists (SaveDonation_params donation).
  split; [exact Hurl|].
  split; [by apply Hbody|].
  unfold SaveDonation_params.
  repeat (split; [lookup_field|]).
  repeat (apply dom_Values_Set_if; [key_listed|]).
  unfold Values_Set. rewrite dom_insert_L, dom_empty_L, union_empty_r_L.
  apply singleton_subseteq_l. key_listed.
Qed.

(** ** Reaching the server *)







(** X21. A call the client stops locally ([SavePerson] for a person whose
    first account is missing or has no ID, [SaveDonation] and
    [RefundDonation] for a donation whose account has no ID) returns the
    error [missing account information] and leaves the world as it was: no
    request, no output, whatever the client and the server. *)
Theorem calls_stopped_locally (ctx : Context) (c : donatelyClient) (k : call')
    (w : World) :
  stopped_locally k = true ->
  perform lib dec ctx c k w
  = (Returns (Some (errors_New "missing account information")), w).
Proof.
  destruct k; simpl; try discriminate; intros Hstop.
  - unfold error_of, SavePerson.
    destruct (Person_Accounts person) as [|first others]; [done|].
    by rewrite Hstop.
  - unfold error_of, SaveDonation. by rewrite Hstop.
  - unfold RefundDonation. by rewrite Hstop.
Qed.

End Coverage.
(** ** Escaping *)

Section Escaping.

Lemma upperhex_alphabet (n : N) (mode : encoding) :
  byte_in (upperhex n) (escaped_alphabet mode) = true.
Proof.
  unfold upperhex. destruct (N.to_nat n) as [|k]; [by destruct mode|].
  do 15 (destruct k as [|k]; [by destruct mode|]). by destruct mode.
Qed.

Lemma unescaped_alphabet (ch : ascii) (mode : encoding) :
  shouldEscape ch mode = false -> byte_in ch (escaped_alphabet mode) = true.
Proof.
  destruct ch as [[] [] [] [] [] [] [] []]; destruct mode; vm_compute;
    intros H; first [reflexivity | discriminate H].
Qed.

Lemma escape_alphabet (s : string) (mode : encoding) :
  Forall (fun ch => byte_in ch (escaped_alphabet mode) = true)
    (bytes (escape s mode)).
Proof.
  induction s as [|ch s IH]; [constructor|]. simpl.
  destruct (shouldEscape ch mode) eqn:Hesc.
  - assert (Hhex : Forall (fun ch => byte_in ch (escaped_alphabet mode) = true)
        (bytes (String "%"%char
                  (String (upperhex (N.shiftr (N_of_ascii ch) 4))
                     (String (upperhex (N.land (N_of_ascii ch) 15))
                        (escape s mode)))))).
    { unfold bytes. cbn [String.list_ascii_of_string].
      apply List.Forall_cons; [by destruct mode|].
      apply List.Forall_cons; [apply upperhex_alphabet|].
      apply List.Forall_cons; [apply upperhex_alphabet|exact IH]. }
    destruct mode; [exact Hhex|].
    destruct (Ascii.eqb ch " "); [|exact Hhex].
    unfold bytes. cbn [String.list_ascii_of_string].
    apply List.Forall_cons; [done|exact IH].
  - unfold bytes. cbn [String.list_ascii_of_string].
    apply List.Forall_cons; [by apply unescaped_alphabet|exact IH].
Qed.

(** X17. An escaped ID or value is inert where the client puts it: the
    output of [url.PathEscape] has no slash, question mark, hash, space,
    semicolon or comma, so an ID stays one path segment; the output of
    [url.QueryEscape] has in addition no ampersand and no equals sign, so a
    value stays one value. Both consist of the bytes of
    [escaped_alphabet] only. *)
Theorem escaped_text_is_inert (s : string) :
  Forall (fun ch => byte_in ch (escaped_alphabet encodePathSegment) = true
                    ∧ byte_in ch "/?# ;," = false)
    (bytes (url_PathEscape s))
  ∧ Forall (fun ch => byte_in ch (escaped_alphabet encodeQueryComponent) = true
                      ∧ byte_in ch "/?# ;,&=" = false)
      (bytes (url_QueryEscape s)).
Proof.
  split; (eapply Forall_impl; [apply escape_alphabet|]);
    intros ch Hch; (split; [exact Hch|]); revert Hch;
    destruct ch as [[] [] [] [] [] [] [] []]; vm_compute;
    intros H; first [reflexivity | discriminate H].
Qed.

Lemma unescape_byte (ch : ascii) (mode : encoding) (rest : string) :
  unescape mode
    (String "%"%char
       (String (upperhex (N.shiftr (N_of_ascii ch) 4))
          (String (upperhex (N.land (N_of_ascii ch) 15)) rest)))
  = String ch <$> unescape mode rest.
Proof.
  cbn [unescape]. change (Ascii.eqb "%" "%") with true. cbv iota.
  assert (Hhi : unhex (upperhex (N.shiftr (N_of_ascii ch) 4))
                = Some (N.shiftr (N_of_ascii ch) 4))
    by (by destruct ch as [[] [] [] [] [] [] [] []]).
  assert (Hlo : unhex (upperhex (N.land (N_of_ascii ch) 15))
                = Some (N.land (N_of_ascii ch) 15))
    by (by destruct ch as [[] [] [] [] [] [] [] []]).
  assert (Hch : ascii_of_N (16 * N.shiftr (N_of_ascii ch) 4
                            + N.land (N_of_ascii ch) 15) = ch)
    by (by destruct ch as [[] [] [] [] [] [] [] []]).
  rewrite Hhi, Hlo. destruct (unescape mode rest); simpl; [by rewrite Hch|done].
Qed.

Lemma unescape_plain (ch : ascii) (mode : encoding) (rest : string) :
  shouldEscape ch mode = false ->
  unescape mode (String ch rest) = String ch <$> unescape mode rest.
Proof.
  intros Hesc. cbn [unescape].
  assert (Hp : Ascii.eqb ch "%" = false)
    by (revert Hesc; destruct ch as [[] [] [] [] [] [] [] []]; destruct mode;
        vm_compute; intros H; first [reflexivity | discriminate H]).
  assert (Hplus : Ascii.eqb ch "+"
                  && match mode with encodeQueryComponent => true | _ => false end
                  = false)
    by (revert Hesc; destruct ch as [[] [] [] [] [] [] [] []]; destruct mode;
        vm_compute; intros H; first [reflexivity | discriminate H]).
  by rewrite Hp, Hplus.
Qed.

Lemma unescape_escape (mode : encoding) (s : string) :
  unescape mode (escape s mode) = Some s.
Proof.
  induction s as [|ch s IH]; [done|]. cbn [escape].
  destruct (shouldEscape ch mode) eqn:Hesc.
  - destruct mode.
    + by rewrite unescape_byte, IH.
    + destruct (Ascii.eqb_spec ch " ") as [->|Hsp].
      * cbn [unescape]. by rewrite IH.
      * by rewrite unescape_byte, IH.
  - by rewrite (unescape_plain _ _ _ Hesc), IH.
Qed.

(** X18. Escaping loses nothing: unescaping what [url.PathEscape] or
    [url.QueryEscape] wrote gives the string back, so two different IDs
    or values never escape to the same text. *)
Theorem escape_round_trip (mode : encoding) (s : string) :
  unescape mode (escape s mode) = Some s
  ∧ ∀ s', escape s mode = escape s' mode -> s = s'.
Proof.
  split; [apply unescape_escape|].
  intros s' Heq. apply (f_equal (unescape mode)) in Heq.
  rewrite !unescape_escape in Heq. by injection Heq.
Qed.

Lemma append_cancel (prefix a b : string) :
  prefix +:+ a = prefix +:+ b -> a = b.
Proof.
  induction prefix as [|ch prefix IH]; [done|].
  intros [= Heq]. by apply IH.
Qed.

Lemma append_not_self (prefix a : string) : a ≠ "" -> prefix ≠ prefix +:+ a.
Proof.
  intros Ha Heq. apply Ha.
  symmetry. apply (append_cancel prefix). by rewrite append_empty_r.
Qed.

(** X19. The path of a save operation determines the record: two IDs give
    the same path under a collection only when they are equal, the empty
    ID of a new record included. *)
Theorem save_path_injective (collection id id' : string) :
  save_path collection id = save_path collection id' -> id = id'.
Proof.
  unfold save_path.
  destruct (String.eqb_spec id "") as [->|Hid];
    destruct (String.eqb_spec id' "") as [->|Hid']; [done|..].
  - intros Heq. by apply append_not_self in Heq.
  - intros Heq. symmetry in Heq. by apply append_not_self in Heq.
  - intros Heq%append_cancel.
    change ("/" +:+ ?x) with (String "/" x) in Heq. injection Heq as Heq.
    unfold url_PathEscape in Heq.
    apply (f_equal (unescape encodePathSegment)) in Heq.
    rewrite !unescape_escape in Heq. by injection Heq.
Qed.

End Escaping.

(** * The client at work

    The theorems above, applied to the reference environment: the clients
    and servers of the test suite. *)

Import Reference.

Lemma NewDonatelyClient_empty_base_url_witness :
  NewDonatelyClient [WithAPIKey "test-api-key"; WithBaseURL ""]
    = (donatelyClient_zero, Some (errors_New "missing base URL!"))
  ∧ NewDonatelyClient [WithBaseURL ""; WithAPIKey "test-api-key"]
    = (donatelyClient_zero, Some (errors_New "missing base URL!")).
Proof.
  destruct (NewDonatelyClient_empty_base_url "test-api-key" [])
    as (H1 & H2 & _); [discriminate|].
  split; [exact H1|exact H2].
Defined.

(** TestHTTPErrorHandling: status 404 and an envelope without an error
    triple. *)
Lemma makeRequest_classifies_envelope_witness :
  ∃ e, (makeRequestWithContentType lib [] (test_client false) "GET"
          "/accounts/acc_123" None "application/json" (world (always 404 "{}"))).1
       = Returns (None, Some e)
     ∧ Error e = "HTTP error: 404 (Raw Response: {[]    })"
     ∧ contains "404" (Error e)
     ∧ assert_retryable (Some e) = None.
Proof.
  destruct (makeRequest_classifies_envelope lib [] (test_client false) "GET"
              "/accounts/acc_123" None "application/json" (world (always 404 "{}"))
              http_Client_zero None "/accounts/acc_123" 404 "{}" empty_envelope
              eq_refl eq_refl eq_refl eq_refl eq_refl)
    as (_ & Hhttp & _).
  apply Hhttp; [|vm_compute; discriminate].
  intros (Htype & _). by apply Htype.
Defined.

(** A body of [  Retry Later ] with surrounding white space and capitals,
    under status 503, is the retry sentinel. *)
Lemma makeRequest_classifies_unparseable_witness :
  (makeRequestWithContentType lib [] (test_client false) "POST" "/donations"
     None "application/json" (world (always 503 "  Retry Later "))).1
  = Returns (None, Some (retryableError
      (fmt_Errorf_w "failed to unmarshal response: " syntax_error) true)).
Proof.
  destruct (makeRequest_classifies_unparseable lib [] (test_client false) "POST"
              "/donations" None "application/json"
              (world (always 503 "  Retry Later "))
              http_Client_zero None "/donations" 503 "  Retry Later " syntax_error
              eq_refl eq_refl eq_refl eq_refl eq_refl)
    as (Hsentinel & _).
  apply Hsentinel. vm_compute. reflexivity.
Defined.

(** Retry disabled, the server says [retry later]: the call panics. *)
Lemma SaveDonation_retry_disabled_nil_dereference_witness :
  ∃ w', SaveDonation lib [] (test_client false) (donation "" "acc_123" 1000)
          (world (always 200 "retry later"))
        = (Panics nil_dereference, w')
      ∧ issued (world (always 200 "retry later")) w'
        = [newRequest (test_client false) "POST"
             "/donations?account_id=acc_123&amount_in_cents=1000" None
             "application/json"].
Proof.
  apply (SaveDonation_retry_disabled_nil_dereference lib [] (test_client false)
           (donation "" "acc_123" 1000) (world (always 200 "retry later"))
           http_Client_zero "/donations?account_id=acc_123&amount_in_cents=1000"
           200 "retry later" syntax_error).
  - reflexivity.
  - reflexivity.
  - discriminate.
  - vm_compute. reflexivity.
  - reflexivity.
  - reflexivity.
  - vm_compute. reflexivity.
Defined.

(** Retry enabled, the server answers the first request with a donation:
    the call returns the zero donation, not the decoded one. *)
Lemma SaveDonation_retry_enabled_first_success_returns_zero_witness :
  (∃ w', SaveDonation lib [] (test_client true) (donation "" "acc_123" 1000)
           (world (always 200 success_body))
         = (Returns (Donation_zero lib, None), w')
       ∧ issued (world (always 200 success_body)) w'
         = [newRequest (test_client true) "POST"
              "/donations?account_id=acc_123&amount_in_cents=1000" None
              "application/json"])
  ∧ json_Unmarshal_Donation lib donation_json = inr (donation "don_123" "" 0)
  ∧ Donation_zero lib ≠ donation "don_123" "" 0.
Proof.
  split; [|split; [reflexivity|discriminate]].
  apply (SaveDonation_retry_enabled_first_success_returns_zero lib []
           (test_client true) (donation "" "acc_123" 1000)
           (world (always 200 success_body)) http_Client_zero
           "/donations?account_id=acc_123&amount_in_cents=1000"
           200 success_body
           {| APIResponse_Data := donation_json; APIResponse_Type := "";
              APIResponse_Message := ""; APIResponse_Code := "";
              APIResponse_RequestID := "" |}).
  - reflexivity.
  - reflexivity.
  - discriminate.
  - vm_compute. reflexivity.
  - reflexivity.
  - reflexivity.
  - intros (Htype & _). apply Htype. reflexivity.
  - reflexivity.
Defined.

(** TestRetryOnRetryableError: [retry later] first, success on the second
    attempt. *)
Lemma SaveDonation_retry_then_success_witness :
  ∃ w',
    SaveDonation lib [] (test_client true) (donation "" "acc_123" 1000)
      (world retry_later_once)
    = (Returns (donation "don_123" "" 0, None), w')
    ∧ issued (world retry_later_once) w'
      = [newRequest (test_client true) "POST"
           "/donations?account_id=acc_123&amount_in_cents=1000" None
           "application/json";
         newRequest (test_client true) "POST"
           "/donations?account_id=acc_123&amount_in_cents=1000" None
           "application/json"].
Proof.
  apply (SaveDonation_retry_then_success lib [] (test_client true)
           (donation "" "acc_123" 1000) (world retry_later_once)
           http_Client_zero "/donations?account_id=acc_123&amount_in_cents=1000"
           200 "retry later" syntax_error 200 success_body
           {| APIResponse_Data := donation_json; APIResponse_Type := "";
              APIResponse_Message := ""; APIResponse_Code := "";
              APIResponse_RequestID := "" |}
           (donation "don_123" "" 0)).
  - reflexivity.
  - reflexivity.
  - discriminate.
  - vm_compute. reflexivity.
  - reflexivity.
  - reflexivity.
  - vm_compute. reflexivity.
  - reflexivity.
  - reflexivity.
  - intros (Htype & _). apply Htype. reflexivity.
  - reflexivity.
  - reflexivity.
Defined.

(** TestSavePerson, TestSaveDonation, and a subscription and a campaign:
    an update goes to the record's path, a create to the collection. *)
Lemma save_operations_route_witness :
  (∃ formData : Values,
     issued (world (always 200 "{}"))
       (SavePerson encoding [] (test_client false) (person [account "acc_123"])
          (world (always 200 "{}"))).2
     = [newRequest (test_client false) "POST" "/people"
          (Some (Values_Encode formData)) "application/x-www-form-urlencoded"])
  ∧ (∃ rest,
       issued (world (always 200 success_body))
         (SaveDonation encoding [] (test_client false)
            (donation "don 1/2" "acc_123" 2500)
            (world (always 200 success_body))).2
       = newRequest (test_client false) "POST"
           "/donations/don%201%2F2?account_id=acc_123&amount_in_cents=2500"
           None "application/json" :: rest)
  ∧ issued (world (always 200 "{}"))
      (SaveSubscription encoding [] (test_client false) (subscription "sub_123")
         (world (always 200 "{}"))).2
    = [newRequest (test_client false) "POST" "/subscriptions/sub_123"
         (Some (marshal_id "sub_123")) "application/json"]
  ∧ issued (world (always 200 "{}"))
      (SaveCampaign encoding [] (test_client false) (Campaign_zero encoding)
         (world (always 200 "{}"))).2
    = [newRequest (test_client false) "POST" "/campaigns"
         (Some (marshal_id "")) "application/json"].
Proof.
  destruct (save_operations_route encoding [] (test_client false)
              (world (always 200 "{}"))) as (Hperson & _ & Hsubscription & Hcampaign).
  destruct (save_operations_route encoding [] (test_client false)
              (world (always 200 success_body))) as (_ & Hdonation & _).
  split; [|split; [|split]].
  - apply (proj2 (Hperson (person [account "acc_123"])) http_Client_zero "/people").
    + reflexivity.
    + vm_compute. discriminate.
    + vm_compute. reflexivity.
  - apply (proj2 (proj2 (Hdonation (donation "don 1/2" "acc_123" 2500)))
             http_Client_zero
             "/donations/don%201%2F2?account_id=acc_123&amount_in_cents=2500").
    + reflexivity.
    + discriminate.
    + vm_compute. reflexivity.
  - apply (proj2 (Hsubscription (subscription "sub_123")) http_Client_zero
             "/subscriptions/sub_123" (marshal_id "sub_123")).
    + reflexivity.
    + reflexivity.
    + vm_compute. reflexivity.
  - apply (proj2 (Hcampaign (Campaign_zero encoding)) http_Client_zero
             "/campaigns" (marshal_id "")).
    + reflexivity.
    + reflexivity.
    + vm_compute. reflexivity.
Defined.

(** TestListPeople, and the same call with a zero offset and a negative
    limit: the one request carries the positive values and leaves the
    others out. *)
Lemma list_operations_pagination_witness :
  issued (world (always 200 "{}"))
    (ListPeople lib [] (test_client false) (account "acc_123") 10 20
       (world (always 200 "{}"))).2
  = [newRequest (test_client false) "GET"
       "/people?account_id=acc_123&limit=20&offset=10" None "application/json"]
  ∧ issued (world (always 200 "{}"))
      (ListDonations lib [] (test_client false) (account "acc_123") 0 (-5)
         (world (always 200 "{}"))).2
    = [newRequest (test_client false) "GET"
         "/donations?account_id=acc_123" None "application/json"].
Proof.
  split.
  - apply (proj1 (proj2 (proj2 (proj2
             (list_operations_pagination lib [] (test_client false)
                (account "acc_123") 10 20 (world (always 200 "{}"))))))
             http_Client_zero "/people?account_id=acc_123&limit=20&offset=10").
    + reflexivity.
    + vm_compute. reflexivity.
  - apply (proj2 (proj2 (proj2 (proj2
             (list_operations_pagination lib [] (test_client false)
                (account "acc_123") 0 (-5) (world (always 200 "{}"))))))
             http_Client_zero "/donations?account_id=acc_123").
    + reflexivity.
    + vm_compute. reflexivity.
Defined.

(** TestRefundDonation: the request is JSON, where a form-urlencoded body
    would have been [account_id=acc_123&refund_reason=Customer+request]. *)
Lemma RefundDonation_sends_json_witness :
  (∃ req,
     issued (world (always 200 success_body))
       (RefundDonation lib [] (test_client false) (donation "don_123" "acc_123" 0)
          "Customer request" (world (always 200 success_body))).2 = [req]
     ∧ request_to (test_client false) "POST" "/donations/don_123/refund" req
     ∧ Header req !! "Content-Type" = Some ["application/json"]
     ∧ Body req = Some refund_json
     ∧ dom (Values_Set "refund_reason" "Customer request"
              (Values_Set "account_id" "acc_123" ∅) : Values)
       = {["account_id"; "refund_reason"]})
  ∧ Values_Encode (Values_Set "refund_reason" "Customer request"
                     (Values_Set "account_id" "acc_123" ∅))
    = "account_id=acc_123&refund_reason=Customer+request"
  ∧ refund_json ≠ "account_id=acc_123&refund_reason=Customer+request".
Proof.
  split; [|split; [vm_compute; reflexivity|vm_compute; discriminate]].
  apply (RefundDonation_sends_json lib [] (test_client false)
           (donation "don_123" "acc_123" 0) "Customer request"
           (world (always 200 success_body)) http_Client_zero
           "/donations/don_123/refund" refund_json).
  - reflexivity.
  - discriminate.
  - vm_compute. reflexivity.
  - vm_compute. reflexivity.
Defined.

(** A person whose first account has no ID and whose second account has
    one: the person has an account with a non-empty ID, and [SavePerson]
    still fails validation without a request. *)
Lemma SavePerson_checks_first_account_only :
  has_account (person [account ""; account "acc_123"])
  ∧ validation_failure (world (always 200 success_body))
      (SavePerson lib [] (test_client false)
         (person [account ""; account "acc_123"])
         (world (always 200 success_body)))
  ∧ ¬ (validation_failure (world (always 200 success_body))
         (SavePerson lib [] (test_client false)
            (person [account ""; account "acc_123"])
            (world (always 200 success_body)))
       ↔ ¬ has_account (person [account ""; account "acc_123"])).
Proof.
  assert (Hhas : has_account (person [account ""; account "acc_123"])).
  { exists (account "acc_123"). split; [|discriminate].
    apply list_elem_of_In. right. left. reflexivity. }
  assert (Hfail : validation_failure (world (always 200 success_body))
                    (SavePerson lib [] (test_client false)
                       (person [account ""; account "acc_123"])
                       (world (always 200 success_body)))).
  { split; [|reflexivity]. eexists _, _. split; reflexivity. }
  split; [exact Hhas|]. split; [exact Hfail|].
  intros [Hiff _]. exact (Hiff Hfail Hhas).
Qed.

(** TestAPIErrorHandling. *)
Example api_error_text :
  (makeRequest lib [] (test_client false) "GET" "/accounts/acc_123" None
     (world (always 200 api_error_body))).1
  = Returns (None, Some (errorString
      "API error: invalid_api_key - (error) Invalid API key")).
Proof. vm_compute. reflexivity. Qed.

(** TestListPeople, and a call with a zero offset and a negative limit. *)
Example list_people_urls :
  URL <$> sent (ListPeople lib [] (test_client false) (account "acc_123") 10 20
                  (world (always 200 "{}"))).2
    = ["http://127.0.0.1:8080/people?account_id=acc_123&limit=20&offset=10"]
  ∧ URL <$> sent (ListPeople lib [] (test_client false) (account "acc_123") 0 (-5)
                    (world (always 200 "{}"))).2
    = ["http://127.0.0.1:8080/people?account_id=acc_123"].
Proof. split; vm_compute; reflexivity. Qed.

(** TestSavePerson and TestSaveDonation: the requests of a create and of an
    update. *)
Example save_urls :
  URL <$> sent (SavePerson lib [] (test_client false) (person [account "acc_123"])
                  (world (always 200 "{}"))).2
    = ["http://127.0.0.1:8080/people"]
  ∧ URL <$> sent (SaveDonation lib [] (test_client false)
                    (donation "don 1/2" "acc_123" 2500)
                    (world (always 200 success_body))).2
    = ["http://127.0.0.1:8080/donations/don%201%2F2?account_id=acc_123&amount_in_cents=2500"].
Proof. split; vm_compute; reflexivity. Qed.

(** ** The further properties at work *)

(** [Me] against a server that answers with an empty envelope. *)
Lemma calls_never_panic_witness :
  ∃ err w',
    perform lib decoders [] (test_client false) call_Me (world (always 200 "{}"))
    = (Returns err, w').
Proof.
  apply (calls_never_panic lib decoders [] (test_client false) call_Me
           (world (always 200 "{}")) http_Client_zero); reflexivity.
Defined.

(** A client built without an API key. *)
Lemma failed_construction_issues_nothing_witness :
  client (NewDonatelyClient [WithBaseURL "http://127.0.0.1:8080"]).1 = None
  ∧ issued (world (always 200 "{}"))
      (perform lib decoders []
         (NewDonatelyClient [WithBaseURL "http://127.0.0.1:8080"]).1
         call_ListMyDonations (world (always 200 "{}"))).2 = [].
Proof.
  apply (failed_construction_issues_nothing lib decoders [] 
           [WithBaseURL "http://127.0.0.1:8080"] call_ListMyDonations
           (world (always 200 "{}"))).
  vm_compute. discriminate.
Defined.

(** The options of the retry test, and the same without [WithRetry]. *)
Lemma provided_options_configuration_witness :
  debug (configured [WithAPIKey "test-api-key";
                     WithBaseURL "http://127.0.0.1:8080"; WithRetry]) = false
  ∧ doRetry (configured [WithAPIKey "test-api-key";
                         WithBaseURL "http://127.0.0.1:8080"; WithRetry]) = true
  ∧ has_handle (NewDonatelyClient
                  [WithAPIKey "test-api-key";
                   WithBaseURL "http://127.0.0.1:8080"; WithRetry]).1 = true.
Proof.
  destruct (provided_options_configuration
              [WithAPIKey "test-api-key"; WithBaseURL "http://127.0.0.1:8080";
               WithRetry]) as (Hdebug & _ & Hretry & Hbuilt).
  { repeat constructor. }
  split; [exact Hdebug|]. split.
  - apply Hretry. apply list_elem_of_In. right. right. left. reflexivity.
  - apply Hbuilt. reflexivity.
Defined.

Lemma provided_clients_print_nothing_witness :
  stdout (perform lib decoders [] (test_client true)
            (call_FindAccount "acc_123") (world (always 200 "{}"))).2 = [].
Proof.
  apply (provided_clients_print_nothing lib decoders []
           [WithAPIKey "test-api-key"; WithBaseURL "http://127.0.0.1:8080";
            WithRetry] (call_FindAccount "acc_123") (world (always 200 "{}"))).
  repeat constructor.
Defined.

(** TestRetryOnRetryableError, first attempt: the retryable error comes
    from a body that reads [retry later]. *)
Lemma executor_retryable_only_retry_later_witness :
  ∃ reqBody StatusCode respBody perr,
    encodeBody lib None "application/json" = inr reqBody
    ∧ handler (world (always 200 "retry later"))
        (sent (world (always 200 "retry later"))
           ++ [newRequest (test_client true) "POST" "/donations" reqBody
                 "application/json"])
      = Response StatusCode respBody
    ∧ json_Unmarshal_APIResponse lib respBody = inl perr
    ∧ strings_ToLower lib (strings_TrimSpace lib respBody) = "retry later"
    ∧ retry_later_error
      = retryableError (fmt_Errorf_w "failed to unmarshal response: " perr) true.
Proof.
  apply (executor_retryable_only_retry_later lib [] (test_client true) "POST"
           "/donations" None "application/json" (world (always 200 "retry later"))
           None retry_later_error true).
  - vm_compute. reflexivity.
  - reflexivity.
Defined.

(** A server that refuses the connection. *)
Lemma executor_transport_failure_witness :
  ∃ e w',
    makeRequestWithContentType lib [] (test_client false) "GET" "/me" None
      "application/json" (world unreachable)
    = (Returns (None, Some e), w')
    ∧ Error e
      = "failed to make request: dial tcp 127.0.0.1:8080: connect: connection refused"
    ∧ Unwrap e = Some connection_refused
    ∧ assert_retryable (Some e) = None
    ∧ issued (world unreachable) w'
      = [newRequest (test_client false) "GET" "/me" None "application/json"].
Proof.
  apply (executor_transport_failure lib [] (test_client false) "GET" "/me" None
           "application/json" (world unreachable) http_Client_zero None "/me"
           connection_refused false); reflexivity.
Defined.

(** An encoder that rejects the record. *)
Lemma save_marshal_failure_witness :
  SaveSubscription zeros [] (test_client false) (subscription "sub_123")
    (world (always 200 "{}"))
  = (Returns (Subscription_zero,
              Some (fmt_Errorf_w "failed to marshal request body: " syntax_error)),
     world (always 200 "{}"))
  ∧ SaveCampaign zeros [] (test_client false) (Campaign_zero zeros)
      (world (always 200 "{}"))
    = (Returns (Campaign_zero zeros,
                Some (fmt_Errorf_w "failed to marshal request body: " syntax_error)),
       world (always 200 "{}")).
Proof.
  destruct (save_marshal_failure zeros [] (test_client false)
              (world (always 200 "{}")) syntax_error) as [Hsubscription Hcampaign].
  split.
  - apply Hsubscription. reflexivity.
  - apply Hcampaign. reflexivity.
Defined.

(** TestRetryOnRetryableError: the two requests follow a [retry later]. *)
Lemma SaveDonation_asks_again_only_after_retry_later_witness :
  doRetry (opts (test_client true)) = true
  ∧ ∃ StatusCode respBody perr,
      handler (world retry_later_once)
        (sent (world retry_later_once)
           ++ [newRequest (test_client true) "POST"
                 (SaveDonation_endpoint (donation "" "acc_123" 1000)) None
                 "application/json"])
      = Response StatusCode respBody
      ∧ json_Unmarshal_APIResponse lib respBody = inl perr
      ∧ strings_ToLower lib (strings_TrimSpace lib respBody) = "retry later".
Proof.
  apply (SaveDonation_asks_again_only_after_retry_later lib [] (test_client true)
           (donation "" "acc_123" 1000) (world retry_later_once)).
  vm_compute. lia.
Defined.

(** A server that says [retry later] every time, and a context whose
    deadline passes during the second wait: three requests, then the
    context's error. *)
Lemma SaveDonation_retry_later_forever_witness :
  ∃ w',
    SaveDonation lib [TimerFired; ContextDone deadline_exceeded] (test_client true)
      (donation "" "acc_123" 1000) (world (always 200 "retry later"))
    = (Returns (Donation_zero lib, Some deadline_exceeded), w')
    ∧ issued (world (always 200 "retry later")) w'
      = replicate 3
          (newRequest (test_client true) "POST"
             (SaveDonation_endpoint (donation "" "acc_123" 1000)) None
             "application/json").
Proof.
  apply (SaveDonation_retry_later_forever lib (test_client true)
           (donation "" "acc_123" 1000) (world (always 200 "retry later"))
           http_Client_zero "/donations?account_id=acc_123&amount_in_cents=1000"
           200 "retry later" syntax_error 1 [ContextDone deadline_exceeded]).
  - reflexivity.
  - reflexivity.
  - discriminate.
  - vm_compute. reflexivity.
  - intros reqs. reflexivity.
  - vm_compute. reflexivity.
  - vm_compute. reflexivity.
  - discriminate.
Defined.

Lemma save_path_injective_witness :
  save_path "/donations" "don_123" = save_path "/donations" "don_123"
  ∧ "don_123" = "don_123".
Proof.
  split; [reflexivity|].
  apply (save_path_injective "/donations" "don_123" "don_123"). reflexivity.
Defined.


(** A refund of a donation without an account. *)
Lemma calls_stopped_locally_witness :
  perform lib decoders [] (test_client false)
    (call_RefundDonation (donation "don_123" "" 0) "Customer request")
    (world (always 200 "{}"))
  = (Returns (Some (errors_New "missing account information")),
     world (always 200 "{}")).
Proof.
  apply (calls_stopped_locally lib decoders [] (test_client false)
           (call_RefundDonation (donation "don_123" "" 0) "Customer request")
           (world (always 200 "{}"))).
  reflexivity.
Defined.
